(** * ovos-audio-plugin-cmus: the cmus control-socket client and its audio backends

    A shallow embedding of [CmusPlayer] (the transport client and playback
    facade), of the two audio backends built on it ([OVOSCmusService] and
    [CmusOCPAudioService]) and of the [load_service] factory.

    Python text ([str]) is a list of Unicode code points, [bytes] a list of
    bytes, an [int] an integer of [Z] and a [float] a binary64 value of the
    Standard Library's [spec_float].  The operating system and the cmus process at the other end of the
    control socket are an explicit [World]; every call that touches them is
    logged in the world's [trace].  Methods are state transformers that
    either return a value or raise, and a raised exception keeps the
    mutations made before it, as in Python. *)

From Stdlib Require Import List NArith ZArith Arith Lia Bool String Ascii.
From Stdlib Require Import Strings.Byte DecimalString.
From Stdlib Require Import Floats.SpecFloat Floats.PrimFloat Floats.FloatOps.
Import ListNotations.

Set Implicit Arguments.

#[local] Abbreviation length := List.length.

(** ** Text and bytes *)

Definition pystr := list N.
Definition bytes := list byte.

(** A literal of the source, as code points. *)
Definition str (s : string) : pystr :=
  List.map N_of_ascii (list_ascii_of_string s).

Definition pystr_eqb (a b : pystr) : bool :=
  if list_eq_dec N.eq_dec a b then true else false.

(** [p] is a prefix of [s] ([s.startswith(p)]). *)
Fixpoint startswith (p s : pystr) : bool :=
  match p, s with
  | [], _ => true
  | _ :: _, [] => false
  | a :: p', b :: s' => (a =? b)%N && startswith p' s'
  end.

(** [needle in hay] on text: some position of [hay] starts with [needle]. *)
Fixpoint str_in (needle hay : pystr) : bool :=
  startswith needle hay
  || match hay with
     | [] => false
     | _ :: hay' => str_in needle hay'
     end.

Definition newline : pystr := [10%N].

(** [text.encode("ascii")]: every code point must be below 128; [None]
    stands for [UnicodeEncodeError]. *)
Fixpoint encode_ascii (s : pystr) : option bytes :=
  match s with
  | [] => Some []
  | c :: s' =>
      if (c <? 128)%N then
        match Byte.of_N c, encode_ascii s' with
        | Some b, Some bs => Some (b :: bs)
        | _, _ => None
        end
      else None
  end.

Definition is_ascii (s : pystr) : bool := forallb (fun c => (c <? 128)%N) s.

(** A continuation byte, 10xxxxxx. *)
Definition utf8_cont (b : byte) : bool :=
  let n := Byte.to_N b in (128 <=? n)%N && (n <=? 191)%N.

Definition in_range (lo hi : N) (b : byte) : bool :=
  let n := Byte.to_N b in (lo <=? n)%N && (n <=? hi)%N.

Definition low6 (b : byte) : N := N.land (Byte.to_N b) 63.

(** [data.decode("utf-8")], strict: overlong forms, surrogates, code points
    above U+10FFFF and truncated sequences are refused; [None] stands for
    [UnicodeDecodeError]. *)
Fixpoint utf8_decode (bs : bytes) : option pystr :=
  match bs with
  | [] => Some []
  | b0 :: r0 =>
      let n0 := Byte.to_N b0 in
      if (n0 <? 128)%N then option_map (cons n0) (utf8_decode r0)
      else if in_range 194 223 b0 then
        match r0 with
        | b1 :: r1 =>
            if utf8_cont b1 then
              option_map
                (cons (N.lor (N.shiftl (N.land n0 31) 6) (low6 b1)))
                (utf8_decode r1)
            else None
        | _ => None
        end
      else if in_range 224 239 b0 then
        match r0 with
        | b1 :: b2 :: r2 =>
            if in_range (if (n0 =? 224)%N then 160 else 128)
                        (if (n0 =? 237)%N then 159 else 191) b1
               && utf8_cont b2 then
              option_map
                (cons (N.lor (N.shiftl (N.land n0 15) 12)
                             (N.lor (N.shiftl (low6 b1) 6) (low6 b2))))
                (utf8_decode r2)
            else None
        | _ => None
        end
      else if in_range 240 244 b0 then
        match r0 with
        | b1 :: b2 :: b3 :: r3 =>
            if in_range (if (n0 =? 240)%N then 144 else 128)
                        (if (n0 =? 244)%N then 143 else 191) b1
               && utf8_cont b2 && utf8_cont b3 then
              option_map
                (cons (N.lor (N.shiftl (N.land n0 7) 18)
                             (N.lor (N.shiftl (low6 b1) 12)
                                    (N.lor (N.shiftl (low6 b2) 6) (low6 b3)))))
                (utf8_decode r3)
            else None
        | _ => None
        end
      else None
  end.

(** [os.path.join] of [posixpath]: a component that starts with the
    separator replaces what was joined so far; no separator is added after
    an empty path or one that already ends with it. *)
Definition sep : N := 47.

Definition endswith_sep (s : pystr) : bool :=
  match rev s with
  | c :: _ => (c =? sep)%N
  | [] => false
  end.

Definition join_step (path b : pystr) : pystr :=
  if startswith [sep] b then b
  else if match path with [] => true | _ => endswith_sep path end
       then path ++ b
       else path ++ sep :: b.

Definition os_path_join (a : pystr) (p : list pystr) : pystr :=
  fold_left join_step p a.

(** ** [repr] and f-string formatting *)

Definition hex_digit (n : N) : N :=
  if (n <? 10)%N then (48 + n)%N else (87 + n)%N.

(** [width] lower-case hexadecimal digits of [n], most significant first. *)
Fixpoint hex_fixed (width : nat) (n : N) : pystr :=
  match width with
  | O => []
  | S w => hex_fixed w (N.div n 16) ++ [hex_digit (N.modulo n 16)]
  end.

Definition backslash : N := 92.
Definition squote : N := 39.
Definition dquote : N := 34.

Definition has_char (c : N) (s : pystr) : bool := existsb (N.eqb c) s.

(** The quote [repr] encloses a text in: the double quote only when the
    text has a single quote and no double quote. *)
Definition repr_quote (s : pystr) : N :=
  if has_char squote s && negb (has_char dquote s) then dquote else squote.

(** One character of [repr(text)].  [isprintable] is the Unicode database's
    answer for a code point above the ASCII range
    ([Py_UNICODE_ISPRINTABLE]); the table is the interpreter's, not this
    repository's. *)
Definition repr_char (isprintable : N -> bool) (quote c : N) : pystr :=
  if (c =? quote)%N || (c =? backslash)%N then [backslash; c]
  else if (c =? 9)%N then [backslash; 116%N]
  else if (c =? 10)%N then [backslash; 110%N]
  else if (c =? 13)%N then [backslash; 114%N]
  else if (c <? 32)%N || (c =? 127)%N then
    backslash :: 120%N :: hex_fixed 2 c
  else if (c <? 127)%N then [c]
  else if isprintable c then [c]
  else if (c <=? 255)%N then backslash :: 120%N :: hex_fixed 2 c
  else if (c <=? 65535)%N then backslash :: 117%N :: hex_fixed 4 c
  else backslash :: 85%N :: hex_fixed 8 c.

Definition str_repr (isprintable : N -> bool) (s : pystr) : pystr :=
  let q := repr_quote s in
  q :: flat_map (repr_char isprintable q) s ++ [q].

(** [", ".join(parts)] *)
Fixpoint join_comma (parts : list pystr) : pystr :=
  match parts with
  | [] => []
  | [x] => x
  | x :: rest => x ++ str ", " ++ join_comma rest
  end.

(** [repr] of a list of texts. *)
Definition list_repr (isprintable : N -> bool) (l : list pystr) : pystr :=
  str "[" ++ join_comma (List.map (str_repr isprintable) l) ++ str "]".

(** The text an f-string puts in for an [int]. *)
Definition int_str (n : Z) : pystr :=
  str (NilZero.string_of_int (Z.to_int n)).

(** What [add_path] is given: one locator, or (from the backends) the whole
    track list. *)
Inductive pyobj : Type :=
| PyStr (s : pystr)
| PyList (l : list pystr).

(** The text an f-string puts in for [{x}]. *)
Definition format_obj (isprintable : N -> bool) (x : pyobj) : pystr :=
  match x with
  | PyStr s => s
  | PyList l => list_repr isprintable l
  end.

(** ** Exceptions and results *)

Inductive exn : Type :=
| KeyError (key : pystr)
| RuntimeError (msg : pystr)
| OSError
| UnicodeEncodeError
| UnicodeDecodeError
| ZeroDivisionError
| OverflowError.

Inductive result (A : Type) : Type :=
| Ok (a : A)
| Raise (e : exn).

Arguments Ok {A} a.
Arguments Raise {A} e.

(** ** Numbers: [int / int] *)

(** The integer nearest to [num / den], a tie going to the even one
    ([den] positive). *)
Definition round_half_even (num den : Z) : Z :=
  let q := (num / den)%Z in
  match (2 * (num mod den) ?= den)%Z with
  | Lt => q
  | Gt => (q + 1)%Z
  | Eq => if Z.even q then q else (q + 1)%Z
  end.

(** [n / d < 2 ^ s], for positive [n] and [d]. *)
Definition below (n d s : Z) : bool :=
  if (0 <=? s)%Z then (n <? d * 2 ^ s)%Z else (n * 2 ^ (- s) <? d)%Z.

(** [a / b] on two [int]s, Python's true division: the binary64 float
    nearest to the exact quotient, ties to even.  The quotient [n / d] of
    the magnitudes lies between [2 ^ (s - 1)] and [2 ^ (s + 1)]; [e] is the
    exponent that gives it a mantissa of 53 bits, or the least exponent of
    the format, -1074, for a subnormal result; the mantissa is the quotient
    scaled by [2 ^ (- e)] and rounded once.  A zero divisor raises
    [ZeroDivisionError], and a result of magnitude [2 ^ 1024] or more
    [OverflowError]; a zero result, exact or by underflow, has the sign of
    the quotient. *)
Definition int_truediv (a b : Z) : result spec_float :=
  if (b =? 0)%Z then Raise ZeroDivisionError else
  let neg := xorb (a <? 0)%Z (b <? 0)%Z in
  let n := Z.abs a in
  let d := Z.abs b in
  if (n =? 0)%Z then Ok (S754_zero neg) else
  let s := (Z.log2 n - Z.log2 d)%Z in
  let e := Z.max (if below n d s then s - 53 else s - 52) (-1074) in
  let q := if (0 <=? e)%Z then round_half_even n (d * 2 ^ e)
           else round_half_even (n * 2 ^ (- e)) d in
  let (m, e') := if (q =? 2 ^ 53)%Z then (2 ^ 52, e + 1)%Z else (q, e) in
  match m with
  | Zpos p => if (1024 <? e' + 53)%Z then Raise OverflowError
              else Ok (S754_finite neg p e')
  | _ => Ok (S754_zero neg)
  end.

(** ** The world outside the process *)

(** A socket object, named by the order of its creation. *)
Definition sock := nat.

(** What the peer delivers to one [recv]: some bytes, or a reset of the
    connection. *)
Inductive Incoming : Type :=
| Data (d : bytes)
| ConnReset.

(** The state hooks of the hosting framework ([ocp_start] and the like). *)
Inductive OcpHook : Type := OcpStart | OcpStop | OcpPause | OcpResume.

(** Every call that leaves the process, in the order it is made.  [EvSend]
    carries the buffer handed to [send], [EvRecv] the buffer size asked for
    and the bytes returned. *)
Inductive Event : Type :=
| EvExists (path : pystr)
| EvSocket (s : sock)
| EvConnect (s : sock) (path : pystr)
| EvSend (s : sock) (data : bytes)
| EvRecv (s : sock) (bufsize : nat) (data : bytes)
| EvOcp (h : OcpHook).

Record World : Type := mkWorld {
  environ : list (pystr * pystr);   (* os.environ *)
  fs_exists : pystr -> bool;        (* the paths that exist *)
  listening : pystr -> bool;        (* the paths a connect succeeds on *)
  next_sock : sock;
  peer_alive : bool;                (* false once the connection is lost *)
  inbox : list Incoming;            (* what the peer delivers, in order;
                                       exhausted: the peer has closed *)
  trace : list Event
}.

Definition log (e : Event) (w : World) : World :=
  mkWorld (environ w) (fs_exists w) (listening w) (next_sock w)
          (peer_alive w) (inbox w) (trace w ++ [e]).

Definition set_next_sock (n : sock) (w : World) : World :=
  mkWorld (environ w) (fs_exists w) (listening w) n
          (peer_alive w) (inbox w) (trace w).

Definition set_peer_alive (b : bool) (w : World) : World :=
  mkWorld (environ w) (fs_exists w) (listening w) (next_sock w)
          b (inbox w) (trace w).

Definition set_inbox (i : list Incoming) (w : World) : World :=
  mkWorld (environ w) (fs_exists w) (listening w) (next_sock w)
          (peer_alive w) i (trace w).

Fixpoint assoc_get {V : Type} (k : pystr) (d : list (pystr * V)) : option V :=
  match d with
  | [] => None
  | (k', v) :: d' => if pystr_eqb k k' then Some v else assoc_get k d'
  end.

(** ** State and exceptions *)

Definition M (S A : Type) : Type := S -> result A * S.

Definition ret {S A : Type} (a : A) : M S A := fun s => (Ok a, s).

Definition raise {S A : Type} (e : exn) : M S A := fun s => (Raise e, s).

Definition bind {S A B : Type} (m : M S A) (k : A -> M S B) : M S B :=
  fun s =>
    match m s with
    | (Ok a, s') => k a s'
    | (Raise e, s') => (Raise e, s')
    end.

Declare Scope py_scope.
Delimit Scope py_scope with py_m.
Notation "x <- m ;; k" := (bind m (fun x => k))
  (at level 61, m at next level, right associativity) : py_scope.
Notation "m ;;; k" := (bind m (fun _ => k))
  (at level 61, right associativity) : py_scope.
Open Scope py_scope.

(** ** [CmusPlayer] *)

(** The one attribute an instance acquires: [_socket], absent until the
    first connection ([hasattr(self, '_socket')] is [Some]). *)
Record CmusPlayer : Type := mkPlayer { _socket : option sock }.

(** A player and the world it runs in. *)
Definition PW : Type := (CmusPlayer * World)%type.

Definition world_op {A : Type} (f : World -> result A * World) : M PW A :=
  fun st => let '(r, w') := f (snd st) in (r, (fst st, w')).

(** [os.environ[key]] *)
Definition os_environ (key : pystr) : M PW pystr :=
  world_op (fun w =>
    match assoc_get key (environ w) with
    | Some v => (Ok v, w)
    | None => (Raise (KeyError key), w)
    end).

(** [os.path.exists(path)] *)
Definition os_path_exists (path : pystr) : M PW bool :=
  world_op (fun w => (Ok (fs_exists w path), log (EvExists path) w)).

(** [socket.socket(socket.AF_UNIX, socket.SOCK_STREAM)] *)
Definition socket_socket : M PW sock :=
  world_op (fun w =>
    let s := next_sock w in
    (Ok s, log (EvSocket s) (set_next_sock (S s) w))).

(** [s.connect(path)] *)
Definition socket_connect (s : sock) (path : pystr) : M PW unit :=
  world_op (fun w =>
    let w' := log (EvConnect s path) w in
    if listening w path then (Ok tt, set_peer_alive true w')
    else (Raise OSError, w')).

(** [s.send(data)]: the buffer is handed over whole; a lost connection
    raises. *)
Definition socket_send (s : sock) (data : bytes) : M PW unit :=
  world_op (fun w =>
    let w' := log (EvSend s data) w in
    if peer_alive w then (Ok tt, w') else (Raise OSError, w')).

(** [s.recv(bufsize)]: at most [bufsize] bytes of what the peer delivers
    next, the rest staying ahead of later deliveries.  With nothing left to
    deliver the peer has closed: the read gives the empty buffer and raises
    nothing, and the connection is lost from then on, so that a later
    [send] on the socket raises (the broken pipe of a stream socket). *)
Definition socket_recv (s : sock) (bufsize : nat) : M PW bytes :=
  world_op (fun w =>
    match inbox w with
    | [] => (Ok [], set_peer_alive false (log (EvRecv s bufsize []) w))
    | Data d :: rest =>
        let got := firstn bufsize d in
        let left := skipn bufsize d in
        (Ok got,
         log (EvRecv s bufsize got)
             (set_inbox (match left with [] => rest | _ => Data left :: rest end) w))
    | ConnReset :: rest =>
        (Raise OSError, set_peer_alive false (set_inbox rest w))
    end).

Definition get_attr_socket : M PW (option sock) :=
  fun st => (Ok (_socket (fst st)), st).

Definition set_attr_socket (s : sock) : M PW unit :=
  fun st => (Ok tt, (mkPlayer (Some s), snd st)).

Definition recv_bufsize : nat := 2048.

Definition socket_not_found : exn :=
  RuntimeError (str "cmus is running, but its socket is not found").

Module CmusPlayer.

Definition create_socket : M PW sock := socket_socket.

(** The [for] loop of [socket_path] over the candidates already built. *)
Fixpoint first_existing (candidates : list pystr) : M PW pystr :=
  match candidates with
  | [] => raise socket_not_found
  | f :: rest =>
      e <- os_path_exists f ;;
      if e then ret f else first_existing rest
  end.

(** Both candidates are built, and both variables read, before the first
    is looked at. *)
Definition socket_path : M PW pystr :=
  xdg <- os_environ (str "XDG_RUNTIME_DIR") ;;
  let c1 := os_path_join xdg [str "cmus-socket"] in
  home <- os_environ (str "HOME") ;;
  let c2 := os_path_join home [str ".cmus"; str "socket"] in
  first_existing [c1; c2].

Definition connect_socket (s : sock) : M PW unit :=
  path <- socket_path ;;
  socket_connect s path.

Definition get_open_socket : M PW sock :=
  cached <- get_attr_socket ;;
  match cached with
  | Some s => ret s
  | None =>
      s <- create_socket ;;
      connect_socket s ;;;
      set_attr_socket s ;;;
      ret s
  end.

Definition encode (s : pystr) : M PW bytes :=
  match encode_ascii s with
  | Some b => ret b
  | None => raise UnicodeEncodeError
  end.

Definition decode (b : bytes) : M PW pystr :=
  match utf8_decode b with
  | Some s => ret s
  | None => raise UnicodeDecodeError
  end.

Definition send_socket_command (command : pystr) : M PW pystr :=
  s <- get_open_socket ;;
  data <- encode (command ++ newline) ;;
  socket_send s data ;;;
  reply <- socket_recv s recv_bufsize ;;
  decode reply.

Definition is_stopped : M PW bool :=
  reply <- send_socket_command (str "status") ;;
  ret (str_in (str "status stopped") reply).

Definition is_paused : M PW bool :=
  reply <- send_socket_command (str "status") ;;
  ret (str_in (str "status paused") reply).

Definition is_playing : M PW bool :=
  reply <- send_socket_command (str "status") ;;
  ret (str_in (str "status playing") reply).

Definition add_path (isprintable : N -> bool) (path : pyobj) : M PW unit :=
  send_socket_command (str "add " ++ format_obj isprintable path) ;;; ret tt.

Definition play : M PW unit :=
  send_socket_command (str "player-play") ;;; ret tt.

Definition pause : M PW unit :=
  send_socket_command (str "player-pause") ;;; ret tt.

Definition unpause : M PW unit := pause.

Definition stop : M PW unit :=
  send_socket_command (str "player-stop") ;;; ret tt.

Definition next : M PW unit :=
  send_socket_command (str "player-next") ;;; ret tt.

Definition prev : M PW unit :=
  send_socket_command (str "player-prev") ;;; ret tt.

Definition seek_forward (n : Z) : M PW unit :=
  send_socket_command (str "seek +" ++ int_str n) ;;; ret tt.

Definition seek_backward (n : Z) : M PW unit :=
  send_socket_command (str "seek -" ++ int_str n) ;;; ret tt.

Definition increase_volume (n : Z) : M PW unit :=
  send_socket_command (str "vol +" ++ int_str n ++ str "%") ;;; ret tt.

Definition lower_volume (n : Z) : M PW unit :=
  send_socket_command (str "vol -" ++ int_str n ++ str "%") ;;; ret tt.

(** [seek_to_position(seconds)] for the float the backends pass;
    [float_str] is the text an f-string puts in for a float, the
    interpreter's shortest decimal that reads back as the same float. *)
Definition seek_to_position (float_str : spec_float -> pystr)
    (seconds : spec_float) : M PW unit :=
  send_socket_command (str "seek " ++ float_str seconds) ;;; ret tt.

Definition toggle_pause : M PW unit :=
  p <- is_paused ;;
  if p then unpause else pause.

Definition play_pause : M PW unit :=
  s <- is_stopped ;;
  if s then play else toggle_pause.

End CmusPlayer.

(** ** The audio backends *)

(** A value of a configuration entry. *)
#[local] Unset Elimination Schemes.
Inductive pyval : Type :=
| VNone
| VBool (b : bool)
| VInt (z : Z)
| VStr (s : pystr)
| VList (l : list pyval)
| VDict (d : list (pystr * pyval)).
#[local] Set Elimination Schemes.

(** A dict with text keys, in insertion order. *)
Definition pydict : Type := list (pystr * pyval).

(** Python's truth value of an object. *)
Definition truthy (v : pyval) : bool :=
  match v with
  | VNone => false
  | VBool b => b
  | VInt z => negb (Z.eqb z 0)
  | VStr s => match s with [] => false | _ => true end
  | VList l => match l with [] => false | _ => true end
  | VDict d => match d with [] => false | _ => true end
  end.

(** [v == text] *)
Definition eq_str (v : pyval) (s : pystr) : bool :=
  match v with
  | VStr s' => pystr_eqb s' s
  | _ => false
  end.

(** The message bus handed to a backend, or [None]. *)
Definition Bus : Type := option nat.

Definition lift_player {S : Type} (get : S -> CmusPlayer)
    (set : CmusPlayer -> S -> S) {A : Type} (m : M PW A) : M (S * World) A :=
  fun st =>
    let '(r, (p, w)) := m (get (fst st), snd st) in
    (r, (set p (fst st), w)).

Definition emit {S : Type} (h : OcpHook) : M (S * World) unit :=
  fun st => (Ok tt, (fst st, log (EvOcp h) (snd st))).

(** An expression that returns or raises without touching the state. *)
Definition eval {S A : Type} (r : result A) : M S A := fun st => (r, st).

Module OVOSCmusService.

Record t : Type := mk {
  config : pydict;
  bus : Bus;
  name : pystr;
  index : Z;
  tracks : list pystr;
  player : CmusPlayer
}.

Definition SW : Type := (t * World)%type.

(** [OVOSCmusService(config, bus, name)] *)
Definition init (config : pydict) (bus : Bus) (name : pystr) : t :=
  mk config bus name 0 [] (mkPlayer None).

Definition set_player (p : CmusPlayer) (s : t) : t :=
  mk (config s) (bus s) (name s) (index s) (tracks s) p.

Definition on_player {A : Type} (m : M PW A) : M SW A :=
  lift_player player set_player m.

Definition clear_list : M SW unit :=
  fun st =>
    let s := fst st in
    (Ok tt, (mk (config s) (bus s) (name s) 0 [] (player s), snd st)).

Definition add_list (new_tracks : list pystr) : M SW unit :=
  fun st =>
    let s := fst st in
    (Ok tt, (mk (config s) (bus s) (name s) (index s)
                (tracks s ++ new_tracks) (player s), snd st)).

Definition get_tracks : M SW (list pystr) :=
  fun st => (Ok (tracks (fst st)), st).

Definition play (isprintable : N -> bool) : M SW unit :=
  emit OcpStart ;;;
  queued <- get_tracks ;;
  on_player (CmusPlayer.add_path isprintable (PyList queued)) ;;;
  on_player CmusPlayer.play.

Definition stop : M SW bool :=
  playing <- on_player CmusPlayer.is_playing ;;
  if playing then
    on_player CmusPlayer.stop ;;;
    emit OcpStop ;;;
    ret true
  else ret false.

Definition pause : M SW unit :=
  paused <- on_player CmusPlayer.is_paused ;;
  if negb paused then
    on_player CmusPlayer.pause ;;;
    emit OcpPause
  else ret tt.

Definition resume : M SW unit :=
  paused <- on_player CmusPlayer.is_paused ;;
  if paused then
    on_player CmusPlayer.pause ;;;
    emit OcpResume
  else ret tt.

Definition lower_volume : M SW unit :=
  on_player (CmusPlayer.lower_volume 30).

Definition restore_volume : M SW unit :=
  on_player (CmusPlayer.increase_volume 30).

Definition seek_forward (seconds : Z) : M SW unit :=
  on_player (CmusPlayer.seek_forward seconds).

Definition seek_backward (seconds : Z) : M SW unit :=
  on_player (CmusPlayer.seek_backward seconds).

(** [self.player.seek_to_position(milliseconds / 1000)] *)
Definition set_track_position (float_str : spec_float -> pystr)
    (milliseconds : Z) : M SW unit :=
  seconds <- eval (int_truediv milliseconds 1000) ;;
  on_player (CmusPlayer.seek_to_position float_str seconds).

End OVOSCmusService.

Module CmusOCPAudioService.

Record t : Type := mk {
  config : pydict;
  bus : Bus;
  index : Z;
  tracks : list pystr;
  player : CmusPlayer
}.

Definition SW : Type := (t * World)%type.

Definition init (config : pydict) (bus : Bus) : t :=
  mk config bus 0 [] (mkPlayer None).

Definition set_player (p : CmusPlayer) (s : t) : t :=
  mk (config s) (bus s) (index s) (tracks s) p.

Definition on_player {A : Type} (m : M PW A) : M SW A :=
  lift_player player set_player m.

Definition get_tracks : M SW (list pystr) :=
  fun st => (Ok (tracks (fst st)), st).

Definition play (isprintable : N -> bool) : M SW unit :=
  queued <- get_tracks ;;
  on_player (CmusPlayer.add_path isprintable (PyList queued)) ;;;
  on_player CmusPlayer.play.

Definition stop : M SW bool :=
  playing <- on_player CmusPlayer.is_playing ;;
  if playing then
    on_player CmusPlayer.stop ;;;
    ret true
  else ret false.

Definition pause : M SW unit :=
  paused <- on_player CmusPlayer.is_paused ;;
  if negb paused then on_player CmusPlayer.pause else ret tt.

Definition resume : M SW unit :=
  paused <- on_player CmusPlayer.is_paused ;;
  if paused then on_player CmusPlayer.pause else ret tt.

Definition lower_volume : M SW unit :=
  on_player (CmusPlayer.lower_volume 30).

Definition restore_volume : M SW unit :=
  on_player (CmusPlayer.increase_volume 30).

Definition seek_forward (seconds : Z) : M SW unit :=
  on_player (CmusPlayer.seek_forward seconds).

Definition seek_backward (seconds : Z) : M SW unit :=
  on_player (CmusPlayer.seek_backward seconds).

(** [self.player.seek_to_position(milliseconds / 1000)] *)
Definition set_track_position (float_str : spec_float -> pystr)
    (milliseconds : Z) : M SW unit :=
  seconds <- eval (int_truediv milliseconds 1000) ;;
  on_player (CmusPlayer.seek_to_position float_str seconds).

End CmusOCPAudioService.

(** ** [load_service] *)

(** [backends[b]['type'] in ["cmus", 'ovos_cmus'] and
    backends[b].get('active', False)], for the entry [entry = backends[b]];
    a dict without the key ['type'] raises. *)
Definition selected (entry : pydict) : result bool :=
  match assoc_get (str "type") entry with
  | None => Raise (KeyError (str "type"))
  | Some ty =>
      if eq_str ty (str "cmus") || eq_str ty (str "ovos_cmus") then
        Ok (truthy (match assoc_get (str "active") entry with
                    | Some a => a
                    | None => VBool false
                    end))
      else Ok false
  end.

(** The list comprehension that builds [services]: the keys of [backends]
    in order, each looked up again in [backends]. *)
Fixpoint select_services (backends : list (pystr * pydict))
    (keys : list pystr) : result (list (pystr * pydict)) :=
  match keys with
  | [] => Ok []
  | b :: keys' =>
      match assoc_get b backends with
      | None => Raise (KeyError b)
      | Some entry =>
          match selected entry with
          | Raise e => Raise e
          | Ok keep =>
              match select_services backends keys' with
              | Raise e => Raise e
              | Ok rest => Ok (if keep then (b, entry) :: rest else rest)
              end
          end
      end
  end.

(** The configuration handed to the factory: each section a dict of entry
    dicts. *)
Definition base_config_t : Type := list (pystr * list (pystr * pydict)).

Definition load_service (base_config : base_config_t) (bus : Bus)
    : result (list OVOSCmusService.t) :=
  let backends :=
    match assoc_get (str "backends") base_config with
    | Some d => d
    | None => []
    end in
  match select_services backends (List.map fst backends) with
  | Raise e => Raise e
  | Ok services =>
      Ok (List.map (fun s => OVOSCmusService.init (snd s) bus (fst s)) services)
  end.

(** ** Observations *)

(** The events logged between two worlds of one run. *)
Definition new_events (before after : World) : list Event :=
  skipn (length (trace before)) (trace after).

(** The buffers written to sockets, in order, each as its byte values. *)
Definition wire (evs : list Event) : list pystr :=
  flat_map (fun e => match e with
                     | EvSend _ d => [List.map Byte.to_N d]
                     | _ => []
                     end) evs.

(** How many of [lines] are the command [cmd] followed by the newline. *)
Definition count_cmd (cmd : pystr) (lines : list pystr) : nat :=
  count_occ (list_eq_dec N.eq_dec) lines (cmd ++ newline).

(** [needle] occurs in [hay]. *)
Definition substring (needle hay : pystr) : Prop :=
  exists pre post, hay = pre ++ needle ++ post.

(** What [decode('utf-8')] makes of the bytes read. *)
Definition decoded (got : bytes) : result pystr :=
  match utf8_decode got with
  | Some text => Ok text
  | None => Raise UnicodeDecodeError
  end.

(** The reply the player gives to a [status] command sent from [st]. *)
Definition status_reply (st : PW) : result pystr :=
  fst (CmusPlayer.send_socket_command (str "status") st).

Inductive status : Type := Stopped | Paused | Playing.

Definition marker (x : status) : pystr :=
  match x with
  | Stopped => str "status stopped"
  | Paused => str "status paused"
  | Playing => str "status playing"
  end.

Definition status_eqb (x y : status) : bool :=
  match x, y with
  | Stopped, Stopped | Paused, Paused | Playing, Playing => true
  | _, _ => false
  end.

(** The reply carries the marker of [x] and of no other state. *)
Definition reports (x : status) (reply : pystr) : Prop :=
  (str_in (marker Stopped) reply,
   str_in (marker Paused) reply,
   str_in (marker Playing) reply)
  = match x with
    | Stopped => (true, false, false)
    | Paused => (false, true, false)
    | Playing => (false, false, true)
    end.

(** The connection can be had (it is cached, or the socket is found and
    listened on), the peer is there, and what it delivers next decodes. *)
Definition exchange_ready (st : PW) : Prop :=
  exists s st1 d rest text,
    CmusPlayer.get_open_socket st = (Ok s, st1)
    /\ peer_alive (snd st1) = true
    /\ inbox (snd st1) = Data d :: rest
    /\ utf8_decode (firstn recv_bufsize d) = Some text.

(** Connections: how many the player holds, and how many connects of a
    trace succeeded. *)
Definition held (p : CmusPlayer) : nat :=
  match _socket p with Some _ => 1 | None => 0 end.

Definition is_established (w : World) (e : Event) : bool :=
  match e with
  | EvConnect _ path => listening w path
  | _ => false
  end.

Definition established (w : World) (evs : list Event) : nat :=
  length (filter (is_established w) evs).

(** An event is a send or a receive on [s]. *)
Definition on_sock (s : sock) (e : Event) : Prop :=
  match e with
  | EvSend s' _ => s' = s
  | EvRecv s' _ _ => s' = s
  | _ => False
  end.

(** The calls a user of [CmusPlayer] can make on the socket
    ([seek_to_position] is a [CallSend] of its formatted text). *)
Inductive Call : Type :=
| CallSend (cmd : pystr)
| CallIsStopped | CallIsPaused | CallIsPlaying
| CallAddPath (path : pyobj)
| CallPlay | CallPause | CallUnpause | CallStop | CallNext | CallPrev
| CallSeekForward (n : Z) | CallSeekBackward (n : Z)
| CallIncreaseVolume (n : Z) | CallLowerVolume (n : Z)
| CallTogglePause | CallPlayPause.

Definition void {S A : Type} (m : M S A) : M S unit := m ;;; ret tt.

Definition call (isprintable : N -> bool) (c : Call) : M PW unit :=
  match c with
  | CallSend cmd => void (CmusPlayer.send_socket_command cmd)
  | CallIsStopped => void CmusPlayer.is_stopped
  | CallIsPaused => void CmusPlayer.is_paused
  | CallIsPlaying => void CmusPlayer.is_playing
  | CallAddPath path => CmusPlayer.add_path isprintable path
  | CallPlay => CmusPlayer.play
  | CallPause => CmusPlayer.pause
  | CallUnpause => CmusPlayer.unpause
  | CallStop => CmusPlayer.stop
  | CallNext => CmusPlayer.next
  | CallPrev => CmusPlayer.prev
  | CallSeekForward n => CmusPlayer.seek_forward n
  | CallSeekBackward n => CmusPlayer.seek_backward n
  | CallIncreaseVolume n => CmusPlayer.increase_volume n
  | CallLowerVolume n => CmusPlayer.lower_volume n
  | CallTogglePause => CmusPlayer.toggle_pause
  | CallPlayPause => CmusPlayer.play_pause
  end.

(** A caller making the calls one after the other, going on after a call
    that raised. *)
Fixpoint run_calls (isprintable : N -> bool) (cs : list Call) (st : PW) : PW :=
  match cs with
  | [] => st
  | c :: cs' => run_calls isprintable cs' (snd (call isprintable c st))
  end.



(** The command [play] of a backend builds for the queue [queued]. *)
Definition add_command (isprintable : N -> bool) (queued : list pystr) : pystr :=
  str "add " ++ list_repr isprintable queued.

(** The two calls [play] of a backend makes on its player, in a row. *)
Definition add_then_play (isprintable : N -> bool) (queued : list pystr)
    : M PW unit :=
  CmusPlayer.add_path isprintable (PyList queued) ;;; CmusPlayer.play.

(** What [play] of a backend owes for the queue [queued]: [st] is the
    player and world the [add] command starts from, [w] the world before the
    call, [out] and [after] what the call returned and the world it left. *)
Definition play_contract (isprintable : N -> bool) (queued : list pystr)
    (st : PW) (w : World) (out : result unit) (after : World) : Prop :=
  let line := add_command isprintable queued in
  let lines := wire (new_events w after) in
  (is_ascii line = true ->
   exchange_ready st ->
   lines = [line ++ newline; str "player-play" ++ newline]
   /\ count_cmd line lines = 1
   /\ count_cmd (str "player-play") lines = 1)
  /\ (is_ascii line = false ->
      forall s st1,
        CmusPlayer.get_open_socket st = (Ok s, st1) ->
        out = Raise UnicodeEncodeError /\ lines = []).

(** What [play] of a backend owes about its [add] command for the queue
    [queued]: [st] is the player and world the command starts from, [w] the
    world before the call, [after] the world the call left.  With the socket
    had and an ASCII command, the [add] command is written, first and once,
    and nothing but [player-play] follows; otherwise nothing is written. *)
Definition add_contract (isprintable : N -> bool) (queued : list pystr)
    (st : PW) (w : World) (after : World) : Prop :=
  let line := add_command isprintable queued in
  let lines := wire (new_events w after) in
  (forall s st1,
     CmusPlayer.get_open_socket st = (Ok s, st1) ->
     is_ascii line = true ->
     (lines = [line ++ newline]
      \/ lines = [line ++ newline; str "player-play" ++ newline])
     /\ hd_error lines = Some (str "add " ++ list_repr isprintable queued ++ newline)
     /\ count_cmd line lines = 1)
  /\ (forall s st1,
        CmusPlayer.get_open_socket st = (Ok s, st1) ->
        is_ascii line = false ->
        lines = [])
  /\ (forall e st1,
        CmusPlayer.get_open_socket st = (Raise e, st1) ->
        lines = []).

(** What [stop] of a backend owes: [reply] is the player's answer to the
    status query, [st1] the player and world after that query, [w] the
    world before the call, [out] and [after] what the call returned and the
    world it left. *)
Definition stop_contract (reply : pystr) (st1 : PW) (w : World)
    (out : result bool) (after : World) : Prop :=
  let lines := wire (new_events w after) in
  (forall x, x = Stopped \/ x = Paused ->
     reports x reply ->
     out = Ok false
     /\ lines = [str "status" ++ newline]
     /\ count_cmd (str "player-stop") lines = 0)
  /\ (reports Playing reply ->
      lines = [str "status" ++ newline; str "player-stop" ++ newline]
      /\ count_cmd (str "player-stop") lines = 1
      /\ (forall text,
            fst (CmusPlayer.send_socket_command (str "player-stop") st1) = Ok text ->
            out = Ok true))
  /\ (forall b, out = Ok b ->
        count_cmd (str "player-stop") lines = if b then 1 else 0).

(** An entry as the factory's rule reads it: its type is one of the two
    backend names, and its [active] flag, taken as false when missing, is
    true in Python's sense. *)
Definition recognized (entry : pydict) : bool :=
  match assoc_get (str "type") entry with
  | Some ty => eq_str ty (str "cmus") || eq_str ty (str "ovos_cmus")
  | None => false
  end.

Definition active (entry : pydict) : bool :=
  match assoc_get (str "active") entry with
  | Some a => truthy a
  | None => false
  end.

Definition wanted (be : pystr * pydict) : bool :=
  recognized (snd be) && active (snd be).

(** The [backends] section of a configuration, empty when missing. *)
Definition backends_of (base_config : base_config_t) : list (pystr * pydict) :=
  match assoc_get (str "backends") base_config with
  | Some d => d
  | None => []
  end.

(** How many of [instances] were built for the entry named [b]. *)
Definition built_for (b : pystr) (instances : list OVOSCmusService.t) : nat :=
  length (filter (fun i => pystr_eqb (OVOSCmusService.name i) b) instances).

(** Every entry has a [type]. *)
Definition typed (backends : list (pystr * pydict)) : Prop :=
  forall b entry, In (b, entry) backends ->
    exists ty, assoc_get (str "type") entry = Some ty.

(** ** Sample surroundings *)

(** A machine where cmus listens on the socket under the home directory. *)
Definition sample_world (alive : bool) (next : sock) (replies : list Incoming)
    : World :=
  mkWorld [(str "XDG_RUNTIME_DIR", str "/run/user/1000");
           (str "HOME", str "/home/u")]
          (fun path => pystr_eqb path (str "/home/u/.cmus/socket"))
          (fun path => pystr_eqb path (str "/home/u/.cmus/socket"))
          next alive replies [].

(** A player not yet connected, and one that holds socket 0. *)
Definition fresh (replies : list Incoming) : PW :=
  (mkPlayer None, sample_world false 0 replies).

Definition connected (replies : list Incoming) : PW :=
  (mkPlayer (Some 0), sample_world true 1 replies).

(** The reply of the peer that carries the text [s]. *)
Definition says (s : string) : Incoming := Data (list_byte_of_string s).

(** The same machine with no control socket anywhere. *)
Definition no_socket_world : World :=
  mkWorld [(str "XDG_RUNTIME_DIR", str "/run/user/1000");
           (str "HOME", str "/home/u")]
          (fun _ => false) (fun _ => false) 0 false [] [].

(** Backends whose player holds socket 0, with [queued] as track list. *)
Definition sample_ovos (queued : list pystr) : OVOSCmusService.t :=
  OVOSCmusService.mk [] None (str "cmus") 0 queued (mkPlayer (Some 0)).

Definition sample_ocp (queued : list pystr) : CmusOCPAudioService.t :=
  CmusOCPAudioService.mk [] None 0 queued (mkPlayer (Some 0)).

(** The Unicode database on Latin-1: U+00A1 to U+00FF are printable, the
    soft hyphen U+00AD apart. *)
Definition latin1_printable (c : N) : bool :=
  (161 <=? c)%N && (c <=? 255)%N && negb (c =? 173)%N.

(** The plugin's own default configuration, [CmusAudioPluginConfig], as the
    [backends] section, with a second, inactive entry; and a configuration
    with an entry of another plugin that carries no [type]. *)
Definition sample_config : base_config_t :=
  [(str "backends",
    [(str "cmus", [(str "type", VStr (str "ovos_cmus")); (str "active", VBool true)]);
     (str "old", [(str "type", VStr (str "cmus"))])])].

Definition untyped_config : base_config_t :=
  [(str "backends",
    [(str "cmus", [(str "type", VStr (str "ovos_cmus")); (str "active", VBool true)]);
     (str "other", [(str "active", VBool true)])])].

(** A locator with a letter outside ASCII, U+00E9. *)
Definition cafe : pystr := str "caf" ++ [233%N] ++ str ".mp3".

(** ** Further observations and samples *)


(** The framework hooks called in a stretch of the trace, in order. *)
Definition hooks (evs : list Event) : list OcpHook :=
  flat_map (fun e => match e with EvOcp h => [h] | _ => [] end) evs.

(** Every byte is below 128. *)
Definition ascii_bytes (d : bytes) : bool :=
  forallb (fun b => (Byte.to_N b <? 128)%N) d.

(** The run of [m] leaves the part [f] of the backend as it was. *)
Definition unchanged {S X A : Type} (f : S -> X) (m : M (S * World) A) : Prop :=
  forall st, f (fst (snd (m st))) = f (fst st).

(** What a backend holds besides its player. *)
Definition ovos_frame (s : OVOSCmusService.t) :=
  (OVOSCmusService.tracks s, OVOSCmusService.index s, OVOSCmusService.name s,
   OVOSCmusService.config s, OVOSCmusService.bus s).

Definition ocp_frame (s : CmusOCPAudioService.t) :=
  (CmusOCPAudioService.tracks s, CmusOCPAudioService.index s,
   CmusOCPAudioService.config s, CmusOCPAudioService.bus s).

(** What [pause] and [resume] of a backend write, [reply] being the
    player's answer to the status query and [w] the world before. *)
Definition pause_resume_contract (reply : pystr) (w after_pause after_resume : World)
    : Prop :=
  wire (new_events w after_pause)
  = (str "status" ++ newline)
    :: (if str_in (str "status paused") reply then []
        else [str "player-pause" ++ newline])
  /\ wire (new_events w after_resume)
     = (str "status" ++ newline)
       :: (if str_in (str "status paused") reply
           then [str "player-pause" ++ newline] else []).

(** Every run of [m] only adds to the trace, and calls no hook. *)
Definition quiet {A : Type} (m : M PW A) : Prop :=
  forall st, exists evs,
    trace (snd (snd (m st))) = trace (snd st) ++ evs /\ hooks evs = [].

(** What [play] of a backend owes when its [add] command raises [e]:
    [out] and [after] are what the call returned and the world it left,
    [w] the world before. *)
Definition play_failure_contract (e : exn) (w : World) (out : result unit)
    (after : World) : Prop :=
  out = Raise e
  /\ count_cmd (str "player-play") (wire (new_events w after)) = 0.

(** Not a control character: neither below 32 nor 127. *)
Definition plain (c : N) : Prop := (32 <= c)%N /\ c <> 127%N.

(** A decimal digit. *)
Definition is_digit (c : N) : bool := (48 <=? c)%N && (c <=? 57)%N.

(** A reply with the state lines asked for, one line each. *)
Definition reply_with (stopped paused playing : bool) : pystr :=
  (if stopped then marker Stopped else []) ++ newline
  ++ (if paused then marker Paused else []) ++ newline
  ++ (if playing then marker Playing else []).

(** The calls on a backend other than the two that edit the queue. *)
Inductive BackendCall : Type :=
| BPlay | BStop | BPause | BResume
| BLowerVolume | BRestoreVolume
| BSeekForward (seconds : Z) | BSeekBackward (seconds : Z).

Definition ovos_call (isprintable : N -> bool) (c : BackendCall)
    : M OVOSCmusService.SW unit :=
  match c with
  | BPlay => OVOSCmusService.play isprintable
  | BStop => void OVOSCmusService.stop
  | BPause => OVOSCmusService.pause
  | BResume => OVOSCmusService.resume
  | BLowerVolume => OVOSCmusService.lower_volume
  | BRestoreVolume => OVOSCmusService.restore_volume
  | BSeekForward n => OVOSCmusService.seek_forward n
  | BSeekBackward n => OVOSCmusService.seek_backward n
  end.

Definition ocp_call (isprintable : N -> bool) (c : BackendCall)
    : M CmusOCPAudioService.SW unit :=
  match c with
  | BPlay => CmusOCPAudioService.play isprintable
  | BStop => void CmusOCPAudioService.stop
  | BPause => CmusOCPAudioService.pause
  | BResume => CmusOCPAudioService.resume
  | BLowerVolume => CmusOCPAudioService.lower_volume
  | BRestoreVolume => CmusOCPAudioService.restore_volume
  | BSeekForward n => CmusOCPAudioService.seek_forward n
  | BSeekBackward n => CmusOCPAudioService.seek_backward n
  end.

(** A machine without [XDG_RUNTIME_DIR], cmus listening under the home
    directory; and one where the socket file is there but nobody listens. *)
Definition no_xdg_world : World :=
  mkWorld [(str "HOME", str "/home/u")]
          (fun path => pystr_eqb path (str "/home/u/.cmus/socket"))
          (fun path => pystr_eqb path (str "/home/u/.cmus/socket"))
          0 false [] [].

Definition deaf_world : World :=
  mkWorld [(str "XDG_RUNTIME_DIR", str "/run/user/1000");
           (str "HOME", str "/home/u")]
          (fun path => pystr_eqb path (str "/home/u/.cmus/socket"))
          (fun _ => false) 0 false [] [].

(** A machine with an empty environment and no control socket anywhere. *)
Definition no_env_world : World :=
  mkWorld [] (fun _ => false) (fun _ => false) 0 false [] [].

(** ** Floats: observations and samples *)

(** [float(k)] of an [int]: the float nearest to it. *)
Definition float_of_int (k : Z) : result spec_float := int_truediv k 1.

(** [x.is_integer()]: the float is finite and has no fractional part. *)
Definition is_integer (x : spec_float) : bool :=
  match x with
  | S754_zero _ => true
  | S754_finite _ p e =>
      if (0 <=? e)%Z then true else (Zpos p mod 2 ^ (- e) =? 0)%Z
  | _ => false
  end.

(** [x] is the exact quotient [a / b] rounded to 53 bits: a normal float
    of the quotient's sign, with a negative exponent, whose mantissa is
    within one half of the quotient scaled by that exponent; or zero, for a
    zero [a]. *)
Definition rounded_quotient (a b : Z) (x : spec_float) : Prop :=
  match x with
  | S754_zero s => a = 0%Z /\ s = (b <? 0)%Z
  | S754_finite s p e =>
      s = xorb (a <? 0)%Z (b <? 0)%Z
      /\ (2 ^ 52 <= Zpos p < 2 ^ 53)%Z
      /\ (e < 0)%Z
      /\ (2 * Z.abs (Zpos p * Z.abs b - Z.abs a * 2 ^ (- e)) <= Z.abs b)%Z
  | _ => False
  end.

(** What [set_track_position] of a backend owes for the position
    [seconds]: [st] is the player and world the command starts from, [w]
    the world before the call, [out] and [after] what the call returned and
    the world it left. *)
Definition seek_contract (float_str : spec_float -> pystr)
    (seconds : spec_float) (st : PW) (w : World) (out : result unit)
    (after : World) : Prop :=
  let line := str "seek " ++ float_str seconds in
  let lines := wire (new_events w after) in
  (forall s st1,
     CmusPlayer.get_open_socket st = (Ok s, st1) ->
     is_ascii line = true ->
     lines = [line ++ newline])
  /\ (exchange_ready st -> is_ascii line = true ->
      out = Ok tt /\ lines = [line ++ newline])
  /\ (forall s st1,
        CmusPlayer.get_open_socket st = (Ok s, st1) ->
        is_ascii line = false ->
        out = Raise UnicodeEncodeError /\ lines = [])
  /\ (forall e st1,
        CmusPlayer.get_open_socket st = (Raise e, st1) ->
        out = Raise e /\ lines = []).

(** The hardware's division on the floats of two integers, through the
    kernel's binary64 operations; for integers below [2 ^ 53] in magnitude
    the conversions are exact and it is the rounded quotient. *)
Definition binary64_div (a b : Z) : spec_float :=
  Prim2SF (PrimFloat.div (SF2Prim (binary_normalize 53 1024 a 0 false))
                         (SF2Prim (binary_normalize 53 1024 b 0 false))).

Definition spec_float_eqb (x y : spec_float) : bool :=
  match x, y with
  | S754_zero s, S754_zero s' => Bool.eqb s s'
  | S754_finite s p e, S754_finite s' p' e' =>
      Bool.eqb s s' && Pos.eqb p p' && Z.eqb e e'
  | S754_infinity s, S754_infinity s' => Bool.eqb s s'
  | S754_nan, S754_nan => true
  | _, _ => false
  end.

(** [int_truediv] and the hardware agree on every pair of [pairs]. *)
Definition agrees_with_binary64 (pairs : list (Z * Z)) : bool :=
  forallb (fun ab => match int_truediv (fst ab) (snd ab) with
                     | Ok x => spec_float_eqb x (binary64_div (fst ab) (snd ab))
                     | Raise _ => false
                     end) pairs.

(** The [count] numerators [first], [first + step], ... over 1000. *)
Definition milliseconds_from (first step : Z) (count : nat) : list (Z * Z) :=
  List.map (fun k => ((first + step * Z.of_nat k)%Z, 1000%Z)) (seq 0 count).

(** Drops the zeros a text starts with. *)
Fixpoint dropwhile_zero (s : pystr) : pystr :=
  match s with
  | 48%N :: rest => dropwhile_zero rest
  | _ => s
  end.

(** A sample for [float_str]: the exact value of a float in positional
    decimal notation, with at least one digit after the point.  It is the
    text of Python's [repr] on a float such as 1.5, 0.25 or 2.0, whose exact
    value has few digits. *)
Definition fraction_digits (f : Z) (k : nat) : pystr :=
  let digits := int_str (f * 5 ^ Z.of_nat k) in
  let padded := repeat 48%N (k - length digits) ++ digits in
  match rev (dropwhile_zero (rev padded)) with
  | [] => str "0"
  | kept => kept
  end.

Definition exact_decimal (x : spec_float) : pystr :=
  match x with
  | S754_zero s => (if s then str "-" else []) ++ str "0.0"
  | S754_infinity s => (if s then str "-" else []) ++ str "inf"
  | S754_nan => str "nan"
  | S754_finite s p e =>
      (if s then str "-" else [])
      ++ (if (0 <=? e)%Z then int_str (Zpos p * 2 ^ e) ++ str ".0"
          else int_str (Zpos p / 2 ^ (- e)) ++ str "."
               ++ fraction_digits (Zpos p mod 2 ^ (- e)) (Z.to_nat (- e)))
  end.

#[local] Arguments str : simpl never.
#[local] Arguments os_path_join : simpl never.
#[local] Arguments firstn : simpl never.
#[local] Arguments skipn : simpl never.

(** * Properties *)

Unset Implicit Arguments.

(** ** Text *)

Lemma startswith_spec (p s : pystr) :
  startswith p s = true <-> exists post, s = p ++ post.
Proof.
  revert s; induction p as [|a p IH]; intros s; simpl.
  - split; [intros _; now exists s | reflexivity].
  - destruct s as [|b s].
    + split; [discriminate | intros [post H]; discriminate].
    + rewrite andb_true_iff, N.eqb_eq, IH. split.
      * intros [-> [post ->]]. now exists post.
      * intros [post H]. injection H as -> ->. split; [reflexivity | now exists post].
Qed.

Lemma str_in_spec (needle hay : pystr) :
  str_in needle hay = true <-> substring needle hay.
Proof.
  unfold substring. induction hay as [|c hay IH].
  - simpl. rewrite orb_false_r, startswith_spec. split.
    + intros [post H]. now exists [], post.
    + intros [pre [post H]]. destruct pre; simpl in H.
      * now exists post.
      * discriminate.
  - cbn [str_in]. rewrite orb_true_iff, startswith_spec, IH. split.
    + intros [[post H] | [pre [post H]]].
      * now exists [], post.
      * exists (c :: pre), post. simpl. now rewrite H.
    + intros [pre [post H]]. destruct pre as [|c' pre]; simpl in H.
      * left. now exists post.
      * right. injection H as _ H. now exists pre, post.
Qed.

Lemma encode_ascii_to_N (s : pystr) (b : bytes) :
  encode_ascii s = Some b -> List.map Byte.to_N b = s.
Proof.
  revert b; induction s as [|c s IH]; intros b H; simpl in H.
  - now injection H as <-.
  - destruct (c <? 128)%N; [|discriminate].
    destruct (Byte.of_N c) as [b0|] eqn:Hc; [|discriminate].
    destruct (encode_ascii s) as [bs|]; [|discriminate].
    injection H as <-. simpl. f_equal.
    + now apply Byte.to_of_N.
    + now apply IH.
Qed.

Lemma encode_ascii_is_ascii (s : pystr) :
  is_ascii s = true <-> exists b, encode_ascii s = Some b.
Proof.
  induction s as [|c s IH]; simpl.
  - split; [now exists [] | reflexivity].
  - rewrite andb_true_iff, IH. split.
    + intros [Hc [bs ->]]. rewrite Hc.
      destruct (Byte.of_N c) as [b|] eqn:E; [now exists (b :: bs)|].
      apply Byte.of_N_None_iff in E. apply N.ltb_lt in Hc. lia.
    + destruct (c <? 128)%N; [|intros [x H]; discriminate].
      destruct (Byte.of_N c); [|intros [x H]; discriminate].
      destruct (encode_ascii s) as [bs|]; [|intros [x H]; discriminate].
      intros _. split; [reflexivity | now exists bs].
Qed.

Lemma is_ascii_app (a b : pystr) :
  is_ascii (a ++ b) = is_ascii a && is_ascii b.
Proof. unfold is_ascii. apply forallb_app. Qed.

(** ** The transport *)

Import CmusPlayer.

(** Runs the state transformers of a goal as far as they go. *)
Ltac mrun :=
  repeat (unfold bind, ret, raise, world_op, os_environ, os_path_exists,
            socket_socket, socket_connect, socket_send, socket_recv,
            get_attr_socket, set_attr_socket, create_socket, connect_socket, void;
          cbn [fst snd first_existing log trace fs_exists environ listening
               next_sock peer_alive inbox set_next_sock set_peer_alive
               set_inbox _socket]).

Lemma bind_ok {S A B : Type} (m : M S A) (k : A -> M S B) (st st' : S) (a : A) :
  m st = (Ok a, st') -> bind m k st = k a st'.
Proof. intros H. unfold bind. now rewrite H. Qed.

Lemma bind_raise {S A B : Type} (m : M S A) (k : A -> M S B) (st st' : S) (e : exn) :
  m st = (Raise e, st') -> bind m k st = (Raise e, st').
Proof. intros H. unfold bind. now rewrite H. Qed.

Lemma trace_log (e : Event) (w : World) : trace (log e w) = trace w ++ [e].
Proof. reflexivity. Qed.

Lemma new_events_app (w w' : World) (evs : list Event) :
  trace w' = trace w ++ evs -> new_events w w' = evs.
Proof.
  unfold new_events. intros ->.
  rewrite skipn_app, skipn_all, Nat.sub_diag. reflexivity.
Qed.

Lemma wire_app (a b : list Event) : wire (a ++ b) = wire a ++ wire b.
Proof. unfold wire. apply flat_map_app. Qed.

Lemma established_app (w : World) (a b : list Event) :
  established w (a ++ b) = established w a + established w b.
Proof. unfold established. now rewrite filter_app, length_app. Qed.

Lemma decode_run (b : bytes) (st : PW) : decode b st = (decoded b, st).
Proof. unfold decode, decoded. now destruct (utf8_decode b). Qed.

Lemma get_open_socket_cached (p : CmusPlayer) (w : World) (s : sock) :
  _socket p = Some s -> get_open_socket (p, w) = (Ok s, (p, w)).
Proof.
  intros H. unfold get_open_socket, bind, get_attr_socket. simpl.
  now rewrite H.
Qed.

(** What [socket_path] does, case by case. *)
Lemma socket_path_run (p : CmusPlayer) (w : World) :
  socket_path (p, w) =
  match assoc_get (str "XDG_RUNTIME_DIR") (environ w) with
  | None => (Raise (KeyError (str "XDG_RUNTIME_DIR")), (p, w))
  | Some xdg =>
      match assoc_get (str "HOME") (environ w) with
      | None => (Raise (KeyError (str "HOME")), (p, w))
      | Some home =>
          let c1 := os_path_join xdg [str "cmus-socket"] in
          let c2 := os_path_join home [str ".cmus"; str "socket"] in
          if fs_exists w c1 then (Ok c1, (p, log (EvExists c1) w))
          else if fs_exists w c2
               then (Ok c2, (p, log (EvExists c2) (log (EvExists c1) w)))
               else (Raise socket_not_found,
                     (p, log (EvExists c2) (log (EvExists c1) w)))
      end
  end.
Proof.
  unfold socket_path. mrun.
  destruct (assoc_get (str "XDG_RUNTIME_DIR") (environ w)) as [xdg|]; [|reflexivity].
  mrun.
  destruct (assoc_get (str "HOME") (environ w)) as [home|]; [|reflexivity].
  mrun.
  destruct (fs_exists w _); [reflexivity|]. mrun.
  destruct (fs_exists w _); reflexivity.
Qed.

Lemma get_open_socket_fresh (p : CmusPlayer) (w : World) :
  _socket p = None ->
  get_open_socket (p, w) =
  let s := next_sock w in
  let w1 := log (EvSocket s) (set_next_sock (S s) w) in
  match socket_path (p, w1) with
  | (Ok path, (_, w2)) =>
      if listening w path
      then (Ok s, (mkPlayer (Some s),
                   set_peer_alive true (log (EvConnect s path) w2)))
      else (Raise OSError, (p, log (EvConnect s path) w2))
  | (Raise e, st2) => (Raise e, st2)
  end.
Proof.
  intros H. unfold get_open_socket. mrun. rewrite H. mrun.
  rewrite socket_path_run. cbn zeta. mrun.
  destruct (assoc_get (str "XDG_RUNTIME_DIR") (environ w)); [|reflexivity].
  destruct (assoc_get (str "HOME") (environ w)); [|reflexivity].
  destruct (fs_exists w _); mrun.
  - destruct (listening w _); reflexivity.
  - destruct (fs_exists w _); mrun; [|reflexivity].
    destruct (listening w _); reflexivity.
Qed.




(** Solves [trace w' = trace w ++ ?evs] by reading [?evs] off the logs. *)
Ltac read_trace :=
  cbn [trace log set_next_sock set_peer_alive set_inbox snd fst];
  rewrite <- ?app_assoc; cbn [app];
  first [reflexivity | symmetry; apply app_nil_r].

Lemma get_open_socket_facts (st st' : PW) (r : result sock) :
  get_open_socket st = (r, st') ->
  exists evs,
    trace (snd st') = trace (snd st) ++ evs
    /\ listening (snd st') = listening (snd st)
    /\ held (fst st') = held (fst st) + established (snd st) evs
    /\ wire evs = []
    /\ (forall s, r = Ok s -> _socket (fst st') = Some s)
    /\ (forall s, _socket (fst st) = Some s -> r = Ok s /\ st' = st /\ evs = []).
Proof.
  destruct st as [p w]. destruct (_socket p) as [s0|] eqn:E.
  - rewrite (@get_open_socket_cached p w s0 E). intros H. injection H as <- <-.
    exists []. cbn [fst snd]. rewrite app_nil_r, E. unfold held. rewrite E.
    repeat split; auto; congruence.
  - rewrite (@get_open_socket_fresh p w E). cbn zeta. rewrite socket_path_run. cbn zeta.
    cbn [environ fs_exists log set_next_sock].
    unfold held at 2. cbn [fst snd]. rewrite E.
    destruct (assoc_get (str "XDG_RUNTIME_DIR") (environ w)) as [xdg|].
    2:{ intros H; injection H as <- <-. eexists. split; [read_trace|].
        unfold held; cbn; rewrite E. repeat split; auto; discriminate. }
    destruct (assoc_get (str "HOME") (environ w)) as [home|].
    2:{ intros H; injection H as <- <-. eexists. split; [read_trace|].
        unfold held; cbn; rewrite E. repeat split; auto; discriminate. }
    set (c1 := os_path_join xdg _). set (c2 := os_path_join home _).
    destruct (fs_exists w c1) eqn:X1.
    + destruct (listening w c1) eqn:L;
        intros H; injection H as <- <-; (eexists; split; [read_trace|]);
        unfold held, established; cbn; rewrite ?E, ?L; cbn;
        repeat split; auto; try discriminate; congruence.
    + destruct (fs_exists w c2) eqn:X2.
      * destruct (listening w c2) eqn:L;
          intros H; injection H as <- <-; (eexists; split; [read_trace|]);
          unfold held, established; cbn; rewrite ?E, ?L; cbn;
          repeat split; auto; try discriminate; congruence.
      * intros H; injection H as <- <-. eexists. split; [read_trace|].
        unfold held; cbn; rewrite E. repeat split; auto; discriminate.
Qed.

(** One write and one read on an open socket. *)
Lemma exchange_run (s : sock) (data : bytes) (st st' : PW) (r : result pystr) :
  (socket_send s data ;;;
   reply <- socket_recv s recv_bufsize ;; decode reply) st = (r, st') ->
  exists io,
    trace (snd st') = trace (snd st) ++ io
    /\ listening (snd st') = listening (snd st)
    /\ fst st' = fst st
    /\ wire io = [List.map Byte.to_N data]
    /\ Forall (on_sock s) io
    /\ (forall w, established w io = 0)
    /\ (forall text, r = Ok text ->
          exists got, io = [EvSend s data; EvRecv s recv_bufsize got]
                      /\ length got <= recv_bufsize
                      /\ utf8_decode got = Some text).
Proof.
  destruct st as [p w]. mrun.
  destruct (peer_alive w).
  2:{ intros H; injection H as <- <-. eexists. split; [read_trace|].
      repeat split; auto; try discriminate. repeat constructor. }
  mrun. destruct (inbox w) as [|[d|] rest]; mrun.
  - rewrite decode_run. intros H; injection H as <- <-.
    eexists. split; [read_trace|].
    repeat split; auto; [repeat constructor|].
    intros text Ht. exists []. repeat split; [simpl; lia|].
    unfold decoded in Ht. destruct (utf8_decode []); congruence.
  - rewrite decode_run. intros H; injection H as <- <-.
    eexists. split; [read_trace|].
    repeat split; auto; [repeat constructor|].
    intros text Ht. exists (firstn recv_bufsize d).
    repeat split; [apply firstn_le_length|].
    unfold decoded in Ht. destruct (utf8_decode _); congruence.
  - intros H; injection H as <- <-. eexists. split; [read_trace|].
    repeat split; auto; try discriminate. repeat constructor.
Qed.

Lemma encode_line (cmd : pystr) :
  is_ascii cmd = true -> exists data, encode_ascii (cmd ++ newline) = Some data.
Proof.
  intros H. apply encode_ascii_is_ascii. now rewrite is_ascii_app, H.
Qed.

(** Everything a call of [send_socket_command] can do. *)
Lemma send_socket_command_facts (cmd : pystr) (st st' : PW) (r : result pystr) :
  send_socket_command cmd st = (r, st') ->
  exists evs,
    trace (snd st') = trace (snd st) ++ evs
    /\ listening (snd st') = listening (snd st)
    /\ held (fst st') = held (fst st) + established (snd st) evs
    /\ (wire evs = [] \/ wire evs = [cmd ++ newline])
    /\ (forall text, r = Ok text ->
          wire evs = [cmd ++ newline] /\ held (fst st') = 1)
    /\ (forall s, _socket (fst st) = Some s ->
          _socket (fst st') = Some s
          /\ Forall (on_sock s) evs
          /\ (is_ascii cmd = true -> wire evs = [cmd ++ newline])).
Proof.
  unfold send_socket_command. unfold bind at 1.
  destruct (get_open_socket st) as [[s|e] st1] eqn:G;
    destruct (@get_open_socket_facts _ _ _ G) as (conn & T & L & Hd & W & Kok & Kc).
  2:{ intros H; injection H as <- <-. exists conn.
      repeat split; auto; try discriminate.
      - destruct (Kc _ H) as (_ & -> & _). exact H.
      - destruct (Kc _ H) as (_ & _ & ->). constructor.
      - destruct (Kc _ H) as (? & _). discriminate. }
  specialize (Kok s eq_refl). unfold bind at 1. unfold encode.
  destruct (encode_ascii (cmd ++ newline)) as [data|] eqn:Enc.
  2:{ unfold raise. intros H; injection H as <- <-. exists conn.
      repeat split; auto; try discriminate.
      - destruct (Kc _ H) as (_ & -> & _). exact H.
      - destruct (Kc _ H) as (_ & _ & ->). constructor.
      - intros A. destruct (encode_line cmd A). congruence. }
  unfold ret at 1. intros X. apply exchange_run in X.
  destruct X as (io & T2 & L2 & P2 & W2 & F2 & E2 & Kt).
  rewrite (@encode_ascii_to_N _ _ Enc) in W2.
  exists (conn ++ io). rewrite wire_app, W, W2, established_app, E2, P2.
  repeat split; auto.
  - rewrite T2, T. now rewrite app_assoc.
  - congruence.
  - lia.
  - unfold held. now rewrite Kok.
  - destruct (Kc _ H) as (_ & -> & _). exact H.
  - destruct (Kc _ H) as (Hs & _ & ->). injection Hs as ->. exact F2.
Qed.

Example utf8_decode_euro :
  utf8_decode [x65; xc3; xa9; xe2; x82; xac] = Some [101; 233; 8364]%N.
Proof. reflexivity. Qed.

Example utf8_decode_truncated : utf8_decode [xe2; x82] = None.
Proof. reflexivity. Qed.

Example utf8_decode_overlong : utf8_decode [xc0; x80] = None.
Proof. reflexivity. Qed.

Example os_path_join_home :
  os_path_join (str "/home/u") [str ".cmus"; str "socket"]
  = str "/home/u/.cmus/socket".
Proof. reflexivity. Qed.

Example send_status_connected :
  send_socket_command (str "status") (connected [says "status playing"])
  = (Ok (str "status playing"),
     (mkPlayer (Some 0),
      log (EvRecv 0 recv_bufsize (list_byte_of_string "status playing"))
          (log (EvSend 0 (list_byte_of_string "status" ++ [x0a]))
               (sample_world true 1 [])))).
Proof. reflexivity. Qed.

Example str_repr_single_quote :
  str_repr latin1_printable (str "it's") = [dquote] ++ str "it's" ++ [dquote].
Proof. reflexivity. Qed.

Example str_repr_escapes :
  str_repr latin1_printable [97; 10; 128; 233; 8232]%N
  = str "'a\n\x80" ++ [233%N] ++ str "\u2028'".
Proof. reflexivity. Qed.

Example lower_volume_line :
  wire (new_events (snd (connected [says ""]))
          (snd (snd (CmusPlayer.lower_volume 30 (connected [says ""])))))
  = [str "vol -30%" ++ newline].
Proof. reflexivity. Qed.

(** ** C1: what [send_socket_command] writes and reads *)

Lemma send_socket_command_run (cmd : pystr) (st st1 : PW) (s : sock) (data : bytes) :
  get_open_socket st = (Ok s, st1) ->
  encode_ascii (cmd ++ newline) = Some data ->
  send_socket_command cmd st
  = (socket_send s data ;;;
     reply <- socket_recv s recv_bufsize ;; decode reply) st1.
Proof.
  intros G Enc. unfold send_socket_command. unfold bind at 1. rewrite G.
  unfold bind at 1. unfold encode. rewrite Enc. reflexivity.
Qed.

(** A command with a character outside ASCII stops at its encoding. *)
Lemma send_non_ascii (cmd : pystr) (st st1 : PW) (s : sock) :
  get_open_socket st = (Ok s, st1) ->
  is_ascii cmd = false ->
  send_socket_command cmd st = (Raise UnicodeEncodeError, st1).
Proof.
  intros G A. unfold send_socket_command.
  erewrite bind_ok by exact G. unfold encode.
  destruct (encode_ascii (cmd ++ newline)) as [data|] eqn:Enc; [|reflexivity].
  assert (is_ascii (cmd ++ newline) = true) as B
    by (apply encode_ascii_is_ascii; now exists data).
  rewrite is_ascii_app, A in B. discriminate.
Qed.

(** What an ASCII command returns on a connection that is up and
    delivers [d]. *)
Lemma send_ascii_result (cmd : pystr) (st st1 : PW) (s : sock)
    (d : bytes) (rest : list Incoming) :
  get_open_socket st = (Ok s, st1) ->
  is_ascii cmd = true ->
  peer_alive (snd st1) = true ->
  inbox (snd st1) = Data d :: rest ->
  fst (send_socket_command cmd st) = decoded (firstn recv_bufsize d).
Proof.
  intros G A Alive Inbox. destruct (encode_line cmd A) as [data Enc].
  rewrite (send_socket_command_run cmd st st1 s data G Enc).
  destruct st1 as [p1 w1]. cbn [snd] in Alive, Inbox. mrun.
  rewrite Alive. mrun. rewrite Inbox. mrun. now rewrite decode_run.
Qed.

(** C1, as amended.  For every command made of ASCII characters only, once
    the socket is had: if the connection is up and the peer delivers data,
    the call logs exactly one send, of the command's characters followed by
    one newline, each as one byte, then exactly one receive of at most 2048
    bytes, and returns the UTF-8 decoding of those bytes (raising
    [UnicodeDecodeError] when they do not decode).  A command with a
    character outside ASCII raises [UnicodeEncodeError] after the socket is
    had, and nothing is sent or received. *)
Theorem send_socket_command_exchange :
  forall (cmd : pystr) (st st1 : PW) (s : sock),
    get_open_socket st = (Ok s, st1) ->
    (is_ascii cmd = true ->
     forall d rest,
       peer_alive (snd st1) = true ->
       inbox (snd st1) = Data d :: rest ->
       exists data,
         List.map Byte.to_N data = cmd ++ newline
         /\ new_events (snd st1) (snd (snd (send_socket_command cmd st)))
            = [EvSend s data; EvRecv s recv_bufsize (firstn recv_bufsize d)]
         /\ length (firstn recv_bufsize d) <= 2048
         /\ fst (send_socket_command cmd st) = decoded (firstn recv_bufsize d))
    /\ (is_ascii cmd = false ->
        send_socket_command cmd st = (Raise UnicodeEncodeError, st1)).
Proof.
  intros cmd st st1 s G. split.
  - intros A d rest Alive Inbox.
    destruct (encode_line cmd A) as [data Enc]. exists data.
    split; [exact (@encode_ascii_to_N _ _ Enc)|].
    rewrite (@send_socket_command_run cmd st st1 s data G Enc).
    destruct st1 as [p1 w1]. cbn [snd] in Alive, Inbox. mrun.
    rewrite Alive. mrun. rewrite Inbox. mrun. rewrite decode_run.
    cbn [fst snd]. repeat split.
    + apply new_events_app. read_trace.
    + apply firstn_le_length.
  - intros A. exact (send_non_ascii cmd st st1 s G A).
Qed.

Lemma send_socket_command_exchange_witness :
  exists data,
    List.map Byte.to_N data = str "status" ++ newline
    /\ new_events (snd (connected [says "status playing"]))
         (snd (snd (send_socket_command (str "status")
                      (connected [says "status playing"]))))
       = [EvSend 0 data;
          EvRecv 0 recv_bufsize
                 (firstn recv_bufsize (list_byte_of_string "status playing"))]
    /\ length (firstn recv_bufsize (list_byte_of_string "status playing")) <= 2048
    /\ fst (send_socket_command (str "status") (connected [says "status playing"]))
       = decoded (firstn recv_bufsize (list_byte_of_string "status playing")).
Proof.
  exact (proj1 (@send_socket_command_exchange (str "status")
                  (connected [says "status playing"])
                  (connected [says "status playing"]) 0 eq_refl)
               eq_refl (list_byte_of_string "status playing") []
               eq_refl eq_refl).
Defined.

(** C1, as stated, fails: on a connection that is up and has a reply
    waiting, the command [add caf\u00e9.mp3] (with U+00E9) leads to no send and no
    receive at all, since its encoding as ASCII raises. *)
Lemma send_socket_command_non_ascii :
  send_socket_command (str "add " ++ cafe) (connected [says "ok"])
  = (Raise UnicodeEncodeError, connected [says "ok"])
  /\ ~ (exists s data got,
          new_events (snd (connected [says "ok"]))
            (snd (snd (send_socket_command (str "add " ++ cafe)
                         (connected [says "ok"]))))
          = [EvSend s data; EvRecv s recv_bufsize got]).
Proof.
  split; [reflexivity|].
  intros (s & data & got & H). vm_compute in H. discriminate.
Qed.

(** ** C2: where the socket is looked for *)

(** C2, as amended.  With both environment variables set: the candidate
    under the runtime directory is looked at first and the one under the home
    directory second, and the first that exists is returned.  When only the
    second exists, a player without a socket connects to it and to nothing
    else.  When neither exists, the error "cmus is running, but its socket
    is not found" is raised, by [socket_path], by [get_open_socket] and by
    [send_socket_command] alike, the socket object has been created but no
    connect is attempted, and the player still holds no socket.  With
    [XDG_RUNTIME_DIR] unset, or with it set and [HOME] unset, the lookup of
    the variable raises [KeyError] instead: no candidate is looked at,
    whatever exists on disk, and a player without a socket creates the
    socket object, connects to nothing and keeps nothing. *)
Theorem socket_path_resolution :
  forall (p : CmusPlayer) (w : World),
    (forall xdg home : pystr,
       assoc_get (str "XDG_RUNTIME_DIR") (environ w) = Some xdg ->
       assoc_get (str "HOME") (environ w) = Some home ->
       let c1 := os_path_join xdg [str "cmus-socket"] in
       let c2 := os_path_join home [str ".cmus"; str "socket"] in
       let n := next_sock w in
       (fs_exists w c1 = true ->
          fst (socket_path (p, w)) = Ok c1
          /\ new_events w (snd (snd (socket_path (p, w)))) = [EvExists c1])
       /\ (fs_exists w c1 = false -> fs_exists w c2 = true ->
             fst (socket_path (p, w)) = Ok c2
             /\ new_events w (snd (snd (socket_path (p, w))))
                = [EvExists c1; EvExists c2]
             /\ (_socket p = None ->
                   new_events w (snd (snd (get_open_socket (p, w))))
                   = [EvSocket n; EvExists c1; EvExists c2; EvConnect n c2]))
       /\ (fs_exists w c1 = false -> fs_exists w c2 = false ->
             fst (socket_path (p, w)) = Raise socket_not_found
             /\ (_socket p = None ->
                   fst (get_open_socket (p, w)) = Raise socket_not_found
                   /\ new_events w (snd (snd (get_open_socket (p, w))))
                      = [EvSocket n; EvExists c1; EvExists c2]
                   /\ _socket (fst (snd (get_open_socket (p, w)))) = None
                   /\ forall cmd,
                        send_socket_command cmd (p, w)
                        = (Raise socket_not_found,
                           snd (get_open_socket (p, w))))))
    /\ (forall key : pystr,
          (key = str "XDG_RUNTIME_DIR"
           /\ assoc_get (str "XDG_RUNTIME_DIR") (environ w) = None)
          \/ (key = str "HOME"
              /\ assoc_get (str "XDG_RUNTIME_DIR") (environ w) <> None
              /\ assoc_get (str "HOME") (environ w) = None) ->
          socket_path (p, w) = (Raise (KeyError key), (p, w))
          /\ (_socket p = None ->
                fst (get_open_socket (p, w)) = Raise (KeyError key)
                /\ new_events w (snd (snd (get_open_socket (p, w))))
                   = [EvSocket (next_sock w)]
                /\ _socket (fst (snd (get_open_socket (p, w)))) = None)).
Proof.
  intros p w. split.
  - intros xdg home X H c1 c2 n.
    assert (forall w0, environ w0 = environ w ->
              socket_path (p, w0) =
              if fs_exists w0 c1 then (Ok c1, (p, log (EvExists c1) w0))
              else if fs_exists w0 c2
                   then (Ok c2, (p, log (EvExists c2) (log (EvExists c1) w0)))
                   else (Raise socket_not_found,
                         (p, log (EvExists c2) (log (EvExists c1) w0)))) as SP.
    { intros w0 E. rewrite socket_path_run, E, X, H. reflexivity. }
    repeat split.
    + rewrite (SP w eq_refl), H0. reflexivity.
    + rewrite (SP w eq_refl), H0. apply new_events_app. read_trace.
    + rewrite (SP w eq_refl), H0, H1. reflexivity.
    + rewrite (SP w eq_refl), H0, H1. apply new_events_app. read_trace.
    + intros E. rewrite (get_open_socket_fresh p w E). cbn zeta.
      rewrite SP by reflexivity. cbn [fs_exists log set_next_sock].
      rewrite H0, H1. fold n.
      destruct (listening w c2); apply new_events_app; read_trace.
    + rewrite (SP w eq_refl), H0, H1. reflexivity.
    + rewrite (get_open_socket_fresh p w H2). cbn zeta.
      rewrite SP by reflexivity. cbn [fs_exists log set_next_sock].
      rewrite H0, H1. reflexivity.
    + rewrite (get_open_socket_fresh p w H2). cbn zeta.
      rewrite SP by reflexivity. cbn [fs_exists log set_next_sock].
      rewrite H0, H1. fold n. apply new_events_app. read_trace.
    + rewrite (get_open_socket_fresh p w H2). cbn zeta.
      rewrite SP by reflexivity. cbn [fs_exists log set_next_sock].
      rewrite H0, H1. exact H2.
    + intros cmd. unfold send_socket_command. unfold bind at 1.
      rewrite (get_open_socket_fresh p w H2). cbn zeta.
      rewrite SP by reflexivity. cbn [fs_exists log set_next_sock].
      rewrite H0, H1. reflexivity.
  - intros key K.
    assert (forall w0, environ w0 = environ w ->
              socket_path (p, w0) = (Raise (KeyError key), (p, w0))) as SP.
    { intros w0 E. rewrite socket_path_run, E.
      destruct K as [(-> & X) | (-> & X & H)].
      - now rewrite X.
      - destruct (assoc_get (str "XDG_RUNTIME_DIR") (environ w));
          [now rewrite H | now elim X]. }
    split; [exact (SP w eq_refl)|].
    intros E. rewrite (get_open_socket_fresh p w E). cbn zeta.
    rewrite SP by reflexivity. cbn [fst snd].
    split; [reflexivity|]. split; [apply new_events_app; read_trace | exact E].
Qed.

Lemma socket_path_resolution_witness :
  new_events (snd (fresh []))
    (snd (snd (get_open_socket (fresh []))))
  = [EvSocket 0;
     EvExists (str "/run/user/1000/cmus-socket");
     EvExists (str "/home/u/.cmus/socket");
     EvConnect 0 (str "/home/u/.cmus/socket")]
  /\ fst (get_open_socket (mkPlayer None, no_socket_world))
     = Raise socket_not_found
  /\ new_events no_socket_world
       (snd (snd (get_open_socket (mkPlayer None, no_socket_world))))
     = [EvSocket 0;
        EvExists (str "/run/user/1000/cmus-socket");
        EvExists (str "/home/u/.cmus/socket")]
  /\ socket_path (mkPlayer None, no_env_world)
     = (Raise (KeyError (str "XDG_RUNTIME_DIR")), (mkPlayer None, no_env_world)).
Proof.
  split; [|split; [|split]].
  - exact (proj2 (proj2 (proj1 (proj2
             (proj1 (socket_path_resolution (mkPlayer None) (snd (fresh [])))
                (str "/run/user/1000") (str "/home/u") eq_refl eq_refl))
             eq_refl eq_refl)) eq_refl).
  - exact (proj1 (proj2 (proj2 (proj2
             (proj1 (socket_path_resolution (mkPlayer None) no_socket_world)
                (str "/run/user/1000") (str "/home/u") eq_refl eq_refl))
             eq_refl eq_refl) eq_refl)).
  - exact (proj1 (proj2 (proj2 (proj2 (proj2
             (proj1 (socket_path_resolution (mkPlayer None) no_socket_world)
                (str "/run/user/1000") (str "/home/u") eq_refl eq_refl))
             eq_refl eq_refl) eq_refl))).
  - exact (proj1 (proj2 (socket_path_resolution (mkPlayer None) no_env_world)
             (str "XDG_RUNTIME_DIR") (or_introl (conj eq_refl eq_refl)))).
Defined.

(** C2 as first stated fails where a variable is unset.  On a machine
    without [XDG_RUNTIME_DIR] where only the candidate under the home
    directory exists (and cmus listens on it), the first use of a player
    raises [KeyError]: the candidate is never looked at and nothing is
    connected.  On a machine with neither variable and neither candidate the
    error is that same [KeyError], not the not-found error. *)
Lemma socket_path_unset_environment :
  assoc_get (str "HOME") (environ no_xdg_world) = Some (str "/home/u")
  /\ fs_exists no_xdg_world
       (os_path_join (str "/home/u") [str ".cmus"; str "socket"]) = true
  /\ listening no_xdg_world
       (os_path_join (str "/home/u") [str ".cmus"; str "socket"]) = true
  /\ fst (get_open_socket (mkPlayer None, no_xdg_world))
     = Raise (KeyError (str "XDG_RUNTIME_DIR"))
  /\ new_events no_xdg_world
       (snd (snd (get_open_socket (mkPlayer None, no_xdg_world))))
     = [EvSocket 0]
  /\ _socket (fst (snd (get_open_socket (mkPlayer None, no_xdg_world)))) = None
  /\ (forall path, fs_exists no_env_world path = false)
  /\ fst (get_open_socket (mkPlayer None, no_env_world))
     = Raise (KeyError (str "XDG_RUNTIME_DIR"))
  /\ fst (get_open_socket (mkPlayer None, no_env_world))
     <> Raise socket_not_found.
Proof.
  repeat split; try reflexivity.
  intros H. vm_compute in H. discriminate.
Qed.

(** Without [XDG_RUNTIME_DIR] or [HOME] in the environment the lookup of the
    variable raises before any candidate is looked at. *)
Lemma socket_path_unset_variable (p : CmusPlayer) (w : World) :
  (assoc_get (str "XDG_RUNTIME_DIR") (environ w) = None ->
   socket_path (p, w) = (Raise (KeyError (str "XDG_RUNTIME_DIR")), (p, w)))
  /\ (forall xdg,
        assoc_get (str "XDG_RUNTIME_DIR") (environ w) = Some xdg ->
        assoc_get (str "HOME") (environ w) = None ->
        socket_path (p, w) = (Raise (KeyError (str "HOME")), (p, w))).
Proof.
  split.
  - intros H. now rewrite socket_path_run, H.
  - intros xdg X H. now rewrite socket_path_run, X, H.
Qed.

(** ** C3: the three state queries *)

Lemma query_run (needle : pystr) (st : PW) :
  (reply <- send_socket_command (str "status") ;; ret (str_in needle reply)) st
  = match send_socket_command (str "status") st with
    | (Ok reply, st1) => (Ok (str_in needle reply), st1)
    | (Raise e, st1) => (Raise e, st1)
    end.
Proof.
  unfold bind. destruct (send_socket_command (str "status") st) as [[r|e] st1];
    reflexivity.
Qed.

(** C3.  For every reply the transport returns to the [status] command:
    [is_stopped], [is_paused] and [is_playing] each return whether their own
    text, "status stopped", "status paused", "status playing", occurs in the
    reply, independently of the other two; so a reply with exactly one of
    the three makes exactly the matching query true, and a reply with none
    makes all three false. *)
Theorem status_queries :
  forall (st : PW) (reply : pystr),
    status_reply st = Ok reply ->
    (fst (is_stopped st) = Ok (str_in (str "status stopped") reply)
     /\ fst (is_paused st) = Ok (str_in (str "status paused") reply)
     /\ fst (is_playing st) = Ok (str_in (str "status playing") reply))
    /\ ((fst (is_stopped st) = Ok true
           <-> substring (str "status stopped") reply)
        /\ (fst (is_paused st) = Ok true
              <-> substring (str "status paused") reply)
        /\ (fst (is_playing st) = Ok true
              <-> substring (str "status playing") reply))
    /\ (forall x, reports x reply ->
          fst (is_stopped st) = Ok (status_eqb x Stopped)
          /\ fst (is_paused st) = Ok (status_eqb x Paused)
          /\ fst (is_playing st) = Ok (status_eqb x Playing))
    /\ (~ substring (str "status stopped") reply ->
        ~ substring (str "status paused") reply ->
        ~ substring (str "status playing") reply ->
        fst (is_stopped st) = Ok false
        /\ fst (is_paused st) = Ok false
        /\ fst (is_playing st) = Ok false).
Proof.
  intros st reply H. unfold status_reply in H.
  assert (forall needle,
            fst ((r <- send_socket_command (str "status") ;;
                  ret (str_in needle r)) st) = Ok (str_in needle reply)) as Q.
  { intros needle. rewrite query_run.
    destruct (send_socket_command (str "status") st) as [[r|e] st1];
      cbn [fst] in *; congruence. }
  assert (forall needle b, Ok (str_in needle reply) = Ok b
                           <-> str_in needle reply = b) as I.
  { intros needle b. split; congruence. }
  unfold is_stopped, is_paused, is_playing. rewrite !Q.
  split; [auto|]. split.
  - rewrite !I, !str_in_spec. repeat split; auto.
  - split.
    + intros x R. unfold reports in R. cbn [marker] in R.
      destruct x; injection R as -> -> ->; auto.
    + intros A B C. rewrite <- str_in_spec in A, B, C.
      apply not_true_is_false in A, B, C. now rewrite A, B, C.
Qed.

Lemma status_queries_witness :
  fst (is_stopped (connected [says "status playing"])) = Ok false
  /\ fst (is_paused (connected [says "status playing"])) = Ok false
  /\ fst (is_playing (connected [says "status playing"])) = Ok true.
Proof.
  exact (proj1 (proj2 (proj2
           (@status_queries (connected [says "status playing"])
              (str "status playing") eq_refl)))
           Playing eq_refl).
Defined.

(** ** C4: [play_pause] *)

Lemma held_iff (p : CmusPlayer) : held p = 1 <-> exists s, _socket p = Some s.
Proof.
  unfold held. destruct (_socket p) as [s|].
  - split; [now exists s | reflexivity].
  - split; [discriminate | intros [s H]; discriminate].
Qed.

(** A player that holds a socket writes an ASCII command, whatever comes
    of the exchange afterwards. *)
Lemma command_written (cmd : pystr) (st : PW) :
  held (fst st) = 1 ->
  is_ascii cmd = true ->
  exists evs,
    trace (snd (snd (send_socket_command cmd st))) = trace (snd st) ++ evs
    /\ wire evs = [cmd ++ newline]
    /\ held (fst (snd (send_socket_command cmd st))) = 1.
Proof.
  intros Hh A. apply held_iff in Hh as [s Hs].
  destruct (send_socket_command cmd st) as [r st'] eqn:E.
  destruct (@send_socket_command_facts _ _ _ _ E) as (evs & T & _ & _ & _ & _ & K).
  destruct (K s Hs) as (Hs' & _ & W).
  exists evs. cbn [snd]. repeat split; auto.
  apply held_iff. now exists s.
Qed.

(** A command whose exchange succeeded was written, once, and the player
    holds a socket from then on. *)
Lemma command_answered (cmd text : pystr) (st : PW) :
  fst (send_socket_command cmd st) = Ok text ->
  exists evs,
    trace (snd (snd (send_socket_command cmd st))) = trace (snd st) ++ evs
    /\ wire evs = [cmd ++ newline]
    /\ held (fst (snd (send_socket_command cmd st))) = 1.
Proof.
  destruct (send_socket_command cmd st) as [r st'] eqn:E. cbn [fst snd].
  intros ->.
  destruct (@send_socket_command_facts _ _ _ _ E) as (evs & T & _ & _ & _ & K & _).
  destruct (K text eq_refl). now exists evs.
Qed.

Lemma void_state {A : Type} (m : M PW A) (st : PW) :
  snd ((m ;;; ret tt) st) = snd (m st).
Proof. unfold bind, ret. now destruct (m st) as [[a|e] st']. Qed.

Lemma query_state (needle : pystr) (st : PW) :
  snd ((reply <- send_socket_command (str "status") ;;
        ret (str_in needle reply)) st)
  = snd (send_socket_command (str "status") st).
Proof.
  rewrite query_run.
  now destruct (send_socket_command (str "status") st) as [[r|e] st1].
Qed.

Lemma query_result (needle reply : pystr) (st : PW) :
  status_reply st = Ok reply ->
  (r <- send_socket_command (str "status") ;; ret (str_in needle r)) st
  = (Ok (str_in needle reply), snd (send_socket_command (str "status") st)).
Proof.
  unfold status_reply. rewrite query_run.
  destruct (send_socket_command (str "status") st) as [[r|e] st1];
    cbn [fst snd]; congruence.
Qed.

(** The lines [play_pause] writes, by what the first reply says. *)
Lemma play_pause_wire (st : PW) (r1 : pystr) :
  status_reply st = Ok r1 ->
  (str_in (str "status stopped") r1 = true ->
   wire (new_events (snd st) (snd (snd (play_pause st))))
   = [str "status" ++ newline; str "player-play" ++ newline])
  /\ (str_in (str "status stopped") r1 = false ->
      forall r2,
        status_reply (snd (send_socket_command (str "status") st)) = Ok r2 ->
        wire (new_events (snd st) (snd (snd (play_pause st))))
        = [str "status" ++ newline; str "status" ++ newline;
           str "player-pause" ++ newline]).
Proof.
  intros H.
  destruct (@command_answered _ _ _ H) as (e1 & T1 & W1 & H1).
  unfold play_pause. unfold bind at 1 2. unfold is_stopped.
  rewrite (@query_result _ _ _ H).
  set (st1 := snd (send_socket_command (str "status") st)) in *.
  split.
  - intros S. rewrite S. unfold play. rewrite void_state.
    destruct (command_written (str "player-play") st1 H1 eq_refl)
      as (e2 & T2 & W2 & _).
    rewrite (new_events_app (snd st) _ (e1 ++ e2)).
    + now rewrite wire_app, W1, W2.
    + now rewrite T2, T1, app_assoc.
  - intros S r2 H2. rewrite S.
    destruct (@command_answered _ _ _ H2) as (e2 & T2 & W2 & H2').
    unfold toggle_pause. unfold bind at 1. unfold is_paused.
    rewrite (@query_result _ _ _ H2).
    set (st2 := snd (send_socket_command (str "status") st1)) in *.
    destruct (command_written (str "player-pause") st2 H2' eq_refl)
      as (e3 & T3 & W3 & _).
    assert (snd ((if str_in (str "status paused") r2 then unpause else pause) st2)
            = snd (send_socket_command (str "player-pause") st2)) as E.
    { destruct (str_in (str "status paused") r2);
        unfold unpause, pause; apply void_state. }
    rewrite E.
    rewrite (new_events_app (snd st) _ (e1 ++ e2 ++ e3)).
    + now rewrite !wire_app, W1, W2, W3.
    + now rewrite T3, T2, T1, <- !app_assoc.
Qed.

(** C4.  [play_pause] called when the player reports a stopped status
    writes the status query and then exactly one [player-play], and no
    [player-pause]; called when the player reports a playing status, to the
    two status queries the call makes, it writes exactly one
    [player-pause] (the toggle) and no [player-play]; called when the
    player reports a paused status it writes that same [player-pause]
    exactly once. *)
Theorem play_pause_commands :
  forall (st : PW) (r1 : pystr),
    status_reply st = Ok r1 ->
    (reports Stopped r1 ->
     wire (new_events (snd st) (snd (snd (play_pause st))))
     = [str "status" ++ newline; str "player-play" ++ newline]
     /\ count_cmd (str "player-play")
          (wire (new_events (snd st) (snd (snd (play_pause st))))) = 1
     /\ count_cmd (str "player-pause")
          (wire (new_events (snd st) (snd (snd (play_pause st))))) = 0)
    /\ (forall (x : status) (r2 : pystr),
          x = Playing \/ x = Paused ->
          reports x r1 ->
          status_reply (snd (send_socket_command (str "status") st)) = Ok r2 ->
          reports x r2 ->
          wire (new_events (snd st) (snd (snd (play_pause st))))
          = [str "status" ++ newline; str "status" ++ newline;
             str "player-pause" ++ newline]
          /\ count_cmd (str "player-pause")
               (wire (new_events (snd st) (snd (snd (play_pause st))))) = 1
          /\ count_cmd (str "player-play")
               (wire (new_events (snd st) (snd (snd (play_pause st))))) = 0).
Proof.
  intros st r1 H. destruct (@play_pause_wire st r1 H) as [A B]. split.
  - intros R. unfold reports in R. cbn [marker] in R. injection R as S _ _.
    rewrite (A S). repeat split; reflexivity.
  - intros x r2 Hx R H2 _.
    assert (str_in (str "status stopped") r1 = false) as S.
    { unfold reports in R. cbn [marker] in R.
      destruct Hx as [-> | ->]; now injection R as S _ _. }
    rewrite (B S r2 H2). repeat split; reflexivity.
Qed.

Lemma play_pause_commands_witness :
  wire (new_events (snd (connected [says "status stopped"; says ""]))
          (snd (snd (play_pause (connected [says "status stopped"; says ""])))))
  = [str "status" ++ newline; str "player-play" ++ newline]
  /\ wire (new_events (snd (connected [says "status paused";
                                        says "status paused"; says ""]))
             (snd (snd (play_pause (connected [says "status paused";
                                               says "status paused";
                                               says ""])))))
     = [str "status" ++ newline; str "status" ++ newline;
        str "player-pause" ++ newline].
Proof.
  split.
  - exact (proj1 (proj1
             (@play_pause_commands (connected [says "status stopped"; says ""])
                (str "status stopped") eq_refl) eq_refl)).
  - exact (proj1 (proj2
             (@play_pause_commands
                (connected [says "status paused"; says "status paused"; says ""])
                (str "status paused") eq_refl)
             Paused (str "status paused") (or_intror eq_refl)
             eq_refl eq_refl eq_refl)).
Defined.

(** ** C5: [stop] of the backends *)

Lemma lift_player_run {S A : Type} (get : S -> CmusPlayer)
    (set : CmusPlayer -> S -> S) (m : M PW A) (svc : S) (w : World) :
  lift_player get set m (svc, w)
  = (fst (m (get svc, w)),
     (set (fst (snd (m (get svc, w)))) svc, snd (snd (m (get svc, w))))).
Proof.
  unfold lift_player. cbn [fst snd].
  now destruct (m (get svc, w)) as [r [p w']].
Qed.

Lemma is_playing_result (st : PW) (reply : pystr) :
  status_reply st = Ok reply ->
  is_playing st
  = (Ok (str_in (str "status playing") reply),
     snd (send_socket_command (str "status") st)).
Proof. intros H. unfold is_playing. now rewrite (@query_result _ _ _ H). Qed.

Lemma surjective_state (st : PW) : (fst st, snd st) = st.
Proof. now destruct st. Qed.

(** The contract from the two outcomes of the test in [stop]. *)
Lemma stop_contract_intro (reply : pystr) (st1 : PW) (w : World)
    (out : result bool) (after : World) :
  (str_in (str "status playing") reply = false ->
   out = Ok false
   /\ wire (new_events w after) = [str "status" ++ newline]) ->
  (str_in (str "status playing") reply = true ->
   wire (new_events w after)
   = [str "status" ++ newline; str "player-stop" ++ newline]
   /\ out = match fst (send_socket_command (str "player-stop") st1) with
            | Ok _ => Ok true
            | Raise e => Raise e
            end) ->
  stop_contract reply st1 w out after.
Proof.
  intros No Yes. unfold stop_contract. cbn zeta. repeat split.
  - unfold reports in H0. cbn [marker] in H0.
    destruct H as [-> | ->]; injection H0 as _ _ P; now destruct (No P).
  - unfold reports in H0. cbn [marker] in H0.
    destruct H as [-> | ->]; injection H0 as _ _ P;
      destruct (No P) as [_ ->]; reflexivity.
  - unfold reports in H0. cbn [marker] in H0.
    destruct H as [-> | ->]; injection H0 as _ _ P;
      destruct (No P) as [_ ->]; reflexivity.
  - unfold reports in H. cbn [marker] in H. injection H as _ _ P.
    now destruct (Yes P).
  - unfold reports in H. cbn [marker] in H. injection H as _ _ P.
    destruct (Yes P) as [-> _]. reflexivity.
  - intros text E. unfold reports in H. cbn [marker] in H.
    injection H as _ _ P. destruct (Yes P) as [_ ->]. now rewrite E.
  - intros b E. destruct (str_in (str "status playing") reply) eqn:P.
    + destruct (Yes eq_refl) as [-> O]. rewrite O in E.
      destruct (fst (send_socket_command (str "player-stop") st1));
        [|discriminate].
      injection E as <-. reflexivity.
    + destruct (No eq_refl) as [O ->]. rewrite O in E. injection E as <-.
      reflexivity.
Qed.

Lemma ovos_stop_run (svc : OVOSCmusService.t) (w : World) (reply : pystr) :
  status_reply (OVOSCmusService.player svc, w) = Ok reply ->
  OVOSCmusService.stop (svc, w)
  = let st1 := snd (send_socket_command (str "status")
                      (OVOSCmusService.player svc, w)) in
    if str_in (str "status playing") reply then
      match send_socket_command (str "player-stop") st1 with
      | (Ok _, st2) =>
          (Ok true, (OVOSCmusService.set_player (fst st2) svc,
                     log (EvOcp OcpStop) (snd st2)))
      | (Raise e, st2) =>
          (Raise e, (OVOSCmusService.set_player (fst st2) svc, snd st2))
      end
    else (Ok false, (OVOSCmusService.set_player (fst st1) svc, snd st1)).
Proof.
  intros H. cbn zeta. unfold OVOSCmusService.stop, OVOSCmusService.on_player.
  erewrite bind_ok
    by (rewrite lift_player_run, (@is_playing_result _ _ H); reflexivity).
  cbn [fst snd]. destruct (str_in (str "status playing") reply); [|reflexivity].
  set (st1 := snd (send_socket_command (str "status")
                     (OVOSCmusService.player svc, w))).
  destruct (send_socket_command (str "player-stop") st1) as [[r|e] st2] eqn:E.
  - erewrite bind_ok.
    2:{ rewrite lift_player_run.
        cbn [OVOSCmusService.player OVOSCmusService.set_player fst snd].
        rewrite surjective_state. unfold CmusPlayer.stop.
        erewrite bind_ok by exact E. reflexivity. }
    reflexivity.
  - erewrite bind_raise.
    2:{ rewrite lift_player_run.
        cbn [OVOSCmusService.player OVOSCmusService.set_player fst snd].
        rewrite surjective_state. unfold CmusPlayer.stop.
        erewrite bind_raise by exact E. reflexivity. }
    reflexivity.
Qed.

Lemma ocp_stop_run (svc : CmusOCPAudioService.t) (w : World) (reply : pystr) :
  status_reply (CmusOCPAudioService.player svc, w) = Ok reply ->
  CmusOCPAudioService.stop (svc, w)
  = let st1 := snd (send_socket_command (str "status")
                      (CmusOCPAudioService.player svc, w)) in
    if str_in (str "status playing") reply then
      match send_socket_command (str "player-stop") st1 with
      | (Ok _, st2) =>
          (Ok true, (CmusOCPAudioService.set_player (fst st2) svc, snd st2))
      | (Raise e, st2) =>
          (Raise e, (CmusOCPAudioService.set_player (fst st2) svc, snd st2))
      end
    else (Ok false, (CmusOCPAudioService.set_player (fst st1) svc, snd st1)).
Proof.
  intros H. cbn zeta.
  unfold CmusOCPAudioService.stop, CmusOCPAudioService.on_player.
  erewrite bind_ok
    by (rewrite lift_player_run, (@is_playing_result _ _ H); reflexivity).
  cbn [fst snd]. destruct (str_in (str "status playing") reply); [|reflexivity].
  set (st1 := snd (send_socket_command (str "status")
                     (CmusOCPAudioService.player svc, w))).
  destruct (send_socket_command (str "player-stop") st1) as [[r|e] st2] eqn:E.
  - erewrite bind_ok.
    2:{ rewrite lift_player_run.
        cbn [CmusOCPAudioService.player CmusOCPAudioService.set_player fst snd].
        rewrite surjective_state. unfold CmusPlayer.stop.
        erewrite bind_ok by exact E. reflexivity. }
    reflexivity.
  - erewrite bind_raise.
    2:{ rewrite lift_player_run.
        cbn [CmusOCPAudioService.player CmusOCPAudioService.set_player fst snd].
        rewrite surjective_state. unfold CmusPlayer.stop.
        erewrite bind_raise by exact E. reflexivity. }
    reflexivity.
Qed.

(** C5.  [stop] of either backend, once the player has answered the status
    query: when the answer reports stopped (or paused) it returns false
    and writes no [player-stop]; when the answer reports playing it writes
    exactly one [player-stop], after the query, and returns true as soon as
    that command's exchange succeeds; and whenever it returns a boolean,
    the boolean says whether a [player-stop] was written. *)
Theorem backend_stop :
  (forall (svc : OVOSCmusService.t) (w : World) (reply : pystr),
     status_reply (OVOSCmusService.player svc, w) = Ok reply ->
     stop_contract reply
       (snd (send_socket_command (str "status") (OVOSCmusService.player svc, w)))
       w
       (fst (OVOSCmusService.stop (svc, w)))
       (snd (snd (OVOSCmusService.stop (svc, w)))))
  /\ (forall (svc : CmusOCPAudioService.t) (w : World) (reply : pystr),
        status_reply (CmusOCPAudioService.player svc, w) = Ok reply ->
        stop_contract reply
          (snd (send_socket_command (str "status")
                  (CmusOCPAudioService.player svc, w)))
          w
          (fst (CmusOCPAudioService.stop (svc, w)))
          (snd (snd (CmusOCPAudioService.stop (svc, w))))).
Proof.
  split.
  - intros svc w reply H. rewrite (@ovos_stop_run svc w reply H). cbn zeta.
    destruct (@command_answered _ _ _ H) as (e1 & T1 & W1 & H1).
    set (st1 := snd (send_socket_command (str "status")
                       (OVOSCmusService.player svc, w))) in *.
    cbn [snd] in T1.
    apply stop_contract_intro; intros P; rewrite P; cbn [fst snd].
    + split; [reflexivity|]. now rewrite (new_events_app w _ e1 T1).
    + destruct (command_written (str "player-stop") st1 H1 eq_refl)
        as (e2 & T2 & W2 & _).
      destruct (send_socket_command (str "player-stop") st1)
        as [[r|e] st2]; cbn [fst snd] in *.
      * split; [|reflexivity].
        rewrite (new_events_app w _ (e1 ++ e2 ++ [EvOcp OcpStop])).
        -- now rewrite !wire_app, W1, W2.
        -- rewrite trace_log, T2, T1. now rewrite <- !app_assoc.
      * split; [|reflexivity].
        rewrite (new_events_app w _ (e1 ++ e2)).
        -- now rewrite !wire_app, W1, W2.
        -- rewrite T2, T1. now rewrite <- !app_assoc.
  - intros svc w reply H. rewrite (@ocp_stop_run svc w reply H). cbn zeta.
    destruct (@command_answered _ _ _ H) as (e1 & T1 & W1 & H1).
    set (st1 := snd (send_socket_command (str "status")
                       (CmusOCPAudioService.player svc, w))) in *.
    cbn [snd] in T1.
    apply stop_contract_intro; intros P; rewrite P; cbn [fst snd].
    + split; [reflexivity|]. now rewrite (new_events_app w _ e1 T1).
    + destruct (command_written (str "player-stop") st1 H1 eq_refl)
        as (e2 & T2 & W2 & _).
      destruct (send_socket_command (str "player-stop") st1)
        as [[r|e] st2]; cbn [fst snd] in *;
        (split; [|reflexivity]);
        rewrite (new_events_app w _ (e1 ++ e2));
        solve [ now rewrite !wire_app, W1, W2
              | rewrite T2, T1; now rewrite <- !app_assoc ].
Qed.

Lemma backend_stop_witness :
  wire (new_events (sample_world true 1 [says "status playing"; says ""])
          (snd (snd (OVOSCmusService.stop
                       (sample_ovos [],
                        sample_world true 1 [says "status playing"; says ""])))))
  = [str "status" ++ newline; str "player-stop" ++ newline]
  /\ fst (OVOSCmusService.stop
            (sample_ovos [],
             sample_world true 1 [says "status playing"; says ""])) = Ok true
  /\ fst (CmusOCPAudioService.stop
            (sample_ocp [], sample_world true 1 [says "status stopped"]))
     = Ok false.
Proof.
  pose proof (proj1 backend_stop (sample_ovos [])
                (sample_world true 1 [says "status playing"; says ""])
                (str "status playing") eq_refl) as C.
  pose proof (proj2 backend_stop (sample_ocp [])
                (sample_world true 1 [says "status stopped"])
                (str "status stopped") eq_refl) as D.
  unfold stop_contract in C, D. cbn zeta in C, D.
  destruct C as (_ & P & _). destruct (P eq_refl) as (L & _ & T).
  destruct D as (Q & _). destruct (Q Stopped (or_introl eq_refl) eq_refl) as (F & _).
  split; [exact L|]. split; [exact (T (str "") eq_refl) | exact F].
Defined.

(** ** C6 and C9: [play] of the backends *)

Lemma exchange_ready_answers (cmd : pystr) (st : PW) :
  exchange_ready st ->
  is_ascii cmd = true ->
  exists text, fst (send_socket_command cmd st) = Ok text.
Proof.
  intros (s & st1 & d & rest & text & G & Alive & Inbox & Dec) A.
  exists text. rewrite (send_ascii_result cmd st st1 s d rest G A Alive Inbox).
  unfold decoded. now rewrite Dec.
Qed.

(** Everything [add_path] followed by [play] can write. *)
Lemma add_then_play_facts (isprintable : N -> bool) (queued : list pystr) (st : PW) :
  exists evs,
    trace (snd (snd (add_then_play isprintable queued st))) = trace (snd st) ++ evs
    /\ (wire evs = []
        \/ wire evs = [add_command isprintable queued ++ newline]
        \/ wire evs = [add_command isprintable queued ++ newline;
                       str "player-play" ++ newline])
    /\ (forall text,
          fst (send_socket_command (add_command isprintable queued) st) = Ok text ->
          wire evs = [add_command isprintable queued ++ newline;
                      str "player-play" ++ newline])
    /\ (is_ascii (add_command isprintable queued) = false ->
        forall s st1,
          get_open_socket st = (Ok s, st1) ->
          add_then_play isprintable queued st = (Raise UnicodeEncodeError, st1)
          /\ wire evs = []).
Proof.
  unfold add_then_play, add_path. cbn [format_obj]. fold (add_command isprintable queued).
  set (line := add_command isprintable queued).
  destruct (send_socket_command line st) as [[r|e] st1] eqn:E.
  - destruct (@send_socket_command_facts _ _ _ _ E)
      as (e1 & T1 & _ & _ & _ & K & _).
    destruct (K r eq_refl) as [W1 H1].
    destruct (command_written (str "player-play") st1 H1 eq_refl)
      as (e2 & T2 & W2 & _).
    assert (snd (((send_socket_command line ;;; ret tt) ;;; play) st)
            = snd (send_socket_command (str "player-play") st1)) as X.
    { erewrite bind_ok by (erewrite bind_ok by exact E; reflexivity).
      unfold play. apply void_state. }
    rewrite X. exists (e1 ++ e2). rewrite wire_app, W1, W2.
    split; [now rewrite T2, T1, app_assoc|].
    split; [auto|]. split; [auto|].
    intros A s st0 G.
    pose proof (send_non_ascii line st st0 s G A) as H.
    rewrite E in H. discriminate.
  - destruct (@send_socket_command_facts _ _ _ _ E)
      as (e1 & T1 & _ & _ & W & _ & _).
    assert (((send_socket_command line ;;; ret tt) ;;; play) st
            = (Raise e, st1)) as X.
    { erewrite bind_raise by (erewrite bind_raise by exact E; reflexivity).
      reflexivity. }
    rewrite X. exists e1. cbn [fst snd].
    split; [exact T1|].
    split; [destruct W as [-> | ->]; auto|].
    split; [discriminate|].
    intros A s st0 G.
    pose proof (send_non_ascii line st st0 s G A) as Y.
    rewrite E in Y. injection Y as -> ->. split; [reflexivity|].
    destruct (@get_open_socket_facts _ _ _ G) as (conn & Tc & _ & _ & Wc & _).
    rewrite Tc in T1. apply app_inv_head in T1. now subst e1.
Qed.

Lemma ovos_play_run (isprintable : N -> bool) (svc : OVOSCmusService.t) (w : World) :
  OVOSCmusService.play isprintable (svc, w)
  = let out := add_then_play isprintable (OVOSCmusService.tracks svc)
                 (OVOSCmusService.player svc, log (EvOcp OcpStart) w) in
    (fst out, (OVOSCmusService.set_player (fst (snd out)) svc, snd (snd out))).
Proof.
  cbn zeta. unfold OVOSCmusService.play, OVOSCmusService.on_player, add_then_play.
  erewrite bind_ok by reflexivity. erewrite bind_ok by reflexivity.
  cbn [fst snd].
  set (st0 := (OVOSCmusService.player svc, log (EvOcp OcpStart) w)).
  set (add := add_path isprintable (PyList (OVOSCmusService.tracks svc))).
  destruct (add st0) as [[u|e] st1] eqn:E.
  - erewrite bind_ok.
    2:{ rewrite lift_player_run. fold st0. rewrite E. reflexivity. }
    erewrite (@bind_ok _ _ _ add) by exact E.
    rewrite lift_player_run.
    cbn [OVOSCmusService.player OVOSCmusService.set_player fst snd].
    now rewrite surjective_state.
  - erewrite bind_raise.
    2:{ rewrite lift_player_run. fold st0. rewrite E. reflexivity. }
    erewrite (@bind_raise _ _ _ add) by exact E. reflexivity.
Qed.

Lemma ocp_play_run (isprintable : N -> bool) (svc : CmusOCPAudioService.t) (w : World) :
  CmusOCPAudioService.play isprintable (svc, w)
  = let out := add_then_play isprintable (CmusOCPAudioService.tracks svc)
                 (CmusOCPAudioService.player svc, w) in
    (fst out, (CmusOCPAudioService.set_player (fst (snd out)) svc, snd (snd out))).
Proof.
  cbn zeta.
  unfold CmusOCPAudioService.play, CmusOCPAudioService.on_player, add_then_play.
  erewrite bind_ok by reflexivity. cbn [fst snd].
  set (st0 := (CmusOCPAudioService.player svc, w)).
  set (add := add_path isprintable (PyList (CmusOCPAudioService.tracks svc))).
  destruct (add st0) as [[u|e] st1] eqn:E.
  - erewrite bind_ok.
    2:{ rewrite lift_player_run. fold st0. rewrite E. reflexivity. }
    erewrite (@bind_ok _ _ _ add) by exact E.
    rewrite lift_player_run.
    cbn [CmusOCPAudioService.player CmusOCPAudioService.set_player fst snd].
    now rewrite surjective_state.
  - erewrite bind_raise.
    2:{ rewrite lift_player_run. fold st0. rewrite E. reflexivity. }
    erewrite (@bind_raise _ _ _ add) by exact E. reflexivity.
Qed.

Lemma add_command_not_play (isprintable : N -> bool) (queued : list pystr) :
  str "player-play" ++ newline <> add_command isprintable queued ++ newline.
Proof. unfold add_command, str. cbn. discriminate. Qed.

Lemma count_add_play (isprintable : N -> bool) (queued : list pystr) :
  count_cmd (add_command isprintable queued)
    [add_command isprintable queued ++ newline; str "player-play" ++ newline] = 1
  /\ count_cmd (str "player-play")
       [add_command isprintable queued ++ newline; str "player-play" ++ newline] = 1.
Proof.
  pose proof (add_command_not_play isprintable queued) as N.
  unfold count_cmd. cbn [count_occ]. split.
  - destruct (list_eq_dec N.eq_dec _ _) as [_|X]; [|now destruct X].
    destruct (list_eq_dec N.eq_dec _ _) as [X|_]; [now destruct N|reflexivity].
  - destruct (list_eq_dec N.eq_dec (add_command _ _ ++ _) _) as [X|_];
      [symmetry in X; now destruct N|].
    destruct (list_eq_dec N.eq_dec _ _) as [_|X]; [reflexivity|now destruct X].
Qed.

(** The contract of [play] from the facts about the two calls, the events
    [pre] logged before them writing nothing. *)
Lemma play_contract_intro (isprintable : N -> bool) (queued : list pystr)
    (st : PW) (w : World) (pre : list Event) :
  trace (snd st) = trace w ++ pre ->
  wire pre = [] ->
  play_contract isprintable queued st w
    (fst (add_then_play isprintable queued st))
    (snd (snd (add_then_play isprintable queued st))).
Proof.
  intros Tp Wp.
  destruct (add_then_play_facts isprintable queued st) as (evs & T & _ & Kok & Kno).
  assert (wire (new_events w (snd (snd (add_then_play isprintable queued st))))
          = wire evs) as X.
  { rewrite (new_events_app w _ (pre ++ evs)).
    - now rewrite wire_app, Wp.
    - now rewrite T, Tp, app_assoc. }
  unfold play_contract. cbn zeta. rewrite X. split.
  - intros A R. destruct (exchange_ready_answers _ _ R A) as [text Ht].
    rewrite (Kok text Ht). split; [reflexivity|]. apply count_add_play.
  - intros A s st1 G. destruct (Kno A s st1 G) as [E W]. now rewrite E, W.
Qed.

(** ** C6: [play] writes one [add], then one [player-play] *)

(** C6, as amended.  For every queued track list whose [add] command, the
    text "add " followed by the list's representation, is made of ASCII
    characters only, [play] of either backend, on a transport that is ready
    for the exchange, writes exactly one [add] command carrying the whole
    queue and then exactly one [player-play], in that order.  For a track
    list whose [add] command has a character outside ASCII, [play] raises
    [UnicodeEncodeError] once the socket is had and writes neither command. *)
Theorem backend_play :
  forall (isprintable : N -> bool),
    (forall (svc : OVOSCmusService.t) (w : World),
       play_contract isprintable (OVOSCmusService.tracks svc)
         (OVOSCmusService.player svc, log (EvOcp OcpStart) w) w
         (fst (OVOSCmusService.play isprintable (svc, w)))
         (snd (snd (OVOSCmusService.play isprintable (svc, w)))))
    /\ (forall (svc : CmusOCPAudioService.t) (w : World),
          play_contract isprintable (CmusOCPAudioService.tracks svc)
            (CmusOCPAudioService.player svc, w) w
            (fst (CmusOCPAudioService.play isprintable (svc, w)))
            (snd (snd (CmusOCPAudioService.play isprintable (svc, w))))).
Proof.
  intros isprintable. split; intros svc w.
  - rewrite ovos_play_run. cbn zeta. cbn [fst snd].
    apply (@play_contract_intro _ _ _ w [EvOcp OcpStart]); reflexivity.
  - rewrite ocp_play_run. cbn zeta. cbn [fst snd].
    apply (@play_contract_intro _ _ _ w []); [|reflexivity].
    cbn [snd]. now rewrite app_nil_r.
Qed.

Lemma backend_play_witness :
  wire (new_events (sample_world true 1 [says ""; says ""])
          (snd (snd (OVOSCmusService.play latin1_printable
                       (sample_ovos [str "a.mp3"; str "b.mp3"],
                        sample_world true 1 [says ""; says ""])))))
  = [str "add ['a.mp3', 'b.mp3']" ++ newline; str "player-play" ++ newline]
  /\ wire (new_events (sample_world true 1 [says ""; says ""])
             (snd (snd (CmusOCPAudioService.play latin1_printable
                          (sample_ocp [str "a.mp3"; str "b.mp3"],
                           sample_world true 1 [says ""; says ""])))))
     = [str "add ['a.mp3', 'b.mp3']" ++ newline; str "player-play" ++ newline].
Proof.
  pose proof (proj1 (backend_play latin1_printable)
                (sample_ovos [str "a.mp3"; str "b.mp3"])
                (sample_world true 1 [says ""; says ""])) as C.
  pose proof (proj2 (backend_play latin1_printable)
                (sample_ocp [str "a.mp3"; str "b.mp3"])
                (sample_world true 1 [says ""; says ""])) as D.
  unfold play_contract in C, D. cbn zeta in C, D.
  destruct C as [C _]. destruct D as [D _]. split.
  - refine (proj1 (C eq_refl _)).
    exists 0, (mkPlayer (Some 0),
               log (EvOcp OcpStart) (sample_world true 1 [says ""; says ""])),
           [], [says ""], [].
    repeat split; reflexivity.
  - refine (proj1 (D eq_refl _)).
    exists 0, (mkPlayer (Some 0), sample_world true 1 [says ""; says ""]),
           [], [says ""], [].
    repeat split; reflexivity.
Defined.

(** C6, as stated, fails: with the track caf\u00e9.mp3 (U+00E9, a
    printable letter) queued, on a connection that is up and has replies
    waiting, [play] of either backend raises [UnicodeEncodeError] and
    writes nothing, neither an [add] nor a [player-play]. *)
Lemma backend_play_non_ascii :
  (fst (OVOSCmusService.play latin1_printable
          (sample_ovos [cafe], sample_world true 1 [says ""; says ""]))
   = Raise UnicodeEncodeError
   /\ wire (new_events (sample_world true 1 [says ""; says ""])
              (snd (snd (OVOSCmusService.play latin1_printable
                           (sample_ovos [cafe],
                            sample_world true 1 [says ""; says ""])))))
      = [])
  /\ (fst (CmusOCPAudioService.play latin1_printable
             (sample_ocp [cafe], sample_world true 1 [says ""; says ""]))
      = Raise UnicodeEncodeError
      /\ wire (new_events (sample_world true 1 [says ""; says ""])
                 (snd (snd (CmusOCPAudioService.play latin1_printable
                              (sample_ocp [cafe],
                               sample_world true 1 [says ""; says ""])))))
         = []).
Proof. repeat split; reflexivity. Qed.

(** ** C9: what the [add] command carries *)

Lemma repr_char_nonempty (isprintable : N -> bool) (q c : N) :
  1 <= length (repr_char isprintable q c).
Proof.
  unfold repr_char.
  repeat match goal with
         | |- context [if ?b then _ else _] => destruct b
         end; cbn [length]; lia.
Qed.

Lemma str_repr_length (isprintable : N -> bool) (s : pystr) :
  length s + 2 <= length (str_repr isprintable s).
Proof.
  unfold str_repr. cbn [length]. rewrite length_app. cbn [length].
  generalize (repr_quote s). intros q.
  induction s as [|c s IH]; cbn [flat_map length]; [lia|].
  rewrite length_app. pose proof (repr_char_nonempty isprintable q c). lia.
Qed.

Lemma join_comma_length (parts : list pystr) (x : pystr) :
  In x parts -> length x <= length (join_comma parts).
Proof.
  induction parts as [|y parts IH]; [intros []|].
  intros [-> | H]; destruct parts as [|z parts]; cbn [join_comma].
  - lia.
  - rewrite length_app. lia.
  - destruct H.
  - rewrite !length_app. specialize (IH H). cbn [join_comma] in IH. lia.
Qed.

Lemma list_repr_length (isprintable : N -> bool) (l : list pystr) (t : pystr) :
  In t l -> length t + 4 <= length (list_repr isprintable l).
Proof.
  intros H. unfold list_repr. rewrite !length_app.
  change (length (str "[")) with 1. change (length (str "]")) with 1.
  pose proof (join_comma_length (List.map (str_repr isprintable) l)
                (str_repr isprintable t) (in_map _ _ _ H)).
  pose proof (str_repr_length isprintable t). lia.
Qed.

Lemma play_wire_cases (isprintable : N -> bool) (queued : list pystr)
    (st : PW) (w : World) (pre : list Event) (line : pystr) :
  trace (snd st) = trace w ++ pre ->
  wire pre = [] ->
  In line (wire (new_events w (snd (snd (add_then_play isprintable queued st))))) ->
  startswith (str "add ") line = true ->
  line = str "add " ++ list_repr isprintable queued ++ newline.
Proof.
  intros Tp Wp.
  destruct (add_then_play_facts isprintable queued st) as (evs & T & W & _).
  rewrite (new_events_app w _ (pre ++ evs)) by now rewrite T, Tp, app_assoc.
  rewrite wire_app, Wp. cbn [app]. unfold add_command in W.
  rewrite <- app_assoc in W.
  destruct W as [-> | [-> | ->]]; cbn [In].
  - intros [].
  - intros [<- | []]. reflexivity.
  - intros [<- | [<- | []]]; [reflexivity|]. intros X. vm_compute in X.
    discriminate.
Qed.

(** An ASCII command is handed to the socket as soon as the socket is had,
    whatever comes of the exchange; without a socket nothing is written. *)
Lemma command_sent (cmd : pystr) (st st1 : PW) (s : sock) :
  get_open_socket st = (Ok s, st1) ->
  is_ascii cmd = true ->
  exists evs,
    trace (snd (snd (send_socket_command cmd st))) = trace (snd st) ++ evs
    /\ wire evs = [cmd ++ newline].
Proof.
  intros G A. destruct (encode_line cmd A) as [data Enc].
  rewrite (send_socket_command_run cmd st st1 s data G Enc).
  destruct (get_open_socket_facts _ _ _ G) as (conn & T & _ & _ & W & _).
  match goal with
  | |- context [snd (snd (?m st1))] => destruct (m st1) as [r st2] eqn:X
  end.
  apply exchange_run in X. destruct X as (io & T2 & _ & _ & W2 & _).
  rewrite (encode_ascii_to_N _ _ Enc) in W2.
  exists (conn ++ io). cbn [snd]. split.
  - now rewrite T2, T, app_assoc.
  - now rewrite wire_app, W, W2.
Qed.

Lemma command_unsent (cmd : pystr) (st st1 : PW) (e : exn) :
  get_open_socket st = (Raise e, st1) ->
  send_socket_command cmd st = (Raise e, st1)
  /\ exists evs, trace (snd st1) = trace (snd st) ++ evs /\ wire evs = [].
Proof.
  intros G. split.
  - unfold send_socket_command. now erewrite bind_raise by exact G.
  - destruct (get_open_socket_facts _ _ _ G) as (conn & T & _ & _ & W & _).
    now exists conn.
Qed.

(** When [add_path] followed by [play] writes the [add] command. *)
Lemma add_then_play_written (isprintable : N -> bool) (queued : list pystr)
    (st : PW) :
  exists evs,
    trace (snd (snd (add_then_play isprintable queued st))) = trace (snd st) ++ evs
    /\ (forall s st1,
          get_open_socket st = (Ok s, st1) ->
          is_ascii (add_command isprintable queued) = true ->
          wire evs = [add_command isprintable queued ++ newline]
          \/ wire evs = [add_command isprintable queued ++ newline;
                         str "player-play" ++ newline])
    /\ (forall s st1,
          get_open_socket st = (Ok s, st1) ->
          is_ascii (add_command isprintable queued) = false ->
          wire evs = [])
    /\ (forall e st1, get_open_socket st = (Raise e, st1) -> wire evs = []).
Proof.
  destruct (add_then_play_facts isprintable queued st) as (evs & T & _ & Kok & Kno).
  exists evs. split; [exact T|].
  revert T Kok. unfold add_then_play, add_path. cbn [format_obj].
  fold (add_command isprintable queued).
  set (line := add_command isprintable queued) in *.
  intros T Kok. split; [|split].
  - intros s st1 G A.
    destruct (send_socket_command line st) as [[r|e] st2] eqn:E.
    + right. apply (Kok r). reflexivity.
    + left. destruct (command_sent line st st1 s G A) as (e1 & T1 & W1).
      rewrite E in T1. cbn [snd] in T1.
      assert (((send_socket_command line ;;; ret tt) ;;; play) st
              = (Raise e, st2)) as X.
      { erewrite bind_raise by (erewrite bind_raise by exact E; reflexivity).
        reflexivity. }
      rewrite X in T. cbn [snd] in T. rewrite T1 in T.
      apply app_inv_head in T. now subst evs.
  - intros s st1 G A. exact (proj2 (Kno A s st1 G)).
  - intros e st1 G. destruct (command_unsent line st st1 e G) as (E & e1 & T1 & W1).
    assert (((send_socket_command line ;;; ret tt) ;;; play) st
            = (Raise e, st1)) as X.
    { erewrite bind_raise by (erewrite bind_raise by exact E; reflexivity).
      reflexivity. }
    rewrite X in T. cbn [snd] in T. rewrite T1 in T.
    apply app_inv_head in T. now subst evs.
Qed.

(** The contract of the [add] command from the facts about the two calls,
    the events [pre] logged before them writing nothing. *)
Lemma add_contract_intro (isprintable : N -> bool) (queued : list pystr)
    (st : PW) (w : World) (pre : list Event) :
  trace (snd st) = trace w ++ pre ->
  wire pre = [] ->
  add_contract isprintable queued st w
    (snd (snd (add_then_play isprintable queued st))).
Proof.
  intros Tp Wp.
  destruct (add_then_play_written isprintable queued st)
    as (evs & T & Kw & Kno & Kraise).
  assert (wire (new_events w (snd (snd (add_then_play isprintable queued st))))
          = wire evs) as X.
  { rewrite (new_events_app w _ (pre ++ evs)).
    - now rewrite wire_app, Wp.
    - now rewrite T, Tp, app_assoc. }
  unfold add_contract. cbn zeta. rewrite X. split; [|split].
  - intros s st1 G A. destruct (Kw s st1 G A) as [-> | ->].
    + split; [now left|]. split; [reflexivity|].
      unfold count_cmd. cbn [count_occ].
      now destruct (list_eq_dec N.eq_dec _ _) as [_|N]; [|destruct N].
    + split; [now right|]. split; [reflexivity|].
      apply count_add_play.
  - intros s st1 G A. now rewrite (Kno s st1 G A).
  - intros e st1 G. now rewrite (Kraise e st1 G).
Qed.

(** C9, as amended.  For every track list whose [add] command is made of
    ASCII characters only, [play] of either backend, once the socket is had,
    writes exactly one [add] command, before anything else, and that
    command is the text "add " followed by the Python representation of the
    whole track list, brackets, quotes and commas included, and the newline:
    for the queue a.mp3, b.mp3 it is [add ['a.mp3', 'b.mp3']].  The list is
    put into the command as one object, so for every track of a non-empty
    queue the argument differs from that track's own path (it is at least
    four characters longer).  For a track list whose [add] command has a
    character outside ASCII, and when no socket can be had, [play] writes
    no command at all.  In every case a line [play] writes that starts with
    "add " is that one command. *)
Theorem play_add_argument :
  forall (isprintable : N -> bool),
    add_command isprintable [str "a.mp3"; str "b.mp3"]
    = str "add ['a.mp3', 'b.mp3']"
    /\ (forall (queued : list pystr),
          add_command isprintable queued
          = str "add [" ++ join_comma (List.map (str_repr isprintable) queued)
                ++ str "]")
    /\ (forall (queued : list pystr) (t : pystr),
          In t queued ->
          length t + 4 <= length (list_repr isprintable queued)
          /\ list_repr isprintable queued <> t
          /\ add_command isprintable queued <> str "add " ++ t)
    /\ (forall (svc : OVOSCmusService.t) (w : World),
          add_contract isprintable (OVOSCmusService.tracks svc)
            (OVOSCmusService.player svc, log (EvOcp OcpStart) w) w
            (snd (snd (OVOSCmusService.play isprintable (svc, w)))))
    /\ (forall (svc : CmusOCPAudioService.t) (w : World),
          add_contract isprintable (CmusOCPAudioService.tracks svc)
            (CmusOCPAudioService.player svc, w) w
            (snd (snd (CmusOCPAudioService.play isprintable (svc, w)))))
    /\ (forall (svc : OVOSCmusService.t) (w : World) (line : pystr),
          In line (wire (new_events w
                     (snd (snd (OVOSCmusService.play isprintable (svc, w))))))  ->
          startswith (str "add ") line = true ->
          line = str "add "
                 ++ list_repr isprintable (OVOSCmusService.tracks svc)
                 ++ newline)
    /\ (forall (svc : CmusOCPAudioService.t) (w : World) (line : pystr),
          In line (wire (new_events w
                     (snd (snd (CmusOCPAudioService.play isprintable (svc, w)))))) ->
          startswith (str "add ") line = true ->
          line = str "add "
                 ++ list_repr isprintable (CmusOCPAudioService.tracks svc)
                 ++ newline).
Proof.
  intros isprintable. split; [reflexivity|]. split; [reflexivity|].
  split; [|split; [|split; [|split]]].
  - intros queued t H. pose proof (list_repr_length isprintable queued t H) as L.
    split; [exact L|]. split.
    + intros E. rewrite E in L. lia.
    + unfold add_command. intros E. apply app_inv_head in E.
      rewrite E in L. lia.
  - intros svc w. rewrite ovos_play_run. cbn zeta. cbn [fst snd].
    apply (add_contract_intro _ _ _ w [EvOcp OcpStart]); reflexivity.
  - intros svc w. rewrite ocp_play_run. cbn zeta. cbn [fst snd].
    apply (add_contract_intro _ _ _ w []); [|reflexivity].
    cbn [snd]. now rewrite app_nil_r.
  - intros svc w line. rewrite ovos_play_run. cbn zeta. cbn [fst snd].
    apply (play_wire_cases _ _ _ w [EvOcp OcpStart]); reflexivity.
  - intros svc w line. rewrite ocp_play_run. cbn zeta. cbn [fst snd].
    apply (play_wire_cases _ _ _ w []); [|reflexivity].
    cbn [snd]. now rewrite app_nil_r.
Qed.

Lemma play_add_argument_witness :
  (wire (new_events (sample_world true 1 [says "ok"; says "ok"])
           (snd (snd (OVOSCmusService.play latin1_printable
                        (sample_ovos [str "a.mp3"; str "b.mp3"],
                         sample_world true 1 [says "ok"; says "ok"])))))
   = [str "add ['a.mp3', 'b.mp3']" ++ newline]
   \/ wire (new_events (sample_world true 1 [says "ok"; says "ok"])
              (snd (snd (OVOSCmusService.play latin1_printable
                           (sample_ovos [str "a.mp3"; str "b.mp3"],
                            sample_world true 1 [says "ok"; says "ok"])))))
      = [str "add ['a.mp3', 'b.mp3']" ++ newline; str "player-play" ++ newline])
  /\ (wire (new_events (sample_world false 1 [])
              (snd (snd (CmusOCPAudioService.play latin1_printable
                           (sample_ocp [str "a.mp3"; str "b.mp3"],
                            sample_world false 1 [])))))
      = [str "add ['a.mp3', 'b.mp3']" ++ newline]
      \/ wire (new_events (sample_world false 1 [])
                 (snd (snd (CmusOCPAudioService.play latin1_printable
                              (sample_ocp [str "a.mp3"; str "b.mp3"],
                               sample_world false 1 [])))))
         = [str "add ['a.mp3', 'b.mp3']" ++ newline;
            str "player-play" ++ newline])
  /\ list_repr latin1_printable [str "a.mp3"; str "b.mp3"] <> str "a.mp3".
Proof.
  pose proof (play_add_argument latin1_printable) as (_ & _ & L & A & B & _).
  split; [|split].
  - exact (proj1 (proj1 (A (sample_ovos [str "a.mp3"; str "b.mp3"])
                           (sample_world true 1 [says "ok"; says "ok"]))
                    0 _ eq_refl eq_refl)).
  - exact (proj1 (proj1 (B (sample_ocp [str "a.mp3"; str "b.mp3"])
                           (sample_world false 1 []))
                    0 _ eq_refl eq_refl)).
  - exact (proj1 (proj2 (L [str "a.mp3"; str "b.mp3"] (str "a.mp3")
                           (or_introl eq_refl)))).
Defined.

(** C9 as first stated fails for a non-empty track list whose [add]
    command does not encode: with the one track caf\u00e9.mp3 queued (U+00E9
    is printable, so the representation keeps it), on a connection that is
    up and has replies waiting, [play] of either backend writes no line that
    starts with "add ", so there is no emitted [add] command to carry the
    representation of the list. *)
Lemma play_add_argument_non_ascii :
  [cafe] <> []
  /\ add_command latin1_printable [cafe]
     = str "add ['caf" ++ [233%N] ++ str ".mp3']"
  /\ is_ascii (add_command latin1_printable [cafe]) = false
  /\ ~ (exists line,
          In line (wire (new_events (sample_world true 1 [says "ok"; says "ok"])
                     (snd (snd (OVOSCmusService.play latin1_printable
                                  (sample_ovos [cafe],
                                   sample_world true 1 [says "ok"; says "ok"]))))))
          /\ startswith (str "add ") line = true)
  /\ ~ (exists line,
          In line (wire (new_events (sample_world true 1 [says "ok"; says "ok"])
                     (snd (snd (CmusOCPAudioService.play latin1_printable
                                  (sample_ocp [cafe],
                                   sample_world true 1 [says "ok"; says "ok"]))))))
          /\ startswith (str "add ") line = true).
Proof.
  split; [discriminate|]. split; [reflexivity|]. split; [reflexivity|].
  split; intros (line & H & _); vm_compute in H; exact H.
Qed.

(** ** C7: one connection, made once and kept *)









Example first_use_trace :
  trace (snd (run_calls latin1_printable [CallIsStopped; CallPlay]
                (fresh [says "status stopped"; says ""])))
  = [EvSocket 0;
     EvExists (str "/run/user/1000/cmus-socket");
     EvExists (str "/home/u/.cmus/socket");
     EvConnect 0 (str "/home/u/.cmus/socket");
     EvSend 0 (list_byte_of_string "status" ++ [x0a]);
     EvRecv 0 recv_bufsize (list_byte_of_string "status stopped");
     EvSend 0 (list_byte_of_string "player-play" ++ [x0a]);
     EvRecv 0 recv_bufsize []].
Proof. reflexivity. Qed.

(** ** C8: [load_service] *)

Lemma pystr_eqb_eq (a b : pystr) : pystr_eqb a b = true <-> a = b.
Proof.
  unfold pystr_eqb. destruct (list_eq_dec N.eq_dec a b); split;
    congruence.
Qed.

Lemma pystr_eqb_refl (a : pystr) : pystr_eqb a a = true.
Proof. now apply pystr_eqb_eq. Qed.

Lemma assoc_get_in {V : Type} (d : list (pystr * V)) (k : pystr) (v : V) :
  NoDup (List.map fst d) -> In (k, v) d -> assoc_get k d = Some v.
Proof.
  induction d as [|[k' v'] d IH]; cbn [List.map fst assoc_get]; [intros _ []|].
  intros N [E | H]; inversion N as [|? ? Hn Hd]; subst.
  - injection E as -> ->. now rewrite pystr_eqb_refl.
  - destruct (pystr_eqb k k') eqn:X.
    + apply pystr_eqb_eq in X. subst k'. destruct Hn.
      now apply (in_map fst) in H.
    + now apply IH.
Qed.

Lemma selected_typed (entry : pydict) (ty : pyval) :
  assoc_get (str "type") entry = Some ty ->
  selected entry = Ok (recognized entry && active entry).
Proof.
  intros H. unfold selected, recognized, active. rewrite H.
  destruct (eq_str ty (str "cmus") || eq_str ty (str "ovos_cmus")); cbn [andb];
    [|reflexivity].
  now destruct (assoc_get (str "active") entry).
Qed.

Lemma selected_untyped (entry : pydict) :
  assoc_get (str "type") entry = None ->
  selected entry = Raise (KeyError (str "type")).
Proof. intros H. unfold selected. now rewrite H. Qed.

Lemma selected_cases (entry : pydict) :
  selected entry = Raise (KeyError (str "type"))
  \/ exists b, selected entry = Ok b.
Proof.
  unfold selected. destruct (assoc_get (str "type") entry); [right|now left].
  destruct (_ || _); eauto.
Qed.

(** The comprehension over a part [sub] of the entries, each of which is
    found under its own name. *)
Lemma select_services_typed (backends sub : list (pystr * pydict)) :
  (forall b entry, In (b, entry) sub -> assoc_get b backends = Some entry) ->
  typed sub ->
  select_services backends (List.map fst sub) = Ok (filter wanted sub).
Proof.
  induction sub as [|[b entry] sub IH]; intros L T; [reflexivity|].
  cbn [List.map fst select_services filter].
  rewrite (L b entry (or_introl eq_refl)).
  destruct (T b entry (or_introl eq_refl)) as [ty Hty].
  rewrite (selected_typed entry ty Hty).
  rewrite IH.
  - reflexivity.
  - intros b' e' H. apply L. now right.
  - intros b' e' H. apply (T b' e'). now right.
Qed.

Lemma select_services_untyped (backends sub : list (pystr * pydict)) :
  (forall b entry, In (b, entry) sub -> assoc_get b backends = Some entry) ->
  (exists b entry, In (b, entry) sub /\ assoc_get (str "type") entry = None) ->
  select_services backends (List.map fst sub) = Raise (KeyError (str "type")).
Proof.
  induction sub as [|[b entry] sub IH]; intros L (b0 & e0 & H & U); [destruct H|].
  cbn [List.map fst select_services].
  rewrite (L b entry (or_introl eq_refl)).
  destruct H as [E | H].
  - injection E as -> ->. now rewrite (selected_untyped _ U).
  - destruct (selected_cases entry) as [-> | [keep ->]]; [reflexivity|].
    rewrite IH; [reflexivity| |].
    + intros b' e' H'. apply L. now right.
    + now exists b0, e0.
Qed.

Lemma built_for_map (bus : Bus) (b : pystr) (l : list (pystr * pydict)) :
  built_for b (List.map (fun s => OVOSCmusService.init (snd s) bus (fst s)) l)
  = length (filter (fun be => pystr_eqb (fst be) b) l).
Proof.
  unfold built_for. induction l as [|[k e] l IH]; [reflexivity|].
  cbn [List.map filter fst snd OVOSCmusService.init OVOSCmusService.name].
  destruct (pystr_eqb k b); cbn [length]; now rewrite IH.
Qed.

Lemma count_named (l : list (pystr * pydict)) (b : pystr) (entry : pydict) :
  NoDup (List.map fst l) ->
  In (b, entry) l ->
  length (filter (fun be => pystr_eqb (fst be) b) (filter wanted l))
  = if wanted (b, entry) then 1 else 0.
Proof.
  induction l as [|[k e] l IH]; [intros _ []|].
  cbn [List.map fst]. intros N H. inversion N as [|? ? Hn Hd]; subst.
  assert (forall l', (forall x, In x l' -> In x l) ->
            ~ In k (List.map fst l) ->
            length (filter (fun be => pystr_eqb (fst be) k) l') = 0) as Z.
  { intros l' Sub Nk. induction l' as [|[k' e'] l' IHl]; [reflexivity|].
    cbn [filter fst]. destruct (pystr_eqb k' k) eqn:X.
    - apply pystr_eqb_eq in X. subst k'. destruct Nk.
      exact (in_map fst _ _ (Sub (k, e') (or_introl eq_refl))).
    - apply IHl. intros x Hx. apply Sub. now right. }
  destruct H as [E | H].
  - injection E as -> ->. cbn [filter].
    destruct (wanted (b, entry)).
    + cbn [filter fst]. rewrite pystr_eqb_refl. cbn [length]. f_equal.
      apply Z; [|exact Hn]. intros x Hx. now apply filter_In in Hx.
    + apply Z; [|exact Hn]. intros x Hx. now apply filter_In in Hx.
  - assert (pystr_eqb k b = false) as X.
    { destruct (pystr_eqb k b) eqn:X; [|reflexivity].
      apply pystr_eqb_eq in X. subst k. destruct Hn.
      now apply (in_map fst) in H. }
    cbn [filter]. destruct (wanted (k, e)).
    + cbn [filter fst]. rewrite X. now apply IH.
    + now apply IH.
Qed.

(** C8, as amended.  For every configuration whose [backends] entries all
    carry a [type] (the names of a dict being distinct): the factory
    returns, in the order of the entries, one instance per entry whose
    [type] is "cmus" or "ovos_cmus" and whose [active] flag is true in
    Python's sense, named after the entry and given its configuration, and
    none for any other entry; an entry without [active] counts as inactive.
    When some entry carries no [type], the factory raises [KeyError] and
    builds nothing. *)
Theorem load_service_selects :
  forall (base_config : base_config_t) (bus : Bus),
    NoDup (List.map fst (backends_of base_config)) ->
    (typed (backends_of base_config) ->
     load_service base_config bus
     = Ok (List.map (fun s => OVOSCmusService.init (snd s) bus (fst s))
             (filter wanted (backends_of base_config)))
     /\ (forall b entry instances,
           In (b, entry) (backends_of base_config) ->
           load_service base_config bus = Ok instances ->
           built_for b instances = if recognized entry && active entry then 1 else 0))
    /\ ((exists b entry, In (b, entry) (backends_of base_config)
                         /\ assoc_get (str "type") entry = None) ->
        load_service base_config bus = Raise (KeyError (str "type"))).
Proof.
  intros base_config bus N.
  assert (forall b entry, In (b, entry) (backends_of base_config) ->
            assoc_get b (backends_of base_config) = Some entry) as L
    by (intros b entry H; now apply assoc_get_in).
  split.
  - intros T.
    assert (load_service base_config bus
            = Ok (List.map (fun s => OVOSCmusService.init (snd s) bus (fst s))
                    (filter wanted (backends_of base_config)))) as R.
    { unfold load_service. fold (backends_of base_config).
      now rewrite (select_services_typed _ _ L T). }
    split; [exact R|].
    intros b entry instances H E. rewrite R in E. injection E as <-.
    rewrite built_for_map. exact (count_named _ b entry N H).
  - intros U. unfold load_service. fold (backends_of base_config).
    now rewrite (select_services_untyped _ _ L U).
Qed.

Lemma load_service_selects_witness :
  load_service sample_config None
  = Ok [OVOSCmusService.init
          [(str "type", VStr (str "ovos_cmus")); (str "active", VBool true)]
          None (str "cmus")]
  /\ load_service untyped_config None = Raise (KeyError (str "type")).
Proof.
  assert (NoDup (List.map fst (backends_of sample_config))) as N1
    by (repeat constructor; cbn; intuition discriminate).
  assert (NoDup (List.map fst (backends_of untyped_config))) as N2
    by (repeat constructor; cbn; intuition discriminate).
  split.
  - refine (proj1 (proj1 (load_service_selects sample_config None N1) _)).
    intros b entry [E | [E | []]]; injection E as <- <-; eexists; reflexivity.
  - refine (proj2 (load_service_selects untyped_config None N2) _).
    exists (str "other"), [(str "active", VBool true)].
    split; [right; left; reflexivity | reflexivity].
Defined.

(** C8, as stated, fails: in a configuration with the entry of this plugin,
    of a recognized type and active, and an entry that has no [type], the
    factory builds no instance at all: it raises [KeyError]. *)
Lemma load_service_untyped_entry :
  recognized [(str "type", VStr (str "ovos_cmus")); (str "active", VBool true)]
  && active [(str "type", VStr (str "ovos_cmus")); (str "active", VBool true)]
  = true
  /\ load_service untyped_config None = Raise (KeyError (str "type"))
  /\ ~ (exists instances,
          load_service untyped_config None = Ok instances
          /\ built_for (str "cmus") instances = 1).
Proof.
  split; [reflexivity|]. split; [reflexivity|].
  intros (instances & H & _). vm_compute in H. discriminate.
Qed.

(** ** C10: [set_track_position] and the division by 1000 *)

Section Division.
Local Open Scope Z_scope.

Lemma round_half_even_spec (num den : Z) :
  0 < den -> 2 * Z.abs (round_half_even num den * den - num) <= den.
Proof.
  intros D. unfold round_half_even.
  pose proof (Z.div_mod num den ltac:(lia)) as E.
  pose proof (Z.mod_pos_bound num den D) as B.
  destruct (Z.compare_spec (2 * (num mod den)) den) as [C|C|C];
    [destruct (Z.even (num / den))| |]; nia.
Qed.

Lemma round_half_even_bounds (num den lo hi : Z) :
  0 < den -> lo * den <= num <= hi * den ->
  lo <= round_half_even num den <= hi.
Proof.
  intros D [L H]. pose proof (round_half_even_spec num den D) as S.
  split; nia.
Qed.

Lemma round_half_even_exact (num : Z) : round_half_even num 1 = num.
Proof.
  unfold round_half_even. now rewrite Z.mod_1_r, Z.div_1_r.
Qed.

Lemma abs_multiple (a d : Z) : 0 < d -> (Z.abs a mod d = 0 <-> a mod d = 0).
Proof.
  intros D. rewrite !Z.mod_divide by lia. apply Z.divide_abs_r.
Qed.

(** The quotient by 1000 of a non-zero integer below [2 ^ 53] in
    magnitude: the mantissa [q] rounded at the exponent [k], at most -9, and
    the float made of it, which is [q] at [k] or, when the rounding carried
    to [2 ^ 53], its half at [k + 1]. *)
Lemma int_truediv_1000 (a : Z) :
  a <> 0 -> Z.abs a < 2 ^ 53 ->
  exists p e q k,
    int_truediv a 1000 = Ok (S754_finite (a <? 0) p e)
    /\ 2 ^ 52 <= Zpos p < 2 ^ 53
    /\ e < 0
    /\ 2 * Z.abs (Zpos p * 1000 - Z.abs a * 2 ^ (- e)) <= 1000
    /\ k <= -9
    /\ 2 * Z.abs (q * 1000 - Z.abs a * 2 ^ (- k)) <= 1000
    /\ (Zpos p mod 2 ^ (- e) = 0 -> q mod 2 ^ (- k) = 0).
Proof.
  intros NZ B. unfold int_truediv.
  change (1000 =? 0) with false. change (1000 <? 0) with false.
  rewrite xorb_false_r. change (Z.abs 1000) with 1000.
  change (Z.log2 1000) with 9. cbv iota.
  set (n := Z.abs a) in *. cbv zeta.
  assert (0 < n) as Pn by (subst n; lia).
  destruct (Z.eqb_spec n 0) as [|_]; [lia|].
  set (ln := Z.log2 n).
  pose proof (Z.log2_spec n Pn) as [L1 L2]. fold ln in L1, L2.
  pose proof (Z.log2_nonneg n) as L0. fold ln in L0.
  assert (ln < 53) as L53 by (apply Z.log2_lt_pow2; lia).
  rewrite Z.pow_succ_r in L2 by lia.
  set (A := 2 ^ ln) in *.
  assert (0 < A) as PA by (apply Z.pow_pos_nonneg; lia).
  set (s := ln - 9).
  set (e := if below n 1000 s then s - 53 else s - 52).
  assert (exists P, P = 2 ^ (- e) /\ 512 <= P /\ e <= -9 /\ -62 <= e
                    /\ 2 ^ 52 * 1000 <= n * P <= 2 ^ 53 * 1000)
    as (P & HP & P512 & E9 & E62 & R).
  { exists (2 ^ (- e)). split; [reflexivity|].
    assert (e <= -9 /\ -62 <= e) as [E9 E62]
      by (subst e s; destruct (below _ _ _); lia).
    assert (2 ^ 9 <= 2 ^ (- e)) as X by (apply Z.pow_le_mono_r; lia).
    split; [exact X|]. split; [exact E9|]. split; [exact E62|].
    subst e. unfold below. destruct (Z.leb_spec 0 s) as [S0|S0].
    - destruct (Z.ltb_spec n (1000 * 2 ^ s)) as [Bl|Bl].
      + replace (- (s - 53)) with (62 - ln) by (subst s; lia).
        assert (2 ^ (62 - ln) * A = 2 ^ 62) as F1
            by (subst A; rewrite <- Z.pow_add_r by lia; f_equal; lia).
        assert (2 ^ (62 - ln) * 2 ^ s = 2 ^ 53) as F2
            by (rewrite <- Z.pow_add_r by lia; f_equal; subst s; lia).
        assert (0 < 2 ^ (62 - ln)) by (apply Z.pow_pos_nonneg; lia).
        assert (0 < 2 ^ s) by (apply Z.pow_pos_nonneg; lia).
        split; nia.
      + replace (- (s - 52)) with (61 - ln) by (subst s; lia).
        assert (2 ^ (61 - ln) * A = 2 ^ 61) as F1
            by (subst A; rewrite <- Z.pow_add_r by lia; f_equal; lia).
        assert (2 ^ (61 - ln) * 2 ^ s = 2 ^ 52) as F2
            by (rewrite <- Z.pow_add_r by lia; f_equal; subst s; lia).
        assert (0 < 2 ^ (61 - ln)) by (apply Z.pow_pos_nonneg; lia).
        assert (0 < 2 ^ s) by (apply Z.pow_pos_nonneg; lia).
        split; nia.
    - destruct (Z.ltb_spec (n * 2 ^ (- s)) 1000) as [Bl|Bl].
      + replace (- (s - 53)) with (62 - ln) by (subst s; lia).
        assert (2 ^ (62 - ln) * A = 2 ^ 62) as F1
            by (subst A; rewrite <- Z.pow_add_r by lia; f_equal; lia).
        assert (2 ^ (62 - ln) = 2 ^ (- s) * 2 ^ 53) as F2
            by (rewrite <- Z.pow_add_r by lia; f_equal; subst s; lia).
        assert (0 < 2 ^ (62 - ln)) by (apply Z.pow_pos_nonneg; lia).
        assert (0 < 2 ^ (- s)) by (apply Z.pow_pos_nonneg; lia).
        split; nia.
      + replace (- (s - 52)) with (61 - ln) by (subst s; lia).
        assert (2 ^ (61 - ln) * A = 2 ^ 61) as F1
            by (subst A; rewrite <- Z.pow_add_r by lia; f_equal; lia).
        assert (2 ^ (61 - ln) = 2 ^ (- s) * 2 ^ 52) as F2
            by (rewrite <- Z.pow_add_r by lia; f_equal; subst s; lia).
        assert (0 < 2 ^ (61 - ln)) by (apply Z.pow_pos_nonneg; lia).
        assert (0 < 2 ^ (- s)) by (apply Z.pow_pos_nonneg; lia).
        split; nia. }
  rewrite Z.max_l by lia.
  destruct (Z.leb_spec 0 e) as [|_]; [lia|].
  rewrite <- HP.
  pose proof (round_half_even_spec (n * P) 1000 ltac:(lia)) as Sp.
  pose proof (round_half_even_bounds (n * P) 1000 (2 ^ 52) (2 ^ 53)
                ltac:(lia) R) as Bq.
  set (q := round_half_even (n * P) 1000) in *.
  destruct (Z.eqb_spec q (2 ^ 53)) as [Q|Q].
  - change (2 ^ 52) with (Zpos (2 ^ 52)%positive) at 1. cbv iota.
    destruct (Z.ltb_spec 1024 (e + 1 + 53)) as [|_]; [lia|].
    exists (2 ^ 52)%positive, (e + 1), q, e. rewrite <- HP.
    assert (P = 2 * 2 ^ (- (e + 1))) as HP2.
    { rewrite HP. rewrite <- Z.pow_succ_r by lia. f_equal. lia. }
    split; [reflexivity|]. split; [lia|]. split; [lia|].
    split; [rewrite Q in Sp; lia|].
    split; [exact E9|]. split; [exact Sp|].
    intros M. apply Z.mod_divide in M; [|lia]. destruct M as [c M].
    apply Z.mod_divide; [lia|]. exists c. rewrite Q, HP2.
    change (2 ^ 53) with (2 * Zpos (2 ^ 52)%positive). rewrite M. ring.
  - destruct q as [|p|p] eqn:Eq; [lia| |lia]. cbv iota.
    destruct (Z.ltb_spec 1024 (e + 53)) as [|_]; [lia|].
    exists p, e, (Zpos p), e. rewrite <- HP.
    split; [reflexivity|]. split; [lia|]. split; [lia|].
    split; [exact Sp|]. split; [exact E9|]. split; [exact Sp|]. auto.
Qed.

(** A mantissa within one half of a quotient by 1000, at an exponent of -9
    or less, is a multiple of the exponent's power of two only when the
    numerator is a multiple of 1000. *)
Lemma integral_mantissa (q n P : Z) :
  512 <= P ->
  2 * Z.abs (q * 1000 - n * P) <= 1000 ->
  q mod P = 0 ->
  n mod 1000 = 0.
Proof.
  intros HP S M. apply Z.mod_divide in M; [|lia]. destruct M as [c ->].
  apply Z.mod_divide; [lia|]. exists c.
  assert (c * P * 1000 - n * P = P * (c * 1000 - n)) as E by ring.
  rewrite E in S. nia.
Qed.

(** What [milliseconds / 1000] is for an integer below [2 ^ 53] in
    magnitude. *)
Lemma milliseconds_quotient (m : Z) :
  Z.abs m < 2 ^ 53 ->
  exists seconds,
    int_truediv m 1000 = Ok seconds
    /\ rounded_quotient m 1000 seconds
    /\ (m mod 1000 <> 0 -> is_integer seconds = false)
    /\ (m mod 1000 = 0 -> is_integer seconds = true).
Proof.
  intros B. destruct (Z.eq_dec m 0) as [->|NZ].
  - exists (S754_zero false). repeat split; try reflexivity.
    intros H. now elim H.
  - destruct (int_truediv_1000 m NZ B)
      as (p & e & q & k & E & Rp & Ne & Sp & K9 & Sq & Mq).
    exists (S754_finite (m <? 0) p e). split; [exact E|].
    split.
    { cbn [rounded_quotient]. change (1000 <? 0) with false.
      rewrite xorb_false_r. change (Z.abs 1000) with 1000. auto. }
    cbn [is_integer]. destruct (Z.leb_spec 0 e) as [|_]; [lia|].
    assert (0 < 2 ^ (- e)) as Pe by (apply Z.pow_pos_nonneg; lia).
    split.
    + intros NM. apply Z.eqb_neq. intros M. apply NM.
      apply (abs_multiple m 1000); [lia|].
      apply (integral_mantissa q (Z.abs m) (2 ^ (- k))); auto.
      change 512 with (2 ^ 9). apply Z.pow_le_mono_r; lia.
    + intros M. apply Z.eqb_eq.
      apply (abs_multiple m 1000) in M; [|lia].
      apply Z.mod_divide in M; [|lia]. destruct M as [c M].
      apply Z.mod_divide; [lia|]. exists c. rewrite M in Sp. nia.
Qed.

(** The float of an integer has no fractional part. *)
Lemma float_of_int_integer (k : Z) (x : spec_float) :
  float_of_int k = Ok x -> is_integer x = true.
Proof.
  unfold float_of_int, int_truediv.
  change (1 =? 0) with false. change (1 <? 0) with false.
  rewrite xorb_false_r. change (Z.abs 1) with 1.
  change (Z.log2 1) with 0. cbv iota. rewrite Z.sub_0_r.
  set (n := Z.abs k). cbv zeta.
  destruct (Z.eqb_spec n 0) as [|NZ]; [intros H; now injection H as <-|].
  assert (0 < n) as Pn by (subst n; lia).
  set (ln := Z.log2 n).
  pose proof (Z.log2_spec n Pn) as [L1 L2]. fold ln in L1, L2.
  pose proof (Z.log2_nonneg n) as L0. fold ln in L0.
  unfold below. destruct (Z.leb_spec 0 ln) as [_|]; [|lia].
  destruct (Z.ltb_spec n (1 * 2 ^ ln)) as [|_]; [lia|].
  rewrite Z.max_l by lia.
  destruct (Z.leb_spec 0 (ln - 52)) as [E0|E0].
  - set (q := round_half_even n (1 * 2 ^ (ln - 52))).
    destruct (q =? 2 ^ 53).
    + change (2 ^ 52) with (Zpos (2 ^ 52)%positive). cbv iota.
      destruct (1024 <? ln - 52 + 1 + 53); [discriminate|].
      intros H; injection H as <-. cbn [is_integer].
      destruct (Z.leb_spec 0 (ln - 52 + 1)); [reflexivity | lia].
    + destruct q as [|p|p]; try (intros H; now injection H as <-).
      destruct (1024 <? ln - 52 + 53); [discriminate|].
      intros H; injection H as <-. cbn [is_integer].
      destruct (Z.leb_spec 0 (ln - 52)); [reflexivity | lia].
  - rewrite round_half_even_exact.
    assert (0 < 2 ^ (- (ln - 52))) as Pe by (apply Z.pow_pos_nonneg; lia).
    destruct (Z.eqb_spec (n * 2 ^ (- (ln - 52))) (2 ^ 53)) as [Q|Q].
    + change (2 ^ 52) with (Zpos (2 ^ 52)%positive). cbv iota.
      destruct (1024 <? ln - 52 + 1 + 53); [discriminate|].
      intros H; injection H as <-. cbn [is_integer].
      destruct (Z.leb_spec 0 (ln - 52 + 1)); [reflexivity|].
      apply Z.eqb_eq. apply Z.mod_divide; [apply Z.pow_nonzero; lia|].
      exists (2 ^ (ln + 1)).
      change (Zpos (2 ^ 52)%positive) with (2 ^ 52).
      rewrite <- Z.pow_add_r by lia. f_equal. lia.
    + destruct (n * 2 ^ (- (ln - 52))) as [|p|p] eqn:Eq;
        try (intros H; now injection H as <-).
      destruct (1024 <? ln - 52 + 53); [discriminate|].
      intros H; injection H as <-. cbn [is_integer].
      destruct (Z.leb_spec 0 (ln - 52)); [reflexivity|].
      apply Z.eqb_eq. rewrite <- Eq. apply Z.mod_mul. lia.
Qed.

End Division.

(** 1500 over 1000 is the float 1.5 of the hardware, and the model agrees
    with the hardware's division on samples across the integers below
    [2 ^ 53] in magnitude. *)
Example int_truediv_1500 :
  int_truediv 1500 1000 = Ok (Prim2SF 1.5%float)
  /\ Prim2SF 1.5%float = S754_finite false 6755399441055744 (-52)
  /\ exact_decimal (Prim2SF 1.5%float) = str "1.5".
Proof. repeat split; reflexivity. Qed.

Example int_truediv_binary64_samples :
  agrees_with_binary64 (milliseconds_from 0 1 2000) = true
  /\ agrees_with_binary64 (milliseconds_from (- 2 ^ 53 + 1) 9007199254741 2000)
     = true
  /\ agrees_with_binary64 (milliseconds_from (2 ^ 53 - 2000) 1 2000) = true.
Proof. repeat split; vm_compute; reflexivity. Qed.

(** What [seek_to_position] does with the socket. *)
Lemma seek_contract_run (float_str : spec_float -> pystr) (seconds : spec_float)
    (p : CmusPlayer) (w : World) :
  seek_contract float_str seconds (p, w) w
    (fst (seek_to_position float_str seconds (p, w)))
    (snd (snd (seek_to_position float_str seconds (p, w)))).
Proof.
  unfold seek_contract, seek_to_position. cbn zeta.
  set (line := str "seek " ++ float_str seconds).
  rewrite void_state.
  assert (forall s st1, get_open_socket (p, w) = (Ok s, st1) ->
            is_ascii line = true ->
            wire (new_events w (snd (snd (send_socket_command line (p, w)))))
            = [line ++ newline]) as Sent.
  { intros s st1 G A. destruct (command_sent line (p, w) st1 s G A) as (evs & T & W).
    now rewrite (new_events_app w _ evs T). }
  split; [exact Sent|]. split; [|split].
  - intros R A. split.
    + destruct (exchange_ready_answers line (p, w) R A) as [text Ht].
      unfold bind. destruct (send_socket_command line (p, w)) as [[r|e] st1];
        [reflexivity | discriminate].
    + destruct R as (s & st1 & _ & _ & _ & G & _). exact (Sent s st1 G A).
  - intros s st1 G A. unfold bind.
    rewrite (send_non_ascii line (p, w) st1 s G A).
    cbn [fst snd]. split; [reflexivity|].
    destruct (get_open_socket_facts _ _ _ G) as (conn & T & _ & _ & W & _).
    now rewrite (new_events_app w _ conn T).
  - intros e st1 G.
    destruct (command_unsent line (p, w) st1 e G) as (E & evs & T & W).
    unfold bind. rewrite E. cbn [fst snd]. split; [reflexivity|].
    now rewrite (new_events_app w _ evs T).
Qed.

Lemma ovos_set_track_position_run (float_str : spec_float -> pystr) (m : Z)
    (svc : OVOSCmusService.t) (w : World) :
  OVOSCmusService.set_track_position float_str m (svc, w)
  = match int_truediv m 1000 with
    | Ok seconds =>
        let out := seek_to_position float_str seconds
                     (OVOSCmusService.player svc, w) in
        (fst out, (OVOSCmusService.set_player (fst (snd out)) svc, snd (snd out)))
    | Raise e => (Raise e, (svc, w))
    end.
Proof.
  unfold OVOSCmusService.set_track_position, OVOSCmusService.on_player, eval, bind.
  destruct (int_truediv m 1000) as [seconds|e]; [|reflexivity].
  now rewrite lift_player_run.
Qed.

Lemma ocp_set_track_position_run (float_str : spec_float -> pystr) (m : Z)
    (svc : CmusOCPAudioService.t) (w : World) :
  CmusOCPAudioService.set_track_position float_str m (svc, w)
  = match int_truediv m 1000 with
    | Ok seconds =>
        let out := seek_to_position float_str seconds
                     (CmusOCPAudioService.player svc, w) in
        (fst out,
         (CmusOCPAudioService.set_player (fst (snd out)) svc, snd (snd out)))
    | Raise e => (Raise e, (svc, w))
    end.
Proof.
  unfold CmusOCPAudioService.set_track_position, CmusOCPAudioService.on_player,
    eval, bind.
  destruct (int_truediv m 1000) as [seconds|e]; [|reflexivity].
  now rewrite lift_player_run.
Qed.

(** Dividing by 1000 raises nothing but [OverflowError]. *)
Lemma int_truediv_1000_raises (m : Z) (e : exn) :
  int_truediv m 1000 = Raise e -> e = OverflowError.
Proof.
  unfold int_truediv. change (1000 =? 0)%Z with false. cbv iota zeta.
  repeat match goal with
         | |- context [if ?b then _ else _] => destruct b
         | |- context [match ?x with Zpos _ => _ | _ => _ end] => destruct x
         end; congruence.
Qed.

(** C10, as amended.  For every integer [m] of milliseconds:
    [set_track_position(m)] of either backend divides [m] by 1000 as
    Python's true division does.  When the division gives a float
    [seconds], the call sends the one command "seek " followed by the text
    of that float: the command is written as soon as the socket is had, the
    call returns once the exchange succeeds, and nothing is written when
    the text does not encode or no socket can be had.  When the division
    raises, which it does with [OverflowError] only, the call raises the
    same and writes nothing.  For [m] below [2 ^ 53] in magnitude the
    division gives a float, the exact quotient rounded to the 53 bits of a
    binary64 mantissa; when such an [m] is not a multiple of 1000 the float
    has a fractional part, so it is not the float of the truncated quotient
    [m // 1000], and when it is a multiple of 1000 the float has none. *)
Theorem set_track_position_seek :
  forall (float_str : spec_float -> pystr) (m : Z),
    (forall seconds : spec_float,
       int_truediv m 1000 = Ok seconds ->
       (forall (svc : OVOSCmusService.t) (w : World),
          seek_contract float_str seconds (OVOSCmusService.player svc, w) w
            (fst (OVOSCmusService.set_track_position float_str m (svc, w)))
            (snd (snd (OVOSCmusService.set_track_position float_str m
                         (svc, w)))))
       /\ (forall (svc : CmusOCPAudioService.t) (w : World),
             seek_contract float_str seconds
               (CmusOCPAudioService.player svc, w) w
               (fst (CmusOCPAudioService.set_track_position float_str m
                       (svc, w)))
               (snd (snd (CmusOCPAudioService.set_track_position float_str m
                            (svc, w))))))
    /\ (forall e : exn,
          int_truediv m 1000 = Raise e ->
          e = OverflowError
          /\ (forall (svc : OVOSCmusService.t) (w : World),
                OVOSCmusService.set_track_position float_str m (svc, w)
                = (Raise OverflowError, (svc, w)))
          /\ (forall (svc : CmusOCPAudioService.t) (w : World),
                CmusOCPAudioService.set_track_position float_str m (svc, w)
                = (Raise OverflowError, (svc, w))))
    /\ ((Z.abs m < 2 ^ 53)%Z ->
        exists seconds : spec_float,
          int_truediv m 1000 = Ok seconds
          /\ rounded_quotient m 1000 seconds
          /\ ((m mod 1000)%Z <> 0%Z ->
                is_integer seconds = false
                /\ float_of_int (m / 1000) <> Ok seconds)
          /\ ((m mod 1000)%Z = 0%Z -> is_integer seconds = true)).
Proof.
  intros float_str m. split; [|split].
  - intros seconds E. split; intros svc w.
    + rewrite ovos_set_track_position_run, E. cbn zeta.
      cbn [fst snd]. apply seek_contract_run.
    + rewrite ocp_set_track_position_run, E. cbn zeta.
      cbn [fst snd]. apply seek_contract_run.
  - intros e E. pose proof (int_truediv_1000_raises m e E) as ->.
    split; [reflexivity|]. split; intros svc w.
    + now rewrite ovos_set_track_position_run, E.
    + now rewrite ocp_set_track_position_run, E.
  - intros B.
    destruct (milliseconds_quotient m B) as (seconds & E & R & Frac & Whole).
    exists seconds. split; [exact E|]. split; [exact R|].
    split; [|exact Whole].
    intros NM. split; [exact (Frac NM)|].
    intros F. apply float_of_int_integer in F. rewrite (Frac NM) in F.
    discriminate.
Qed.

Lemma set_track_position_seek_witness :
  int_truediv 1500 1000 = Ok (S754_finite false 6755399441055744 (-52))
  /\ is_integer (S754_finite false 6755399441055744 (-52)) = false
  /\ float_of_int (1500 / 1000)
     <> Ok (S754_finite false 6755399441055744 (-52))
  /\ wire (new_events (sample_world true 1 [says ""])
             (snd (snd (OVOSCmusService.set_track_position exact_decimal 1500
                          (sample_ovos [], sample_world true 1 [says ""])))))
     = [str "seek 1.5" ++ newline]
  /\ wire (new_events (sample_world true 1 [says ""])
             (snd (snd (CmusOCPAudioService.set_track_position exact_decimal 1500
                          (sample_ocp [], sample_world true 1 [says ""])))))
     = [str "seek 1.5" ++ newline].
Proof.
  destruct (set_track_position_seek exact_decimal 1500) as (Sent & _ & Small).
  destruct (Small eq_refl) as (seconds & E & _ & Frac & _).
  assert (seconds = S754_finite false 6755399441055744 (-52)) as ->
    by (vm_compute in E; now injection E).
  destruct (Sent _ E) as (A & B).
  split; [exact E|].
  split; [exact (proj1 (Frac ltac:(discriminate)))|].
  split; [exact (proj2 (Frac ltac:(discriminate)))|].
  split.
  - exact (proj1 (A (sample_ovos []) (sample_world true 1 [says ""]))
             0 _ eq_refl eq_refl).
  - exact (proj1 (B (sample_ocp []) (sample_world true 1 [says ""]))
             0 _ eq_refl eq_refl).
Defined.

(** C10 as first stated fails for large values.  The integer
    9007199254740992001 is not a multiple of 1000, yet its quotient by 1000
    rounds to the float [2 ^ 53], which has no fractional part and is the
    float of the truncated quotient.  And for [1000 * 2 ^ 1024] the division
    raises [OverflowError]: [set_track_position] of either backend raises
    it, whatever the text of a float is, and sends no command. *)
Lemma set_track_position_large :
  (9007199254740992001 mod 1000)%Z <> 0%Z
  /\ int_truediv 9007199254740992001 1000
     = Ok (S754_finite false 4503599627370496 1)
  /\ is_integer (S754_finite false 4503599627370496 1) = true
  /\ float_of_int (9007199254740992001 / 1000)
     = int_truediv 9007199254740992001 1000
  /\ exact_decimal (S754_finite false 4503599627370496 1)
     = str "9007199254740992.0"
  /\ int_truediv (1000 * 2 ^ 1024) 1000 = Raise OverflowError
  /\ (forall float_str : spec_float -> pystr,
        fst (OVOSCmusService.set_track_position float_str (1000 * 2 ^ 1024)
               (sample_ovos [], sample_world true 1 [says ""]))
        = Raise OverflowError
        /\ wire (new_events (sample_world true 1 [says ""])
                   (snd (snd (OVOSCmusService.set_track_position float_str
                                (1000 * 2 ^ 1024)
                                (sample_ovos [],
                                 sample_world true 1 [says ""])))))
           = []
        /\ fst (CmusOCPAudioService.set_track_position float_str
                  (1000 * 2 ^ 1024)
                  (sample_ocp [], sample_world true 1 [says ""]))
           = Raise OverflowError
        /\ wire (new_events (sample_world true 1 [says ""])
                   (snd (snd (CmusOCPAudioService.set_track_position float_str
                                (1000 * 2 ^ 1024)
                                (sample_ocp [],
                                 sample_world true 1 [says ""])))))
           = []).
Proof.
  assert (int_truediv (1000 * 2 ^ 1024) 1000 = Raise OverflowError) as O
    by (vm_compute; reflexivity).
  split; [discriminate|]. split; [vm_compute; reflexivity|].
  split; [reflexivity|]. split; [vm_compute; reflexivity|].
  split; [vm_compute; reflexivity|]. split; [exact O|].
  intros float_str.
  rewrite ovos_set_track_position_run, ocp_set_track_position_run, O.
  repeat split; reflexivity.
Qed.

(** * Further properties of the code *)

(** ** Failures of the connection *)

(** X1.  When [XDG_RUNTIME_DIR] or [HOME] is not set, a player without a
    socket raises [KeyError] on its first use, whatever exists on disk: the
    socket object has been created, no path is tested, no connect is made
    and nothing is cached; [send_socket_command] raises the same error. *)
Theorem unset_variable_no_connection :
  forall (p : CmusPlayer) (w : World),
    _socket p = None ->
    assoc_get (str "XDG_RUNTIME_DIR") (environ w) = None
    \/ assoc_get (str "HOME") (environ w) = None ->
    exists key,
      (key = str "XDG_RUNTIME_DIR" \/ key = str "HOME")
      /\ fst (get_open_socket (p, w)) = Raise (KeyError key)
      /\ new_events w (snd (snd (get_open_socket (p, w)))) = [EvSocket (next_sock w)]
      /\ _socket (fst (snd (get_open_socket (p, w)))) = None
      /\ forall cmd,
           send_socket_command cmd (p, w)
           = (Raise (KeyError key), snd (get_open_socket (p, w))).
Proof.
  intros p w E H.
  assert (exists key,
            (key = str "XDG_RUNTIME_DIR" \/ key = str "HOME")
            /\ get_open_socket (p, w)
               = (Raise (KeyError key),
                  (p, log (EvSocket (next_sock w))
                          (set_next_sock (S (next_sock w)) w)))) as (key & K & G).
  { rewrite (get_open_socket_fresh p w E). cbn zeta. rewrite socket_path_run.
    cbn [environ log set_next_sock].
    destruct (assoc_get (str "XDG_RUNTIME_DIR") (environ w)) as [xdg|].
    - destruct H as [H | H]; [discriminate|]. rewrite H.
      exists (str "HOME"). split; [now right | reflexivity].
    - exists (str "XDG_RUNTIME_DIR"). split; [now left | reflexivity]. }
  exists key. rewrite G. cbn [fst snd]. split; [exact K|].
  split; [reflexivity|]. split; [apply new_events_app; read_trace|].
  split; [exact E|].
  intros cmd. unfold send_socket_command. now erewrite bind_raise by exact G.
Qed.

Lemma unset_variable_no_connection_witness :
  exists key,
    (key = str "XDG_RUNTIME_DIR" \/ key = str "HOME")
    /\ fst (get_open_socket (mkPlayer None, no_xdg_world)) = Raise (KeyError key)
    /\ new_events no_xdg_world
         (snd (snd (get_open_socket (mkPlayer None, no_xdg_world))))
       = [EvSocket (next_sock no_xdg_world)]
    /\ _socket (fst (snd (get_open_socket (mkPlayer None, no_xdg_world)))) = None
    /\ forall cmd,
         send_socket_command cmd (mkPlayer None, no_xdg_world)
         = (Raise (KeyError key),
            snd (get_open_socket (mkPlayer None, no_xdg_world))).
Proof.
  exact (unset_variable_no_connection (mkPlayer None) no_xdg_world eq_refl
           (or_introl eq_refl)).
Defined.

(** X2.  Whenever [get_open_socket] raises, the player had no socket and
    still has none (a failure is never cached), and the error is one of
    four: [KeyError] for one of the two variables, the not-found
    [RuntimeError], or [OSError] from a connect. *)
Theorem get_open_socket_failure :
  forall (st : PW) (e : exn),
    fst (get_open_socket st) = Raise e ->
    _socket (fst st) = None
    /\ _socket (fst (snd (get_open_socket st))) = None
    /\ (e = KeyError (str "XDG_RUNTIME_DIR") \/ e = KeyError (str "HOME")
        \/ e = socket_not_found \/ e = OSError).
Proof.
  intros [p w] e. cbn [fst]. destruct (_socket p) as [s|] eqn:E.
  - rewrite (get_open_socket_cached p w s E). discriminate.
  - rewrite (get_open_socket_fresh p w E). cbn zeta. rewrite socket_path_run.
    cbn [environ fs_exists log set_next_sock].
    destruct (assoc_get (str "XDG_RUNTIME_DIR") (environ w)) as [xdg|].
    2:{ cbn [fst snd]. intros H; injection H as <-. auto. }
    destruct (assoc_get (str "HOME") (environ w)) as [home|].
    2:{ cbn [fst snd]. intros H; injection H as <-. auto. }
    set (c1 := os_path_join xdg _). set (c2 := os_path_join home _).
    destruct (fs_exists w c1); [|destruct (fs_exists w c2)];
      try destruct (listening w _); cbn [fst snd];
      intros H; try discriminate; injection H as <-; auto 6.
Qed.

Lemma get_open_socket_failure_witness :
  _socket (fst (mkPlayer None, deaf_world)) = None
  /\ _socket (fst (snd (get_open_socket (mkPlayer None, deaf_world)))) = None
  /\ (OSError = KeyError (str "XDG_RUNTIME_DIR") \/ OSError = KeyError (str "HOME")
      \/ OSError = socket_not_found \/ OSError = OSError).
Proof.
  exact (get_open_socket_failure (mkPlayer None, deaf_world) OSError eq_refl).
Defined.




(** ** Replies *)

Lemma utf8_decode_ascii (d : bytes) :
  ascii_bytes d = true -> utf8_decode d = Some (List.map Byte.to_N d).
Proof.
  induction d as [|b d IH]; [reflexivity|].
  cbn [ascii_bytes forallb]. intros H. apply andb_true_iff in H as [Hb Hd].
  cbn [utf8_decode List.map]. rewrite Hb. fold (ascii_bytes d) in Hd.
  now rewrite (IH Hd).
Qed.

Lemma encode_ascii_bytes (s : pystr) (b : bytes) :
  encode_ascii s = Some b -> ascii_bytes b = true.
Proof.
  revert b; induction s as [|c s IH]; intros b H; cbn [encode_ascii] in H.
  - now injection H as <-.
  - destruct (c <? 128)%N eqn:Hc; [|discriminate].
    destruct (Byte.of_N c) as [b0|] eqn:Hb; [|discriminate].
    destruct (encode_ascii s) as [bs|]; [|discriminate].
    injection H as <-. cbn [ascii_bytes forallb].
    rewrite (Byte.to_of_N _ Hb), Hc. exact (IH bs eq_refl).
Qed.

Lemma ascii_bytes_firstn (n : nat) (d : bytes) :
  ascii_bytes d = true -> ascii_bytes (firstn n d) = true.
Proof.
  unfold ascii_bytes. rewrite !forallb_forall. intros H b Hb.
  apply H. rewrite <- (firstn_skipn n d). apply in_or_app. now left.
Qed.

(** X4.  Text that encodes as ASCII decodes back, as UTF-8, to itself; and
    a reply made of bytes below 128 never raises [UnicodeDecodeError]:
    [send_socket_command] returns its first 2048 bytes character for
    character. *)
Theorem ascii_reply_returned :
  (forall (s : pystr) (b : bytes),
     encode_ascii s = Some b -> utf8_decode b = Some s)
  /\ (forall (cmd : pystr) (st st1 : PW) (s : sock) (d : bytes)
             (rest : list Incoming),
        get_open_socket st = (Ok s, st1) ->
        is_ascii cmd = true ->
        peer_alive (snd st1) = true ->
        inbox (snd st1) = Data d :: rest ->
        ascii_bytes d = true ->
        fst (send_socket_command cmd st)
        = Ok (List.map Byte.to_N (firstn recv_bufsize d))).
Proof.
  split.
  - intros s b H. rewrite (utf8_decode_ascii b (encode_ascii_bytes s b H)).
    now rewrite (encode_ascii_to_N s b H).
  - intros cmd st st1 s d rest G A Alive Inbox Hd.
    rewrite (send_ascii_result cmd st st1 s d rest G A Alive Inbox).
    unfold decoded.
    now rewrite (utf8_decode_ascii _ (ascii_bytes_firstn recv_bufsize d Hd)).
Qed.

Lemma ascii_reply_returned_witness :
  fst (send_socket_command (str "status") (fresh [says "status paused"]))
  = Ok (List.map Byte.to_N
          (firstn recv_bufsize (list_byte_of_string "status paused"))).
Proof.
  exact (proj2 ascii_reply_returned (str "status") (fresh [says "status paused"])
           (snd (get_open_socket (fresh [says "status paused"]))) 0
           (list_byte_of_string "status paused") []
           eq_refl eq_refl eq_refl eq_refl eq_refl).
Defined.

(** The state an ASCII command leaves on a connection that is up. *)
Lemma send_ascii_state (cmd : pystr) (p : CmusPlayer) (w : World) (s : sock) :
  _socket p = Some s ->
  is_ascii cmd = true ->
  peer_alive w = true ->
  exists data,
    encode_ascii (cmd ++ newline) = Some data
    /\ match inbox w with
       | [] =>
           send_socket_command cmd (p, w)
           = (Ok [], (p, set_peer_alive false
                           (log (EvRecv s recv_bufsize [])
                              (log (EvSend s data) w))))
       | Data d :: rest =>
           send_socket_command cmd (p, w)
           = (decoded (firstn recv_bufsize d),
              (p, log (EvRecv s recv_bufsize (firstn recv_bufsize d))
                    (set_inbox match skipn recv_bufsize d with
                               | [] => rest
                               | _ :: _ => Data (skipn recv_bufsize d) :: rest
                               end (log (EvSend s data) w))))
       | ConnReset :: rest => True
       end.
Proof.
  intros E A Alive. destruct (encode_line cmd A) as [data Enc]. exists data.
  split; [exact Enc|].
  rewrite (send_socket_command_run cmd (p, w) (p, w) s data
             (get_open_socket_cached p w s E) Enc).
  mrun. rewrite Alive. mrun.
  destruct (inbox w) as [|[d|] rest]; mrun; [| |exact I].
  - now rewrite decode_run.
  - now rewrite decode_run.
Qed.

(** X5.  A reply longer than 2048 bytes is not drained: the command that
    asked gets its first 2048 bytes, and the next command, whatever it is,
    gets the following bytes of that same reply as its own answer. *)
Theorem long_reply_spills :
  forall (c1 c2 : pystr) (p : CmusPlayer) (w : World) (s : sock) (d : bytes)
         (rest : list Incoming),
    _socket p = Some s ->
    is_ascii c1 = true ->
    is_ascii c2 = true ->
    peer_alive w = true ->
    inbox w = Data d :: rest ->
    recv_bufsize < length d ->
    fst (send_socket_command c1 (p, w)) = decoded (firstn recv_bufsize d)
    /\ fst (send_socket_command c2 (snd (send_socket_command c1 (p, w))))
       = decoded (firstn recv_bufsize (skipn recv_bufsize d)).
Proof.
  intros c1 c2 p w s d rest E A1 A2 Alive Inbox Long.
  destruct (send_ascii_state c1 p w s E A1 Alive) as (data & _ & R).
  rewrite Inbox in R. rewrite R. cbn [fst snd]. split; [reflexivity|].
  destruct (skipn recv_bufsize d) as [|b left] eqn:K.
  - apply skipn_all_iff in K. lia.
  - match goal with
    | |- context [send_socket_command c2 (p, ?w1)] =>
        destruct (send_ascii_state c2 p w1 s E A2 Alive) as (data2 & _ & R2)
    end.
    cbn [inbox log set_inbox] in R2. now rewrite R2.
Qed.

Lemma long_reply_spills_witness :
  fst (send_socket_command (str "player-play")
         (snd (send_socket_command (str "status")
                 (connected [Data (repeat x61 2048 ++ [x62; x63])]))))
  = decoded (firstn recv_bufsize
               (skipn recv_bufsize (repeat x61 2048 ++ [x62; x63]))).
Proof.
  refine (proj2 (long_reply_spills (str "status") (str "player-play")
                   (mkPlayer (Some 0))
                   (sample_world true 1 [Data (repeat x61 2048 ++ [x62; x63])])
                   0 (repeat x61 2048 ++ [x62; x63]) []
                   eq_refl eq_refl eq_refl eq_refl eq_refl _)).
  apply Nat.ltb_lt. vm_compute. reflexivity.
Defined.

(** An ASCII command on a socket whose connection is lost: the buffer is
    handed to [send], which raises; nothing is read. *)
Lemma send_lost_connection (cmd : pystr) (p : CmusPlayer) (w : World) (s : sock) :
  _socket p = Some s ->
  is_ascii cmd = true ->
  peer_alive w = false ->
  exists data,
    encode_ascii (cmd ++ newline) = Some data
    /\ send_socket_command cmd (p, w)
       = (Raise OSError, (p, log (EvSend s data) w)).
Proof.
  intros E A Lost. destruct (encode_line cmd A) as [data Enc]. exists data.
  split; [exact Enc|].
  rewrite (send_socket_command_run cmd (p, w) (p, w) s data
             (get_open_socket_cached p w s E) Enc).
  mrun. now rewrite Lost.
Qed.

(** X6.  A peer that has closed is no error to the command that finds it
    out: its read gives no bytes, it returns the empty text, and a state
    query answers false.  The next command on the same player raises
    [OSError] at its send and reads nothing; the socket stays cached and no
    new connection is made.  So [play_pause], whose first query takes the
    player for not stopped, raises in the query of [toggle_pause]: the two
    status lines are handed to the socket and [player-pause] is never
    written. *)
Theorem closed_peer :
  forall (p : CmusPlayer) (w : World) (s : sock),
    _socket p = Some s ->
    peer_alive w = true ->
    inbox w = [] ->
    (forall cmd, is_ascii cmd = true ->
       fst (send_socket_command cmd (p, w)) = Ok []
       /\ fst (snd (send_socket_command cmd (p, w))) = p
       /\ forall cmd', is_ascii cmd' = true ->
            exists data',
              encode_ascii (cmd' ++ newline) = Some data'
              /\ fst (send_socket_command cmd'
                        (snd (send_socket_command cmd (p, w))))
                 = Raise OSError
              /\ new_events (snd (snd (send_socket_command cmd (p, w))))
                   (snd (snd (send_socket_command cmd'
                                (snd (send_socket_command cmd (p, w))))))
                 = [EvSend s data']
              /\ fst (snd (send_socket_command cmd'
                             (snd (send_socket_command cmd (p, w))))) = p)
    /\ fst (is_stopped (p, w)) = Ok false
    /\ fst (is_paused (p, w)) = Ok false
    /\ fst (is_playing (p, w)) = Ok false
    /\ fst (play_pause (p, w)) = Raise OSError
    /\ wire (new_events w (snd (snd (play_pause (p, w)))))
       = [str "status" ++ newline; str "status" ++ newline]
    /\ fst (snd (play_pause (p, w))) = p.
Proof.
  intros p w s E Alive Inbox.
  assert (forall cmd, is_ascii cmd = true ->
            exists data,
              encode_ascii (cmd ++ newline) = Some data
              /\ send_socket_command cmd (p, w)
                 = (Ok [], (p, set_peer_alive false
                                 (log (EvRecv s recv_bufsize [])
                                    (log (EvSend s data) w))))) as First.
  { intros cmd A.
    destruct (send_ascii_state cmd p w s E A Alive) as (data & Enc & R).
    rewrite Inbox in R. now exists data. }
  assert (status_reply (p, w) = Ok []) as H0.
  { unfold status_reply. destruct (First (str "status") eq_refl) as (d & _ & R).
    now rewrite R. }
  split; [|split; [|split; [|split]]].
  - intros cmd A. destruct (First cmd A) as (data & _ & R). rewrite R.
    cbn [fst snd]. split; [reflexivity|]. split; [reflexivity|].
    intros cmd' A'.
    match goal with
    | |- context [send_socket_command cmd' (p, ?w1)] =>
        destruct (send_lost_connection cmd' p w1 s E A' eq_refl)
          as (data' & Enc' & R')
    end.
    exists data'. rewrite R'. cbn [fst snd]. split; [exact Enc'|].
    split; [reflexivity|]. split; [|reflexivity].
    apply new_events_app. read_trace.
  - unfold is_stopped. now rewrite (query_result _ [] (p, w) H0).
  - unfold is_paused. now rewrite (query_result _ [] (p, w) H0).
  - unfold is_playing. now rewrite (query_result _ [] (p, w) H0).
  - destruct (First (str "status") eq_refl) as (d1 & Enc1 & R1).
    match type of R1 with
    | _ = (_, (p, ?w1)) =>
        destruct (send_lost_connection (str "status") p w1 s E eq_refl eq_refl)
          as (d2 & Enc2 & R2)
    end.
    assert (play_pause (p, w)
            = (Raise OSError,
               (p, log (EvSend s d2)
                     (set_peer_alive false
                        (log (EvRecv s recv_bufsize [])
                           (log (EvSend s d1) w)))))) as P.
    { unfold play_pause.
      erewrite bind_ok
        by (unfold is_stopped; rewrite query_run, R1; reflexivity).
      change (str_in (str "status stopped") []) with false. cbv iota.
      unfold toggle_pause.
      erewrite bind_raise
        by (unfold is_paused; rewrite query_run, R2; reflexivity).
      reflexivity. }
    rewrite P. cbn [fst snd]. split; [reflexivity|]. split; [|reflexivity].
    rewrite (new_events_app w _ [EvSend s d1; EvRecv s recv_bufsize [];
                                 EvSend s d2]) by read_trace.
    assert (encode_ascii (str "status" ++ newline)
            = Some (list_byte_of_string "status" ++ [x0a])) as K by reflexivity.
    rewrite K in Enc1, Enc2. injection Enc1 as <-. injection Enc2 as <-.
    reflexivity.
Qed.

Lemma closed_peer_witness :
  fst (is_playing (connected [])) = Ok false
  /\ fst (play_pause (connected [])) = Raise OSError
  /\ wire (new_events (snd (connected [])) (snd (snd (play_pause (connected [])))))
     = [str "status" ++ newline; str "status" ++ newline].
Proof.
  pose proof (closed_peer (mkPlayer (Some 0)) (sample_world true 1 []) 0
                eq_refl eq_refl eq_refl) as (_ & _ & _ & A & B & C & _).
  split; [exact A | split; [exact B | exact C]].
Defined.

(** ** The facade's composite calls *)

(** X7.  Once the player has answered the status query, [toggle_pause]
    writes the query and then [player-pause], whatever the answer says:
    both branches of its test send the same command, [unpause] being
    [pause]. *)
Theorem toggle_pause_always_pauses :
  forall (st : PW) (reply : pystr),
    status_reply st = Ok reply ->
    wire (new_events (snd st) (snd (snd (toggle_pause st))))
    = [str "status" ++ newline; str "player-pause" ++ newline]
    /\ snd (unpause (snd (send_socket_command (str "status") st)))
       = snd (pause (snd (send_socket_command (str "status") st))).
Proof.
  intros st reply H. split; [|reflexivity].
  destruct (command_answered _ _ _ H) as (e1 & T1 & W1 & H1).
  unfold toggle_pause. unfold bind at 1. unfold is_paused.
  rewrite (query_result _ _ _ H).
  set (st1 := snd (send_socket_command (str "status") st)) in *.
  destruct (command_written (str "player-pause") st1 H1 eq_refl)
    as (e2 & T2 & W2 & _).
  assert (snd ((if str_in (str "status paused") reply then unpause else pause) st1)
          = snd (send_socket_command (str "player-pause") st1)) as E.
  { destruct (str_in (str "status paused") reply);
      unfold unpause, pause; apply void_state. }
  rewrite E. rewrite (new_events_app (snd st) _ (e1 ++ e2)).
  - now rewrite wire_app, W1, W2.
  - now rewrite T2, T1, app_assoc.
Qed.

Lemma toggle_pause_always_pauses_witness :
  wire (new_events (snd (connected [says "status playing"; says ""]))
          (snd (snd (toggle_pause (connected [says "status playing"; says ""])))))
  = [str "status" ++ newline; str "player-pause" ++ newline].
Proof.
  exact (proj1 (toggle_pause_always_pauses
                  (connected [says "status playing"; says ""])
                  (str "status playing") eq_refl)).
Defined.

(** X8.  The three state queries do not exclude one another: for any
    choice of three answers there is a reply, with one state line for each
    answer that is to be true, on which [is_stopped], [is_paused] and
    [is_playing] give exactly that choice. *)
Theorem state_queries_any_combination :
  forall (a b c : bool) (st : PW),
    status_reply st = Ok (reply_with a b c) ->
    fst (is_stopped st) = Ok a
    /\ fst (is_paused st) = Ok b
    /\ fst (is_playing st) = Ok c.
Proof.
  intros a b c st H. unfold is_stopped, is_paused, is_playing.
  rewrite !(query_result _ _ st H). cbn [fst].
  destruct a, b, c; repeat split; reflexivity.
Qed.

Lemma state_queries_any_combination_witness :
  fst (is_stopped (connected [says "status stopped

status playing"])) = Ok true
  /\ fst (is_paused (connected [says "status stopped

status playing"])) = Ok false
  /\ fst (is_playing (connected [says "status stopped

status playing"])) = Ok true.
Proof.
  exact (state_queries_any_combination true false true
           (connected [says "status stopped

status playing"]) eq_refl).
Defined.

(** X9.  Each of the fixed commands, called on a player that holds a
    socket, writes exactly one line, its own command, whatever becomes of
    the exchange afterwards (a dead peer, a reset, an undecodable
    reply). *)
Theorem fixed_commands_one_line :
  forall (st : PW),
    held (fst st) = 1 ->
    wire (new_events (snd st) (snd (snd (play st))))
    = [str "player-play" ++ newline]
    /\ wire (new_events (snd st) (snd (snd (pause st))))
       = [str "player-pause" ++ newline]
    /\ wire (new_events (snd st) (snd (snd (unpause st))))
       = [str "player-pause" ++ newline]
    /\ wire (new_events (snd st) (snd (snd (CmusPlayer.stop st))))
       = [str "player-stop" ++ newline]
    /\ wire (new_events (snd st) (snd (snd (next st))))
       = [str "player-next" ++ newline]
    /\ wire (new_events (snd st) (snd (snd (prev st))))
       = [str "player-prev" ++ newline].
Proof.
  intros st H.
  assert (forall cmd, is_ascii cmd = true ->
            wire (new_events (snd st)
                    (snd (snd ((send_socket_command cmd ;;; ret tt) st))))
            = [cmd ++ newline]) as K.
  { intros cmd A. rewrite void_state.
    destruct (command_written cmd st H A) as (evs & T & W & _).
    now rewrite (new_events_app _ _ evs T). }
  unfold play, pause, unpause, pause, CmusPlayer.stop, next, prev.
  repeat split; apply K; reflexivity.
Qed.

Lemma fixed_commands_one_line_witness :
  wire (new_events (sample_world false 1 [])
          (snd (snd (CmusPlayer.stop (mkPlayer (Some 0), sample_world false 1 [])))))
  = [str "player-stop" ++ newline].
Proof.
  exact (proj1 (proj2 (proj2 (proj2
           (fixed_commands_one_line (mkPlayer (Some 0), sample_world false 1 [])
              eq_refl))))).
Defined.

(** ** Seek and volume *)

Lemma str_cons (c : ascii) (t : string) :
  str (String c t) = N_of_ascii c :: str t.
Proof. reflexivity. Qed.

Lemma uint_digits (d : Decimal.uint) :
  forallb is_digit (str (NilEmpty.string_of_uint d)) = true.
Proof.
  induction d; cbn [NilEmpty.string_of_uint]; [reflexivity|..];
    rewrite str_cons; cbn [forallb]; rewrite IHd; reflexivity.
Qed.

Lemma nilzero_digits (d : Decimal.uint) :
  forallb is_digit (str (NilZero.string_of_uint d)) = true
  /\ str (NilZero.string_of_uint d) <> [].
Proof.
  destruct d; cbn [NilZero.string_of_uint]; try (split; [reflexivity|discriminate]);
    (split; [apply uint_digits|]);
    cbn [NilEmpty.string_of_uint]; rewrite str_cons; discriminate.
Qed.

Lemma digits_ascii (s : pystr) : forallb is_digit s = true -> is_ascii s = true.
Proof.
  unfold is_ascii. rewrite !forallb_forall. intros H c Hc.
  specialize (H c Hc). unfold is_digit in H.
  apply andb_true_iff in H as [_ H]. apply N.leb_le in H. apply N.ltb_lt. lia.
Qed.

Lemma int_str_cases (n : Z) :
  (0 <= n -> forallb is_digit (int_str n) = true /\ int_str n <> [])%Z
  /\ (n < 0 -> int_str n = 45%N :: int_str (- n))%Z.
Proof.
  unfold int_str. destruct n as [|q|q]; cbn [Z.to_int Z.opp NilZero.string_of_int].
  - split; [intros _; split; [reflexivity|discriminate] | lia].
  - split; [intros _; apply nilzero_digits | lia].
  - split; [lia|]. intros _. now rewrite str_cons.
Qed.

Lemma int_str_ascii (n : Z) : is_ascii (int_str n) = true.
Proof.
  destruct (Z.neg_nonneg_cases n) as [H | H].
  - rewrite (proj2 (int_str_cases n) H). cbn [is_ascii forallb].
    apply digits_ascii. apply (proj1 (int_str_cases (- n))). lia.
  - apply digits_ascii. now apply (proj1 (int_str_cases n)).
Qed.

(** X10.  The seek and volume calls, on a player that holds a socket,
    always write exactly one line, since the decimal text of an integer is
    ASCII: [seek +n], [seek -n], [vol +n%], [vol -n%] with [n] in decimal.
    The sign of the command is fixed, so a negative [n] brings its own
    minus sign after it, as in [seek +-5]; for [n] not negative the
    argument is a non-empty run of digits. *)
Theorem seek_volume_lines :
  forall (n : Z),
    ((0 <= n)%Z -> forallb is_digit (int_str n) = true /\ int_str n <> [])
    /\ ((n < 0)%Z -> int_str n = 45%N :: int_str (- n))
    /\ (forall (st : PW),
          held (fst st) = 1 ->
          wire (new_events (snd st) (snd (snd (seek_forward n st))))
          = [str "seek +" ++ int_str n ++ newline]
          /\ wire (new_events (snd st) (snd (snd (seek_backward n st))))
             = [str "seek -" ++ int_str n ++ newline]
          /\ wire (new_events (snd st) (snd (snd (increase_volume n st))))
             = [str "vol +" ++ int_str n ++ str "%" ++ newline]
          /\ wire (new_events (snd st) (snd (snd (lower_volume n st))))
             = [str "vol -" ++ int_str n ++ str "%" ++ newline]).
Proof.
  intros n. split; [apply int_str_cases|]. split; [apply int_str_cases|].
  intros st H.
  assert (forall cmd, is_ascii cmd = true ->
            wire (new_events (snd st)
                    (snd (snd ((send_socket_command cmd ;;; ret tt) st))))
            = [cmd ++ newline]) as K.
  { intros cmd A. rewrite void_state.
    destruct (command_written cmd st H A) as (evs & T & W & _).
    now rewrite (new_events_app _ _ evs T). }
  unfold seek_forward, seek_backward, increase_volume, lower_volume.
  repeat split; rewrite K; rewrite <- ?app_assoc; try reflexivity;
    rewrite ?is_ascii_app, int_str_ascii; reflexivity.
Qed.

Lemma seek_volume_lines_witness :
  wire (new_events (snd (connected []))
          (snd (snd (seek_forward (-5) (connected [])))))
  = [str "seek +-5" ++ newline]
  /\ wire (new_events (snd (connected []))
             (snd (snd (lower_volume 30 (connected [])))))
     = [str "vol -30%" ++ newline].
Proof.
  split.
  - exact (proj1 (proj2 (proj2 (seek_volume_lines (-5))) (connected []) eq_refl)).
  - exact (proj2 (proj2 (proj2 (proj2 (proj2 (seek_volume_lines 30))
                                  (connected []) eq_refl)))).
Defined.

(** ** The [add] line of a track list *)

Lemma hex_digit_plain (n : N) : (n < 16)%N -> plain (hex_digit n).
Proof.
  intros H. unfold plain, hex_digit. destruct (n <? 10)%N eqn:E.
  - apply N.ltb_lt in E. lia.
  - apply N.ltb_ge in E. lia.
Qed.

Lemma hex_fixed_plain (width : nat) (n : N) : Forall plain (hex_fixed width n).
Proof.
  revert n. induction width as [|k IH]; intros n; cbn [hex_fixed];
    [constructor|].
  apply Forall_app. split; [apply IH|].
  constructor; [|constructor]. apply hex_digit_plain.
  apply N.mod_lt. discriminate.
Qed.

Lemma repr_char_plain (isprintable : N -> bool) (q c : N) :
  q = squote \/ q = dquote -> Forall plain (repr_char isprintable q c).
Proof.
  intros Hq. unfold repr_char.
  assert (plain backslash) as Pb by (unfold plain, backslash; lia).
  assert (forall k, Forall plain (hex_fixed k c)) as Ph
    by (intros k; apply hex_fixed_plain).
  destruct ((c =? q)%N || (c =? backslash)%N) eqn:E1.
  { constructor; [exact Pb|]. constructor; [|constructor].
    apply orb_true_iff in E1 as [E | E]; apply N.eqb_eq in E; subst c.
    - destruct Hq as [-> | ->]; unfold plain, squote, dquote; lia.
    - exact Pb. }
  destruct (c =? 9)%N; [repeat constructor; unfold plain, backslash; lia|].
  destruct (c =? 10)%N; [repeat constructor; unfold plain, backslash; lia|].
  destruct (c =? 13)%N; [repeat constructor; unfold plain, backslash; lia|].
  destruct ((c <? 32)%N || (c =? 127)%N) eqn:E2.
  { constructor; [exact Pb|]. constructor; [unfold plain; lia|]. apply Ph. }
  apply orb_false_iff in E2 as [L K]. apply N.ltb_ge in L. apply N.eqb_neq in K.
  destruct (c <? 127)%N; [constructor; [split; assumption|constructor]|].
  destruct (isprintable c); [constructor; [split; assumption|constructor]|].
  destruct (c <=? 255)%N;
    [constructor; [exact Pb|]; constructor; [unfold plain; lia|]; apply Ph|].
  destruct (c <=? 65535)%N;
    constructor; try exact Pb; constructor; try (unfold plain; lia); apply Ph.
Qed.

Lemma str_repr_plain (isprintable : N -> bool) (s : pystr) :
  Forall plain (str_repr isprintable s).
Proof.
  unfold str_repr.
  assert (repr_quote s = squote \/ repr_quote s = dquote) as Hq
    by (unfold repr_quote; destruct (_ && _); auto).
  assert (plain (repr_quote s)) as Pq
    by (destruct Hq as [-> | ->]; unfold plain, squote, dquote; lia).
  constructor; [exact Pq|]. apply Forall_app. split.
  - generalize (repr_quote s) Hq. intros q Hq'. clear Hq Pq.
    induction s as [|c s IH]; cbn [flat_map]; [constructor|].
    apply Forall_app. split; [now apply repr_char_plain | exact IH].
  - constructor; [exact Pq | constructor].
Qed.

Lemma join_comma_plain (parts : list pystr) :
  Forall (Forall plain) parts -> Forall plain (join_comma parts).
Proof.
  induction parts as [|x parts IH]; intros H; [constructor|].
  inversion H as [|? ? Hx Hp]; subst.
  destruct parts as [|y parts]; cbn [join_comma]; [exact Hx|].
  apply Forall_app. split; [exact Hx|]. apply Forall_app. split.
  - repeat constructor; unfold plain; cbn; lia.
  - now apply IH.
Qed.

(** X11.  The [add] command built from a track list never has a control
    character in it, whatever the tracks are: [repr] writes every
    character below 32 and the character 127 as an escape.  In particular
    it has no newline, so the buffer [play] sends for it is one line. *)
Theorem add_command_one_line :
  forall (isprintable : N -> bool) (queued : list pystr),
    Forall plain (add_command isprintable queued)
    /\ ~ In 10%N (add_command isprintable queued)
    /\ count_occ N.eq_dec (add_command isprintable queued ++ newline) 10%N = 1.
Proof.
  intros isprintable queued.
  assert (Forall plain (add_command isprintable queued)) as P.
  { unfold add_command, list_repr. apply Forall_app. split.
    - repeat constructor; unfold plain; cbn; lia.
    - apply Forall_app. split; [repeat constructor; unfold plain; cbn; lia|].
      apply Forall_app. split; [|repeat constructor; unfold plain; cbn; lia].
      apply join_comma_plain. apply Forall_map.
      apply Forall_forall. intros t _. apply str_repr_plain. }
  assert (~ In 10%N (add_command isprintable queued)) as NI.
  { intros H. rewrite Forall_forall in P. destruct (P _ H) as [L _]. lia. }
  split; [exact P|]. split; [exact NI|].
  rewrite count_occ_app. apply (count_occ_not_In N.eq_dec) in NI.
  rewrite NI. reflexivity.
Qed.

Example add_command_escapes_newline :
  add_command latin1_printable [str "a" ++ newline ++ str "player-stop"]
  = str "add ['a\nplayer-stop']".
Proof. reflexivity. Qed.

(** ** The factory, on any configuration *)

Lemma selected_true (entry : pydict) :
  selected entry = Ok true -> recognized entry = true /\ active entry = true.
Proof.
  unfold selected, recognized, active.
  destruct (assoc_get (str "type") entry) as [ty|]; [|discriminate].
  destruct (eq_str ty (str "cmus") || eq_str ty (str "ovos_cmus"));
    [|discriminate].
  destruct (assoc_get (str "active") entry) as [a|]; intros H;
    injection H as H; [now split | discriminate].
Qed.

Lemma select_services_sound (backends : list (pystr * pydict))
    (keys : list pystr) (services : list (pystr * pydict)) :
  select_services backends keys = Ok services ->
  length services <= length keys
  /\ forall b entry, In (b, entry) services ->
       In b keys
       /\ assoc_get b backends = Some entry
       /\ recognized entry = true /\ active entry = true.
Proof.
  revert services. induction keys as [|k keys IH]; intros services H;
    cbn [select_services] in H.
  - injection H as <-. split; [cbn; lia | intros b entry []].
  - destruct (assoc_get k backends) as [e|] eqn:L; [|discriminate].
    destruct (selected e) as [keep|x] eqn:Sel; [|discriminate].
    destruct (select_services backends keys) as [rest|x]; [|discriminate].
    injection H as <-. destruct (IH rest eq_refl) as [Len Snd].
    destruct keep; cbn [length]; (split; [lia|]); intros b entry Hin.
    + destruct Hin as [E | Hin].
      * injection E as <- <-. split; [now left|]. split; [exact L|].
        now apply selected_true.
      * destruct (Snd b entry Hin) as (A & B & C). split; [now right | now split].
    + destruct (Snd b entry Hin) as (A & B & C). split; [now right | now split].
Qed.

(** X12.  On any configuration at all, well formed or not, whatever
    [load_service] returns is sound: there are at most as many instances as
    entries, each instance is named after an entry of [backends], carries
    that entry as its configuration and the bus it was given, the entry is
    of a recognized type and active, and the instance starts out with an
    empty queue, index 0 and a player without a socket.  A configuration
    with no [backends] section gives the empty list. *)
Theorem load_service_sound :
  forall (base_config : base_config_t) (bus : Bus)
         (instances : list OVOSCmusService.t),
    load_service base_config bus = Ok instances ->
    length instances <= length (backends_of base_config)
    /\ (assoc_get (str "backends") base_config = None -> instances = [])
    /\ forall i, In i instances ->
         assoc_get (OVOSCmusService.name i) (backends_of base_config)
         = Some (OVOSCmusService.config i)
         /\ recognized (OVOSCmusService.config i) = true
         /\ active (OVOSCmusService.config i) = true
         /\ OVOSCmusService.bus i = bus
         /\ OVOSCmusService.tracks i = []
         /\ OVOSCmusService.index i = 0%Z
         /\ OVOSCmusService.player i = mkPlayer None.
Proof.
  intros base_config bus instances H. unfold load_service in H.
  fold (backends_of base_config) in H.
  destruct (select_services (backends_of base_config)
              (List.map fst (backends_of base_config))) as [services|e] eqn:S;
    [|discriminate].
  injection H as <-. destruct (select_services_sound _ _ _ S) as [Len Snd].
  rewrite length_map in Len. rewrite length_map. split; [exact Len|]. split.
  - intros N. unfold backends_of in Len. rewrite N in Len.
    destruct services; [reflexivity | cbn in Len; lia].
  - intros i Hi. apply in_map_iff in Hi as ([b entry] & <- & Hin).
    destruct (Snd b entry Hin) as (_ & A & B & C).
    cbn [OVOSCmusService.init OVOSCmusService.name OVOSCmusService.config
         OVOSCmusService.bus OVOSCmusService.tracks OVOSCmusService.index
         OVOSCmusService.player fst snd].
    repeat split; assumption.
Qed.

Lemma load_service_sound_witness :
  assoc_get (str "cmus") (backends_of sample_config)
  = Some [(str "type", VStr (str "ovos_cmus")); (str "active", VBool true)]
  /\ recognized [(str "type", VStr (str "ovos_cmus")); (str "active", VBool true)]
     = true.
Proof.
  destruct (proj2 (proj2 (load_service_sound sample_config None _ eq_refl))
              (OVOSCmusService.init
                 [(str "type", VStr (str "ovos_cmus")); (str "active", VBool true)]
                 None (str "cmus"))
              (or_introl eq_refl)) as (A & B & _).
  split; [exact A | exact B].
Defined.

(** ** The queue of a backend *)

(** X13.  [add_list] appends to the queue and [clear_list] empties it and
    resets the index: adding [a] and then [b] is adding [a ++ b], clearing
    and then adding [a] leaves exactly [a] with index 0, and neither call
    touches the player or the world, so nothing is sent. *)
Theorem queue_editing :
  forall (a b : list pystr) (st : OVOSCmusService.SW),
    snd ((OVOSCmusService.add_list a ;;; OVOSCmusService.add_list b) st)
    = snd (OVOSCmusService.add_list (a ++ b) st)
    /\ OVOSCmusService.tracks
         (fst (snd ((OVOSCmusService.clear_list ;;; OVOSCmusService.add_list a) st)))
       = a
    /\ OVOSCmusService.index
         (fst (snd ((OVOSCmusService.clear_list ;;; OVOSCmusService.add_list a) st)))
       = 0%Z
    /\ OVOSCmusService.tracks (fst (snd (OVOSCmusService.add_list a st)))
       = OVOSCmusService.tracks (fst st) ++ a
    /\ snd (snd (OVOSCmusService.add_list a st)) = snd st
    /\ snd (snd (OVOSCmusService.clear_list st)) = snd st
    /\ OVOSCmusService.player (fst (snd (OVOSCmusService.add_list a st)))
       = OVOSCmusService.player (fst st)
    /\ OVOSCmusService.player (fst (snd (OVOSCmusService.clear_list st)))
       = OVOSCmusService.player (fst st).
Proof.
  intros a b [svc w]. unfold bind, OVOSCmusService.add_list,
    OVOSCmusService.clear_list.
  cbn [fst snd OVOSCmusService.tracks OVOSCmusService.index
       OVOSCmusService.player OVOSCmusService.config OVOSCmusService.bus
       OVOSCmusService.name].
  rewrite <- app_assoc. repeat split; reflexivity.
Qed.

Lemma unchanged_ret {S X A : Type} (f : S -> X) (a : A) : unchanged f (ret a).
Proof. intros st. reflexivity. Qed.

Lemma unchanged_bind {S X A B : Type} (f : S -> X) (m : M (S * World) A)
    (k : A -> M (S * World) B) :
  unchanged f m -> (forall a, unchanged f (k a)) -> unchanged f (bind m k).
Proof.
  intros Hm Hk st. specialize (Hm st). unfold bind.
  destruct (m st) as [[a|e] st']; cbn [fst snd] in *.
  - now rewrite (Hk a st').
  - exact Hm.
Qed.

Lemma unchanged_lift {S X A : Type} (f : S -> X) (get : S -> CmusPlayer)
    (set : CmusPlayer -> S -> S) (m : M PW A) :
  (forall p s, f (set p s) = f s) -> unchanged f (lift_player get set m).
Proof. intros H [svc w]. rewrite lift_player_run. cbn [fst snd]. apply H. Qed.

Lemma unchanged_emit {S X : Type} (f : S -> X) (h : OcpHook) :
  unchanged f (emit h).
Proof. intros st. reflexivity. Qed.

(** X14.  No call on a backend other than [add_list] and [clear_list]
    changes its queue, index, name, configuration or bus, whether it
    returns or raises: in particular [play] does not use up the queue, and
    a second [play] builds the same [add] command again. *)
Theorem backend_calls_keep_queue :
  forall (isprintable : N -> bool) (c : BackendCall),
    (forall st : OVOSCmusService.SW,
       ovos_frame (fst (snd (ovos_call isprintable c st))) = ovos_frame (fst st)
       /\ add_command isprintable
            (OVOSCmusService.tracks (fst (snd (ovos_call isprintable c st))))
          = add_command isprintable (OVOSCmusService.tracks (fst st)))
    /\ (forall st : CmusOCPAudioService.SW,
          ocp_frame (fst (snd (ocp_call isprintable c st))) = ocp_frame (fst st)
          /\ add_command isprintable
               (CmusOCPAudioService.tracks (fst (snd (ocp_call isprintable c st))))
             = add_command isprintable (CmusOCPAudioService.tracks (fst st))).
Proof.
  intros isprintable c.
  assert (unchanged ovos_frame (ovos_call isprintable c)) as A.
  { destruct c; cbn [ovos_call];
      unfold void, OVOSCmusService.play, OVOSCmusService.stop,
        OVOSCmusService.pause, OVOSCmusService.resume,
        OVOSCmusService.lower_volume, OVOSCmusService.restore_volume,
        OVOSCmusService.seek_forward, OVOSCmusService.seek_backward,
        OVOSCmusService.on_player, OVOSCmusService.get_tracks;
      repeat first
        [ apply unchanged_ret
        | apply unchanged_emit
        | apply unchanged_lift; intros ? ?; reflexivity
        | apply unchanged_bind
        | intros st; reflexivity
        | intros []; cbv beta iota
        | intro; cbv beta iota ]. }
  assert (unchanged ocp_frame (ocp_call isprintable c)) as B.
  { destruct c; cbn [ocp_call];
      unfold void, CmusOCPAudioService.play, CmusOCPAudioService.stop,
        CmusOCPAudioService.pause, CmusOCPAudioService.resume,
        CmusOCPAudioService.lower_volume, CmusOCPAudioService.restore_volume,
        CmusOCPAudioService.seek_forward, CmusOCPAudioService.seek_backward,
        CmusOCPAudioService.on_player, CmusOCPAudioService.get_tracks;
      repeat first
        [ apply unchanged_ret
        | apply unchanged_lift; intros ? ?; reflexivity
        | apply unchanged_bind
        | intros st; reflexivity
        | intros []; cbv beta iota
        | intro; cbv beta iota ]. }
  split; intros st.
  - pose proof (A st) as E. split; [exact E|].
    assert (OVOSCmusService.tracks (fst (snd (ovos_call isprintable c st)))
            = OVOSCmusService.tracks (fst st)) as T
      by (unfold ovos_frame in E; injection E; auto).
    now rewrite T.
  - pose proof (B st) as E. split; [exact E|].
    assert (CmusOCPAudioService.tracks (fst (snd (ocp_call isprintable c st)))
            = CmusOCPAudioService.tracks (fst st)) as T
      by (unfold ocp_frame in E; injection E; auto).
    now rewrite T.
Qed.

(** ** [pause], [resume] and the hooks *)

Lemma lift_query_run {S : Type} (get : S -> CmusPlayer)
    (set : CmusPlayer -> S -> S) (needle reply : pystr) (svc : S) (w : World) :
  status_reply (get svc, w) = Ok reply ->
  lift_player get set
    (r <- send_socket_command (str "status") ;; ret (str_in needle r)) (svc, w)
  = (Ok (str_in needle reply),
     (set (fst (snd (send_socket_command (str "status") (get svc, w)))) svc,
      snd (snd (send_socket_command (str "status") (get svc, w))))).
Proof.
  intros H. rewrite lift_player_run, (query_result needle reply _ H). reflexivity.
Qed.

Lemma lift_query_raise {S : Type} (get : S -> CmusPlayer)
    (set : CmusPlayer -> S -> S) (needle : pystr) (e : exn) (svc : S) (w : World) :
  status_reply (get svc, w) = Raise e ->
  lift_player get set
    (r <- send_socket_command (str "status") ;; ret (str_in needle r)) (svc, w)
  = (Raise e,
     (set (fst (snd (send_socket_command (str "status") (get svc, w)))) svc,
      snd (snd (send_socket_command (str "status") (get svc, w))))).
Proof.
  unfold status_reply. intros H. rewrite lift_player_run, query_run.
  destruct (send_socket_command (str "status") (get svc, w)) as [[r|x] st1];
    cbn [fst snd] in *; congruence.
Qed.

Lemma lift_command_run {S : Type} (get : S -> CmusPlayer)
    (set : CmusPlayer -> S -> S) (cmd : pystr) (svc : S) (w : World) :
  lift_player get set (send_socket_command cmd ;;; ret tt) (svc, w)
  = match send_socket_command cmd (get svc, w) with
    | (Ok _, st2) => (Ok tt, (set (fst st2) svc, snd st2))
    | (Raise e, st2) => (Raise e, (set (fst st2) svc, snd st2))
    end.
Proof.
  rewrite lift_player_run. unfold bind, ret.
  now destruct (send_socket_command cmd (get svc, w)) as [[r|e] st2].
Qed.

Lemma ovos_pause_run (svc : OVOSCmusService.t) (w : World) (reply : pystr) :
  status_reply (OVOSCmusService.player svc, w) = Ok reply ->
  OVOSCmusService.pause (svc, w)
  = let st1 := snd (send_socket_command (str "status")
                      (OVOSCmusService.player svc, w)) in
    if str_in (str "status paused") reply then
      (Ok tt, (OVOSCmusService.set_player (fst st1) svc, snd st1))
    else
      match send_socket_command (str "player-pause") st1 with
      | (Ok _, st2) =>
          (Ok tt, (OVOSCmusService.set_player (fst st2) svc,
                   log (EvOcp OcpPause) (snd st2)))
      | (Raise e, st2) =>
          (Raise e, (OVOSCmusService.set_player (fst st2) svc, snd st2))
      end.
Proof.
  intros H. cbn zeta. unfold OVOSCmusService.pause, OVOSCmusService.on_player.
  unfold is_paused.
  erewrite bind_ok by exact (lift_query_run _ _ _ _ _ _ H).
  destruct (str_in (str "status paused") reply); cbn [negb]; [reflexivity|].
  unfold bind at 1. unfold pause. rewrite lift_command_run.
  cbn [OVOSCmusService.player OVOSCmusService.set_player fst snd].
  rewrite surjective_state.
  now destruct (send_socket_command (str "player-pause") _) as [[r|e] st2].
Qed.

Lemma ovos_resume_run (svc : OVOSCmusService.t) (w : World) (reply : pystr) :
  status_reply (OVOSCmusService.player svc, w) = Ok reply ->
  OVOSCmusService.resume (svc, w)
  = let st1 := snd (send_socket_command (str "status")
                      (OVOSCmusService.player svc, w)) in
    if str_in (str "status paused") reply then
      match send_socket_command (str "player-pause") st1 with
      | (Ok _, st2) =>
          (Ok tt, (OVOSCmusService.set_player (fst st2) svc,
                   log (EvOcp OcpResume) (snd st2)))
      | (Raise e, st2) =>
          (Raise e, (OVOSCmusService.set_player (fst st2) svc, snd st2))
      end
    else (Ok tt, (OVOSCmusService.set_player (fst st1) svc, snd st1)).
Proof.
  intros H. cbn zeta. unfold OVOSCmusService.resume, OVOSCmusService.on_player.
  unfold is_paused.
  erewrite bind_ok by exact (lift_query_run _ _ _ _ _ _ H).
  destruct (str_in (str "status paused") reply); [|reflexivity].
  unfold bind at 1. unfold pause. rewrite lift_command_run.
  cbn [OVOSCmusService.player OVOSCmusService.set_player fst snd].
  rewrite surjective_state.
  now destruct (send_socket_command (str "player-pause") _) as [[r|e] st2].
Qed.

Lemma ocp_pause_run (svc : CmusOCPAudioService.t) (w : World) (reply : pystr) :
  status_reply (CmusOCPAudioService.player svc, w) = Ok reply ->
  CmusOCPAudioService.pause (svc, w)
  = let st1 := snd (send_socket_command (str "status")
                      (CmusOCPAudioService.player svc, w)) in
    if str_in (str "status paused") reply then
      (Ok tt, (CmusOCPAudioService.set_player (fst st1) svc, snd st1))
    else
      match send_socket_command (str "player-pause") st1 with
      | (Ok _, st2) =>
          (Ok tt, (CmusOCPAudioService.set_player (fst st2) svc, snd st2))
      | (Raise e, st2) =>
          (Raise e, (CmusOCPAudioService.set_player (fst st2) svc, snd st2))
      end.
Proof.
  intros H. cbn zeta.
  unfold CmusOCPAudioService.pause, CmusOCPAudioService.on_player.
  unfold is_paused.
  erewrite bind_ok by exact (lift_query_run _ _ _ _ _ _ H).
  destruct (str_in (str "status paused") reply); cbn [negb]; [reflexivity|].
  unfold pause. rewrite lift_command_run.
  cbn [CmusOCPAudioService.player CmusOCPAudioService.set_player fst snd].
  rewrite surjective_state.
  now destruct (send_socket_command (str "player-pause") _) as [[r|e] st2].
Qed.

Lemma ocp_resume_run (svc : CmusOCPAudioService.t) (w : World) (reply : pystr) :
  status_reply (CmusOCPAudioService.player svc, w) = Ok reply ->
  CmusOCPAudioService.resume (svc, w)
  = let st1 := snd (send_socket_command (str "status")
                      (CmusOCPAudioService.player svc, w)) in
    if str_in (str "status paused") reply then
      match send_socket_command (str "player-pause") st1 with
      | (Ok _, st2) =>
          (Ok tt, (CmusOCPAudioService.set_player (fst st2) svc, snd st2))
      | (Raise e, st2) =>
          (Raise e, (CmusOCPAudioService.set_player (fst st2) svc, snd st2))
      end
    else (Ok tt, (CmusOCPAudioService.set_player (fst st1) svc, snd st1)).
Proof.
  intros H. cbn zeta.
  unfold CmusOCPAudioService.resume, CmusOCPAudioService.on_player.
  unfold is_paused.
  erewrite bind_ok by exact (lift_query_run _ _ _ _ _ _ H).
  destruct (str_in (str "status paused") reply); [|reflexivity].
  unfold pause. rewrite lift_command_run.
  cbn [CmusOCPAudioService.player CmusOCPAudioService.set_player fst snd].
  rewrite surjective_state.
  now destruct (send_socket_command (str "player-pause") _) as [[r|e] st2].
Qed.

Lemma hooks_app (a b : list Event) : hooks (a ++ b) = hooks a ++ hooks b.
Proof. unfold hooks. apply flat_map_app. Qed.

Lemma quiet_ret {A : Type} (a : A) : quiet (ret a).
Proof. intros st. exists []. cbn. now rewrite app_nil_r. Qed.

Lemma quiet_raise {A : Type} (e : exn) : quiet (@raise PW A e).
Proof. intros st. exists []. cbn. now rewrite app_nil_r. Qed.

Lemma quiet_bind {A B : Type} (m : M PW A) (k : A -> M PW B) :
  quiet m -> (forall a, quiet (k a)) -> quiet (bind m k).
Proof.
  intros Hm Hk st. destruct (Hm st) as (e1 & T1 & H1). unfold bind.
  destruct (m st) as [[a|e] st1]; cbn [fst snd] in *.
  - destruct (Hk a st1) as (e2 & T2 & H2). exists (e1 ++ e2).
    rewrite T2, T1, hooks_app, H1, H2. now rewrite app_assoc.
  - now exists e1.
Qed.

Lemma quiet_world_op {A : Type} (f : World -> result A * World) :
  (forall w, exists evs, trace (snd (f w)) = trace w ++ evs /\ hooks evs = []) ->
  quiet (world_op f).
Proof.
  intros H [p w]. destruct (H w) as (evs & T & Hh). exists evs.
  unfold world_op. cbn [fst snd]. destruct (f w) as [r w']. now cbn in *.
Qed.

Lemma quiet_send_socket_command (cmd : pystr) : quiet (send_socket_command cmd).
Proof.
  unfold send_socket_command, get_open_socket, create_socket, connect_socket,
    socket_path, encode, decode.
  assert (forall cs, quiet (first_existing cs)) as F.
  { induction cs as [|c cs IH]; cbn [first_existing]; [apply quiet_raise|].
    apply quiet_bind.
    - apply quiet_world_op. intros w. eexists. split; [read_trace | reflexivity].
    - intros []; [apply quiet_ret | exact IH]. }
  assert (forall key, quiet (os_environ key)) as Env.
  { intros key. apply quiet_world_op. intros w.
    destruct (assoc_get key (environ w)); exists []; cbn;
      now rewrite app_nil_r. }
  apply quiet_bind.
  - apply quiet_bind; [intros st; exists []; cbn; now rewrite app_nil_r|].
    intros [s|]; [apply quiet_ret|].
    apply quiet_bind.
    { apply quiet_world_op. intros w. eexists. split; [read_trace | reflexivity]. }
    intros s. apply quiet_bind.
    { apply quiet_bind.
      - apply quiet_bind; [apply Env|]. intros xdg.
        apply quiet_bind; [apply Env|]. intros home. apply F.
      - intros path. apply quiet_world_op. intros w.
        destruct (listening w path); eexists; (split; [read_trace | reflexivity]). }
    intros _. apply quiet_bind; [|intros _; apply quiet_ret].
    intros st. exists []. cbn. now rewrite app_nil_r.
  - intros s. apply quiet_bind.
    { destruct (encode_ascii (cmd ++ newline)); [apply quiet_ret | apply quiet_raise]. }
    intros data. apply quiet_bind.
    { apply quiet_world_op. intros w.
      destruct (peer_alive w); eexists; (split; [read_trace | reflexivity]). }
    intros _. apply quiet_bind.
    { apply quiet_world_op. intros w.
      destruct (inbox w) as [|[d|] rest]; eexists;
        (split; [read_trace | reflexivity]). }
    intros reply.
    destruct (utf8_decode reply); [apply quiet_ret | apply quiet_raise].
Qed.

Lemma quiet_events {A : Type} (m : M PW A) (st : PW) :
  quiet m -> hooks (new_events (snd st) (snd (snd (m st)))) = [].
Proof.
  intros Q. destruct (Q st) as (evs & T & H).
  now rewrite (new_events_app _ _ evs T).
Qed.

Lemma quiet_extends {A : Type} (m : M PW A) (st : PW) :
  quiet m ->
  trace (snd (snd (m st)))
  = trace (snd st) ++ new_events (snd st) (snd (snd (m st))).
Proof.
  intros Q. destruct (Q st) as (evs & T & H).
  now rewrite (new_events_app _ _ evs T).
Qed.

(** The trace after a status query that was answered, then one more
    command, then the events [tl]. *)
Lemma query_then_command (w : World) (st st1 : PW) (reply cmd : pystr)
    (tl : list Event) :
  snd st = w ->
  status_reply st = Ok reply ->
  st1 = snd (send_socket_command (str "status") st) ->
  is_ascii cmd = true ->
  wire tl = [] ->
  wire (new_events w (snd st1)) = [str "status" ++ newline]
  /\ forall after,
       trace after = trace (snd (snd (send_socket_command cmd st1))) ++ tl ->
       wire (new_events w after) = [str "status" ++ newline; cmd ++ newline].
Proof.
  intros <- H -> A Wt.
  destruct (command_answered _ _ _ H) as (e1 & T1 & W1 & H1).
  set (st1 := snd (send_socket_command (str "status") st)) in *.
  destruct (command_written cmd st1 H1 A) as (e2 & T2 & W2 & _).
  split.
  - now rewrite (new_events_app _ _ e1 T1).
  - intros after Ta. rewrite (new_events_app _ after (e1 ++ e2 ++ tl)).
    + rewrite !wire_app, W1, W2, Wt. reflexivity.
    + rewrite Ta, T2, T1. now rewrite <- !app_assoc.
Qed.

(** X15.  [pause] and [resume] of either backend share the toggle between
    them: once the player has answered the status query, [pause] writes
    [player-pause] exactly when the answer does not say paused, and
    [resume] exactly when it does, so on any one answer one of the two
    writes the toggle and the other writes nothing but the query. *)
Theorem pause_resume_complement :
  (forall (svc : OVOSCmusService.t) (w : World) (reply : pystr),
     status_reply (OVOSCmusService.player svc, w) = Ok reply ->
     pause_resume_contract reply w
       (snd (snd (OVOSCmusService.pause (svc, w))))
       (snd (snd (OVOSCmusService.resume (svc, w)))))
  /\ (forall (svc : CmusOCPAudioService.t) (w : World) (reply : pystr),
        status_reply (CmusOCPAudioService.player svc, w) = Ok reply ->
        pause_resume_contract reply w
          (snd (snd (CmusOCPAudioService.pause (svc, w))))
          (snd (snd (CmusOCPAudioService.resume (svc, w))))).
Proof.
  split; intros svc w reply H.
  - rewrite (ovos_pause_run svc w reply H), (ovos_resume_run svc w reply H).
    cbn zeta.
    destruct (query_then_command w (OVOSCmusService.player svc, w) _ reply (str "player-pause") []
                eq_refl H eq_refl eq_refl eq_refl) as [Q0 Q1].
    destruct (query_then_command w (OVOSCmusService.player svc, w) _ reply (str "player-pause")
                [EvOcp OcpPause] eq_refl H eq_refl eq_refl eq_refl) as [_ Qp].
    destruct (query_then_command w (OVOSCmusService.player svc, w) _ reply (str "player-pause")
                [EvOcp OcpResume] eq_refl H eq_refl eq_refl eq_refl) as [_ Qr].
    unfold pause_resume_contract.
    destruct (str_in (str "status paused") reply);
      destruct (send_socket_command (str "player-pause") _) as [[r|e] st2];
      cbn [fst snd] in *; split;
      first [ exact Q0
            | apply Qp; reflexivity
            | apply Qr; reflexivity
            | apply Q1; now rewrite app_nil_r ].
  - rewrite (ocp_pause_run svc w reply H), (ocp_resume_run svc w reply H).
    cbn zeta.
    destruct (query_then_command w (CmusOCPAudioService.player svc, w) _ reply (str "player-pause") []
                eq_refl H eq_refl eq_refl eq_refl) as [Q0 Q1].
    unfold pause_resume_contract.
    destruct (str_in (str "status paused") reply);
      destruct (send_socket_command (str "player-pause") _) as [[r|e] st2];
      cbn [fst snd] in *; split;
      first [ exact Q0 | apply Q1; now rewrite app_nil_r ].
Qed.

Lemma pause_resume_complement_witness :
  wire (new_events (sample_world true 1 [says "status playing"; says ""])
          (snd (snd (OVOSCmusService.pause
                       (sample_ovos [],
                        sample_world true 1 [says "status playing"; says ""])))))
  = [str "status" ++ newline; str "player-pause" ++ newline]
  /\ wire (new_events (sample_world true 1 [says "status playing"; says ""])
             (snd (snd (OVOSCmusService.resume
                          (sample_ovos [],
                           sample_world true 1 [says "status playing"; says ""])))))
     = [str "status" ++ newline].
Proof.
  exact (proj1 pause_resume_complement (sample_ovos [])
           (sample_world true 1 [says "status playing"; says ""])
           (str "status playing") eq_refl).
Defined.

Lemma ovos_stop_raise (svc : OVOSCmusService.t) (w : World) (e : exn) :
  status_reply (OVOSCmusService.player svc, w) = Raise e ->
  OVOSCmusService.stop (svc, w)
  = (Raise e,
     (OVOSCmusService.set_player
        (fst (snd (send_socket_command (str "status")
                     (OVOSCmusService.player svc, w)))) svc,
      snd (snd (send_socket_command (str "status")
                  (OVOSCmusService.player svc, w))))).
Proof.
  intros H. unfold OVOSCmusService.stop, OVOSCmusService.on_player, is_playing.
  now erewrite bind_raise by exact (lift_query_raise _ _ _ _ _ _ H).
Qed.

(** The hooks in the trace after a status query, then one more command,
    then the events [tl]. *)
Lemma hooks_after (w : World) (st : PW) (cmd : pystr) :
  snd st = w ->
  hooks (new_events w (snd (snd (send_socket_command (str "status") st)))) = []
  /\ forall after tl,
       trace after
       = trace (snd (snd (send_socket_command cmd
                            (snd (send_socket_command (str "status") st))))) ++ tl ->
       hooks (new_events w after) = hooks tl.
Proof.
  intros <-.
  destruct (quiet_send_socket_command (str "status") st) as (e1 & T1 & H1).
  split; [now rewrite (new_events_app _ _ e1 T1)|].
  intros after tl Ta.
  destruct (quiet_send_socket_command cmd
              (snd (send_socket_command (str "status") st))) as (e2 & T2 & H2).
  rewrite (new_events_app _ after (e1 ++ e2 ++ tl)).
  - now rewrite !hooks_app, H1, H2.
  - rewrite Ta, T2, T1. now rewrite <- !app_assoc.
Qed.

(** X16.  The hooks of [OVOSCmusService] follow the commands: [play] calls
    the start hook first, before anything is sent and whether or not the
    commands then go through, and no other hook; [stop] calls the stop hook
    exactly when it returns true, after the [player-stop] exchange has
    succeeded, and no hook when it returns false or raises; [pause] and
    [resume] call their hook only when they sent the toggle and its
    exchange succeeded. *)
Theorem ovos_hooks :
  forall (isprintable : N -> bool) (svc : OVOSCmusService.t) (w : World),
    (exists rest,
       new_events w (snd (snd (OVOSCmusService.play isprintable (svc, w))))
       = EvOcp OcpStart :: rest
       /\ hooks rest = [])
    /\ hooks (new_events w (snd (snd (OVOSCmusService.stop (svc, w)))))
       = match fst (OVOSCmusService.stop (svc, w)) with
         | Ok true => [OcpStop]
         | _ => []
         end
    /\ (forall reply,
          status_reply (OVOSCmusService.player svc, w) = Ok reply ->
          hooks (new_events w (snd (snd (OVOSCmusService.pause (svc, w)))))
          = (if str_in (str "status paused") reply then []
             else match fst (send_socket_command (str "player-pause")
                               (snd (send_socket_command (str "status")
                                       (OVOSCmusService.player svc, w)))) with
                  | Ok _ => [OcpPause]
                  | Raise _ => []
                  end)
          /\ hooks (new_events w (snd (snd (OVOSCmusService.resume (svc, w)))))
             = (if str_in (str "status paused") reply
                then match fst (send_socket_command (str "player-pause")
                                  (snd (send_socket_command (str "status")
                                          (OVOSCmusService.player svc, w)))) with
                     | Ok _ => [OcpResume]
                     | Raise _ => []
                     end
                else [])).
Proof.
  intros isprintable svc w. split; [|split].
  - rewrite ovos_play_run. cbn zeta. cbn [fst snd].
    assert (quiet (add_then_play isprintable (OVOSCmusService.tracks svc))) as Q.
    { unfold add_then_play, add_path, play.
      repeat first [ apply quiet_send_socket_command | apply quiet_ret
                   | apply quiet_bind | intro ]. }
    destruct (Q (OVOSCmusService.player svc, log (EvOcp OcpStart) w))
      as (evs & T & H).
    exists evs. split; [|exact H]. apply new_events_app. rewrite T. read_trace.
  - destruct (hooks_after w (OVOSCmusService.player svc, w) (str "player-stop")
                eq_refl) as [H0 H1].
    destruct (status_reply (OVOSCmusService.player svc, w)) as [reply|e] eqn:S.
    + rewrite (ovos_stop_run svc w reply S). cbn zeta.
      destruct (str_in (str "status playing") reply); [|exact H0].
      destruct (send_socket_command (str "player-stop") _) as [[r|e] st2];
        cbn [fst snd] in *.
      * apply (H1 _ [EvOcp OcpStop]). reflexivity.
      * apply (H1 _ []). now rewrite app_nil_r.
    + rewrite (ovos_stop_raise svc w e S). exact H0.
  - intros reply S.
    destruct (hooks_after w (OVOSCmusService.player svc, w) (str "player-pause")
                eq_refl) as [H0 H1].
    rewrite (ovos_pause_run svc w reply S), (ovos_resume_run svc w reply S).
    cbn zeta.
    destruct (str_in (str "status paused") reply);
      destruct (send_socket_command (str "player-pause") _) as [[r|e] st2];
      cbn [fst snd] in *; split;
      first [ exact H0
            | apply (H1 _ [EvOcp OcpPause]); reflexivity
            | apply (H1 _ [EvOcp OcpResume]); reflexivity
            | apply (H1 _ []); now rewrite app_nil_r ].
Qed.

Lemma ovos_hooks_witness :
  hooks (new_events (sample_world true 1 [says "status paused"; says ""])
           (snd (snd (OVOSCmusService.resume
                        (sample_ovos [],
                         sample_world true 1 [says "status paused"; says ""])))))
  = [OcpResume].
Proof.
  exact (proj2 (proj2 (proj2 (ovos_hooks latin1_printable (sample_ovos [])
                                (sample_world true 1 [says "status paused"; says ""])))
                 (str "status paused") eq_refl)).
Defined.

(** ** Errors in [play] *)

Lemma add_then_play_raise (isprintable : N -> bool) (queued : list pystr)
    (st : PW) (w : World) (pre : list Event) (e : exn) :
  trace (snd st) = trace w ++ pre ->
  wire pre = [] ->
  fst (send_socket_command (add_command isprintable queued) st) = Raise e ->
  play_failure_contract e w
    (fst (add_then_play isprintable queued st))
    (snd (snd (add_then_play isprintable queued st))).
Proof.
  intros Tp Wp H. unfold add_then_play, add_path. cbn [format_obj].
  fold (add_command isprintable queued).
  destruct (send_socket_command (add_command isprintable queued) st)
    as [[r|x] st1] eqn:E; cbn [fst] in H; [discriminate|]. injection H as ->.
  destruct (send_socket_command_facts _ _ _ _ E) as (evs & T & _ & _ & W & _).
  erewrite bind_raise by (erewrite bind_raise by exact E; reflexivity).
  unfold play_failure_contract. cbn [fst snd]. split; [reflexivity|].
  rewrite (new_events_app w _ (pre ++ evs)) by now rewrite T, Tp, app_assoc.
  rewrite wire_app, Wp. cbn [app].
  pose proof (add_command_not_play isprintable queued) as N.
  destruct W as [-> | ->]; unfold count_cmd; cbn [count_occ]; [reflexivity|].
  destruct (list_eq_dec N.eq_dec _ _) as [X|_]; [|reflexivity].
  symmetry in X. now destruct N.
Qed.

(** X17.  Whatever makes the [add] command of [play] raise, a missing
    socket, a refused connect, a lost connection, a reply that does not
    decode or a track name outside ASCII, [play] of either backend raises
    that same error and never writes [player-play]. *)
Theorem play_stops_at_failed_add :
  forall (isprintable : N -> bool) (e : exn),
    (forall (svc : OVOSCmusService.t) (w : World),
       fst (send_socket_command
              (add_command isprintable (OVOSCmusService.tracks svc))
              (OVOSCmusService.player svc, log (EvOcp OcpStart) w)) = Raise e ->
       play_failure_contract e w
         (fst (OVOSCmusService.play isprintable (svc, w)))
         (snd (snd (OVOSCmusService.play isprintable (svc, w)))))
    /\ (forall (svc : CmusOCPAudioService.t) (w : World),
          fst (send_socket_command
                 (add_command isprintable (CmusOCPAudioService.tracks svc))
                 (CmusOCPAudioService.player svc, w)) = Raise e ->
          play_failure_contract e w
            (fst (CmusOCPAudioService.play isprintable (svc, w)))
            (snd (snd (CmusOCPAudioService.play isprintable (svc, w))))).
Proof.
  intros isprintable e. split; intros svc w H.
  - rewrite ovos_play_run. cbn zeta. cbn [fst snd].
    now apply (add_then_play_raise _ _ _ w [EvOcp OcpStart]).
  - rewrite ocp_play_run. cbn zeta. cbn [fst snd].
    apply (add_then_play_raise _ _ _ w []); [|reflexivity|exact H].
    cbn [snd]. now rewrite app_nil_r.
Qed.

Lemma play_stops_at_failed_add_witness :
  play_failure_contract OSError (sample_world false 1 [])
    (fst (CmusOCPAudioService.play latin1_printable
            (sample_ocp [str "a.mp3"], sample_world false 1 [])))
    (snd (snd (CmusOCPAudioService.play latin1_printable
                 (sample_ocp [str "a.mp3"], sample_world false 1 [])))).
Proof.
  exact (proj2 (play_stops_at_failed_add latin1_printable OSError)
           (sample_ocp [str "a.mp3"]) (sample_world false 1 []) eq_refl).
Defined.
